(** * go_news: the generation pipeline of the Hacker News podcast service

    A shallow embedding of the Go sources

      - [internal/ai/client.go]        (retry wrapper around generation calls)
      - [internal/crawler/hackernews.go] (front page listing, item content
        fetch)
      - [internal/storage/minio.go]    (artifact store client)
      - [internal/tts]                 (voices, escaping, the Edge request)
      - [config/config.go], package [config] (settings read from the
        environment) and package [api] (HTTP entry point, the handlers that
        serve and delete what is stored, pipeline, turn splitting, audio
        merge)

    Go strings are byte sequences; they are modelled by [string], one
    [ascii] per byte, so that the UTF-8 literals of the source ("男", "女",
    the full-width colon) keep their byte encodings.  Go [int] values are
    modelled by [Z]; where the source multiplies a configured value, the
    wrap-around of the 64-bit [int] is written out, and a slice expression
    that can leave its range returns [None] for the run-time panic.
    Calls that leave the process (object store, HTTP, chat completion,
    speech synthesis, file system, ffmpeg, sleeping) are the actions of a
    small free monad [Prog]; a run is the interpretation of a program by
    a handler over an explicit world that records the trace of calls.
    [log.Printf] lines are not modelled. *)

From Stdlib Require Import ZArith Ascii String List Bool Lia.
From stdpp Require Import base option list gmap strings pretty.

Import ListNotations.
Local Open Scope string_scope.
Local Open Scope list_scope.
Local Open Scope Z_scope.

(** ** Go values *)

(** Go's [error] interface: only the message is observable here. *)
Definition error := string.

(** A Go pair [(value, err)] where exactly one side is meaningful. *)
Inductive result (A : Type) : Type :=
| Ok (a : A)
| Err (e : error).
Arguments Ok {A} a.
Arguments Err {A} e.

Definition isOk {A} (r : result A) : bool :=
  match r with Ok _ => true | Err _ => false end.

(** [fmt.Errorf(prefix + "%w", err)]. *)
Definition Errorf_w (prefix : string) (e : error) : error := prefix +:+ e.

(** [s[i]] as an integer, 0 out of range (never reached by the code below). *)
Definition byteOf (c : ascii) : Z := Z.of_N (N_of_ascii c).

Definition byteAt (s : string) (i : nat) : Z :=
  match String.get i s with
  | Some c => byteOf c
  | None => 0
  end.

(** [len(s)] *)
Definition len (s : string) : Z := Z.of_nat (String.length s).

(** [s[lo:hi]] and [s[lo:]] for in-range indices. *)
Definition slice (s : string) (lo hi : nat) : string :=
  String.substring lo (hi - lo) s.

Definition sliceFrom (s : string) (lo : nat) : string :=
  String.substring lo (String.length s - lo) s.

(** Go's [int] is 64 bits wide on the platforms the service is built
    for; the result of an operation on [int] wraps around in two's
    complement. *)
Definition minInt : Z := -9223372036854775808.
Definition maxInt : Z := 9223372036854775807.

Definition wrapInt (z : Z) : Z :=
  (z - minInt) mod 18446744073709551616 + minInt.

(** [s[:hi]]; [None] is the run-time panic for an index out of range. *)
Definition sliceTo (s : string) (hi : Z) : option string :=
  if (hi <? 0) || (len s <? hi) then None
  else Some (slice s 0 (Z.to_nat hi)).

(** ** Package [unicode/utf8] (Go standard library) *)

Module utf8.

Definition RuneError : Z := 0xFFFD.
Definition RuneSelf : Z := 0x80.
Definition UTFMax : nat := 4.

Definition maskx : Z := 0x3F.
Definition mask2 : Z := 0x1F.
Definition mask3 : Z := 0x0F.
Definition mask4 : Z := 0x07.
Definition locb : Z := 0x80.
Definition hicb : Z := 0xBF.

(** The [first] table together with [acceptRanges]: what a leading byte
    announces. *)
Inductive firstInfo :=
| as_                                   (* ASCII *)
| xx                                    (* invalid leading byte *)
| lead (size : nat) (lo hi : Z).        (* size and accepted second byte *)

Definition first (b : Z) : firstInfo :=
  if b <? 0x80 then as_
  else if b <? 0xC2 then xx
  else if b <? 0xE0 then lead 2 locb hicb
  else if b =? 0xE0 then lead 3 0xA0 hicb
  else if b <? 0xED then lead 3 locb hicb
  else if b =? 0xED then lead 3 locb 0x9F
  else if b <? 0xF0 then lead 3 locb hicb
  else if b =? 0xF0 then lead 4 0x90 hicb
  else if b <? 0xF4 then lead 4 locb hicb
  else if b =? 0xF4 then lead 4 locb 0x8F
  else xx.

(** [utf8.DecodeRuneInString]: the first rune of [s] and its width in
    bytes; [(RuneError, 0)] on the empty string, [(RuneError, 1)] on an
    invalid encoding. *)
Definition DecodeRuneInString (s : string) : Z * nat :=
  match s with
  | EmptyString => (RuneError, 0%nat)
  | String c0 t0 =>
    let s0 := byteOf c0 in
    match first s0 with
    | as_ => (s0, 1%nat)
    | xx => (RuneError, 1%nat)
    | lead sz lo hi =>
      if (String.length s <? sz)%nat then (RuneError, 1%nat) else
      match t0 with
      | EmptyString => (RuneError, 1%nat)
      | String c1 t1 =>
        let s1 := byteOf c1 in
        if (s1 <? lo) || (hi <? s1) then (RuneError, 1%nat) else
        if (sz <=? 2)%nat then
          (Z.lor (Z.shiftl (Z.land s0 mask2) 6) (Z.land s1 maskx), 2%nat)
        else
        match t1 with
        | EmptyString => (RuneError, 1%nat)
        | String c2 t2 =>
          let s2 := byteOf c2 in
          if (s2 <? locb) || (hicb <? s2) then (RuneError, 1%nat) else
          if (sz <=? 3)%nat then
            (Z.lor (Z.lor (Z.shiftl (Z.land s0 mask3) 12)
                          (Z.shiftl (Z.land s1 maskx) 6))
                   (Z.land s2 maskx), 3%nat)
          else
          match t2 with
          | EmptyString => (RuneError, 1%nat)
          | String c3 _ =>
            let s3 := byteOf c3 in
            if (s3 <? locb) || (hicb <? s3) then (RuneError, 1%nat) else
            (Z.lor (Z.lor (Z.lor (Z.shiftl (Z.land s0 mask4) 18)
                                 (Z.shiftl (Z.land s1 maskx) 12))
                          (Z.shiftl (Z.land s2 maskx) 6))
                   (Z.land s3 maskx), 4%nat)
          end
        end
      end
    end
  end.

(** [utf8.RuneStart] *)
Definition RuneStart (b : Z) : bool := negb (Z.land b 0xC0 =? 0x80).

(** The backward scan of [DecodeLastRuneInString]:
    [for start--; start >= lim; start-- { if RuneStart(s[start]) { break } }],
    entered with [start] already decremented. *)
Fixpoint lastStart (s : string) (lim : Z) (fuel : nat) (start : Z) : Z :=
  match fuel with
  | O => start
  | S fuel' =>
    if start <? lim then start
    else if RuneStart (byteAt s (Z.to_nat start)) then start
    else lastStart s lim fuel' (start - 1)
  end.

(** [utf8.DecodeLastRuneInString] *)
Definition DecodeLastRuneInString (s : string) : Z * nat :=
  let end_ := len s in
  if end_ =? 0 then (RuneError, 0%nat) else
  let start := end_ - 1 in
  let r := byteAt s (Z.to_nat start) in
  if r <? RuneSelf then (r, 1%nat) else
  let lim := Z.max 0 (end_ - Z.of_nat UTFMax) in
  let start := lastStart s lim UTFMax (start - 1) in
  let start := Z.max 0 start in
  let '(r, size) := DecodeRuneInString (slice s (Z.to_nat start) (Z.to_nat end_)) in
  if start + Z.of_nat size =? end_ then (r, size) else (RuneError, 1%nat).

End utf8.

(** ** Package [unicode] (Go standard library) *)

Module unicode.

(** [unicode.IsSpace]: the Latin-1 cases, then the [White_Space] range
    table. *)
Definition IsSpace (r : Z) : bool :=
  if (0 <=? r) && (r <=? 0xFF) then
    (r =? 0x09) || (r =? 0x0A) || (r =? 0x0B) || (r =? 0x0C) || (r =? 0x0D)
    || (r =? 0x20) || (r =? 0x85) || (r =? 0xA0)
  else
    (r =? 0x1680) || ((0x2000 <=? r) && (r <=? 0x200A))
    || (r =? 0x2028) || (r =? 0x2029) || (r =? 0x202F) || (r =? 0x205F)
    || (r =? 0x3000).

End unicode.

(** ** Package [strings] (Go standard library) *)

Module strings.

(** [strings.HasPrefix] *)
Definition HasPrefix (s prefix : string) : bool := String.prefix prefix s.

(** [strings.Split(s, sep)] for a non-empty separator: the substrings
    between the occurrences of [sep], scanned left to right without
    overlap.  [skip] counts the bytes of a matched separator still to be
    passed over; [cur] is the current piece, reversed. *)
Fixpoint Split_from (sep : string) (skip : nat) (cur : list ascii) (s : string)
  : list string :=
  match s with
  | EmptyString => [string_of_list_ascii (rev cur)]
  | String c t =>
    match skip with
    | S k => Split_from sep k cur t
    | O =>
      if String.prefix sep s
      then string_of_list_ascii (rev cur)
             :: Split_from sep (String.length sep - 1) [] t
      else Split_from sep 0 (c :: cur) t
    end
  end.

Definition Split (s sep : string) : list string := Split_from sep 0 [] s.

(** [for i, c := range s]: the index of the first rune satisfying [f],
    or -1.  [skip] counts the remaining bytes of the rune being passed. *)
Fixpoint rangeIndex (f : Z → bool) (skip : nat) (i : Z) (s : string) : Z :=
  match s with
  | EmptyString => -1
  | String _ t =>
    match skip with
    | S k => rangeIndex f k (i + 1) t
    | O =>
      let '(c, w) := utf8.DecodeRuneInString s in
      if f c then i else rangeIndex f (w - 1) (i + 1) t
    end
  end.

(** Does the rune [r] occur among the code points of [chars]? *)
Definition containsRune (chars : string) (r : Z) : bool :=
  negb (rangeIndex (Z.eqb r) 0 0 chars =? -1).

(** [strings.IndexAny]: the byte index of the first instance of any code
    point from [chars] in [s], or -1. *)
Definition IndexAny (s chars : string) : Z :=
  if String.eqb chars "" then -1
  else rangeIndex (containsRune chars) 0 0 s.

(** [indexFunc(s, f, truth)] *)
Definition indexFunc (s : string) (f : Z → bool) (truth : bool) : Z :=
  rangeIndex (fun r => Bool.eqb (f r) truth) 0 0 s.

(** [lastIndexFunc(s, f, truth)]:
    [for i := len(s); i > 0; { r, size := DecodeLastRuneInString(s[0:i]);
       i -= size; if f(r) == truth { return i } }; return -1]. *)
Fixpoint lastIndexFunc_from (s : string) (f : Z → bool) (truth : bool)
         (fuel : nat) (i : nat) : Z :=
  match fuel with
  | O => -1
  | S fuel' =>
    if (0 <? i)%nat then
      let '(r, size) := utf8.DecodeLastRuneInString (slice s 0 i) in
      let i := (i - size)%nat in
      if Bool.eqb (f r) truth then Z.of_nat i
      else lastIndexFunc_from s f truth fuel' i
    else -1
  end.

Definition lastIndexFunc (s : string) (f : Z → bool) (truth : bool) : Z :=
  lastIndexFunc_from s f truth (String.length s) (String.length s).

(** [strings.TrimLeftFunc] *)
Definition TrimLeftFunc (s : string) (f : Z → bool) : string :=
  let i := indexFunc s f false in
  if i =? -1 then "" else sliceFrom s (Z.to_nat i).

(** [strings.TrimRightFunc] *)
Definition TrimRightFunc (s : string) (f : Z → bool) : string :=
  let i := lastIndexFunc s f false in
  let i :=
    if (0 <=? i) && (utf8.RuneSelf <=? byteAt s (Z.to_nat i)) then
      let '(_, wid) := utf8.DecodeRuneInString (sliceFrom s (Z.to_nat i)) in
      i + Z.of_nat wid
    else i + 1 in
  slice s 0 (Z.to_nat i).

(** [strings.TrimFunc] *)
Definition TrimFunc (s : string) (f : Z → bool) : string :=
  TrimRightFunc (TrimLeftFunc s f) f.

(** The [asciiSpace] table. *)
Definition asciiSpace (c : Z) : bool :=
  (c =? 0x09) || (c =? 0x0A) || (c =? 0x0B) || (c =? 0x0C) || (c =? 0x0D)
  || (c =? 0x20).

(** First loop of [TrimSpace]: [inl start] when an ASCII non-space byte
    (or the end) stops the scan at [start], [inr start] when a non-ASCII
    byte at [start] sends the rest to the Unicode-aware path. *)
Fixpoint trimStart (s : string) (start : nat) : nat + nat :=
  match s with
  | EmptyString => inl start
  | String c t =>
    if utf8.RuneSelf <=? byteOf c then inr start
    else if asciiSpace (byteOf c) then trimStart t (S start)
    else inl start
  end.

(** Second loop of [TrimSpace], from [stop] down to [start]. *)
Fixpoint trimStop (s : string) (start : nat) (fuel : nat) (stop : nat) : nat + nat :=
  match fuel with
  | O => inl stop
  | S fuel' =>
    if (start <? stop)%nat then
      let c := byteAt s (stop - 1) in
      if utf8.RuneSelf <=? c then inr stop
      else if asciiSpace c then trimStop s start fuel' (stop - 1)
      else inl stop
    else inl stop
  end.

(** [strings.TrimSpace]: [s] without leading and trailing Unicode white
    space. *)
Definition TrimSpace (s : string) : string :=
  match trimStart s 0 with
  | inr start => TrimFunc (sliceFrom s start) unicode.IsSpace
  | inl start =>
    match trimStop s start (String.length s) (String.length s) with
    | inr stop => TrimRightFunc (slice s start stop) unicode.IsSpace
    | inl stop => slice s start stop
    end
  end.

(** [strings.Join] *)
Fixpoint Join (elems : list string) (sep : string) : string :=
  match elems with
  | [] => ""
  | [e] => e
  | e :: rest => e +:+ sep +:+ Join rest sep
  end.

(** [strings.ReplaceAll(s, old, new)] for a non-empty [old]: the
    occurrences of [old], scanned left to right without overlap, are
    replaced by [new].  [skip] counts the bytes of a matched occurrence
    still to be passed over. *)
Fixpoint replaceFrom (old new : string) (skip : nat) (s : string) : string :=
  match s with
  | EmptyString => ""
  | String c t =>
    match skip with
    | S k => replaceFrom old new k t
    | O =>
      if String.prefix old s
      then new +:+ replaceFrom old new (String.length old - 1) t
      else String c (replaceFrom old new 0 t)
    end
  end.

(** For an empty [old]: [new] is put before every rune of [s] (and, by
    [ReplaceAll], once more at the end).  [skip] counts the remaining
    bytes of the rune being copied. *)
Fixpoint insertFrom (new : string) (skip : nat) (s : string) : string :=
  match s with
  | EmptyString => ""
  | String c t =>
    match skip with
    | S k => String c (insertFrom new k t)
    | O =>
      let '(_, wid) := utf8.DecodeRuneInString s in
      new +:+ String c (insertFrom new (wid - 1) t)
    end
  end.

(** [strings.ReplaceAll] *)
Definition ReplaceAll (s old new : string) : string :=
  if String.eqb old new then s
  else if String.eqb old "" then insertFrom new 0 s +:+ new
  else replaceFrom old new 0 s.

End strings.

(** The line feed, and the delimiter the sources put between joined
    texts: two line feeds, three dashes, two line feeds. *)
Definition LF : string := String "010" "".
Definition separator : string := LF +:+ LF +:+ "---" +:+ LF +:+ LF.

(** ** Programs over external calls

    [Prog C R A] is a computation that returns an [A] after issuing calls
    [c : C], each answered by a response of type [R c].  Go's sequential
    control flow is [mbind]; an early [return] is a [Ret] that skips the
    continuation. *)

Inductive Prog (C : Type) (R : C → Type) (A : Type) : Type :=
| Ret (a : A)
| Do (c : C) (k : R c → Prog C R A).
Arguments Ret {C R A} a.
Arguments Do {C R A} c k.

Fixpoint bind {C R A B} (p : Prog C R A) (f : A → Prog C R B) : Prog C R B :=
  match p with
  | Ret a => f a
  | Do c k => Do c (fun r => bind (k r) f)
  end.

Global Instance Prog_ret {C R} : MRet (Prog C R) := fun A a => Ret a.
Global Instance Prog_bind {C R} : MBind (Prog C R) := fun A B f p => bind p f.

(** One call, returning its response. *)
Definition call {C R} (c : C) : Prog C R (R c) := Do c Ret.

(** A handler answers a call in a world and updates the world. *)
Definition Handler (C : Type) (R : C → Type) (W : Type) : Type :=
  ∀ c : C, W → R c * W.

Fixpoint run {C R W A} (h : Handler C R W) (p : Prog C R A) (w : W) : A * W :=
  match p with
  | Ret a => (a, w)
  | Do c k => let '(r, w') := h c w in run h (k r) w'
  end.

(** A trace entry: a call and the response it got. *)
Record Entry (C : Type) (R : C → Type) : Type :=
  mkEntry { callOf : C; respOf : R callOf }.
Arguments mkEntry {C R} callOf respOf.
Arguments callOf {C R} e.
Arguments respOf {C R} e.

Definition calls {C R} (tr : list (Entry C R)) : list C := map callOf tr.

(** The environment as an oracle: the response to the [n]-th call of a
    run (counting from 0) may depend on [n] and on the call. *)
Definition Oracle (C : Type) (R : C → Type) : Type := nat → ∀ c : C, R c.

(** The handler that only consults the oracle; its world is the trace. *)
Definition oracleHandler {C R} (o : Oracle C R) : Handler C R (list (Entry C R)) :=
  fun c tr => let r := o (length tr) c in (r, tr ++ [mkEntry c r]).

(** A run from the empty trace. *)
Definition exec {C R A} (o : Oracle C R) (p : Prog C R A) : A * list (Entry C R) :=
  run (oracleHandler o) p [].

(** [time.Duration], in nanoseconds. *)
Definition Duration := Z.
Definition Second : Duration := 1000000000.
Definition Minute : Duration := 60 * Second.

(** ** Package [ai]: [internal/ai/client.go] *)

Module ai.

(** [openai.ChatCompletionMessage] and [openai.ChatCompletionRequest],
    the fields the client sets. *)
Record ChatCompletionMessage := { Role : string; Content : string }.

Record ChatCompletionRequest := {
  Model : string;
  Messages : list ChatCompletionMessage;
  MaxTokens : Z
}.

(** [openai.ChatCompletionResponse]: the contents of [Choices] and
    [Usage.TotalTokens]. *)
Record ChatCompletionResponse := {
  Choices : list string;
  TotalTokens : Z
}.

Definition ChatMessageRoleSystem : string := "system".
Definition ChatMessageRoleUser : string := "user".

(** What leaves the process: a chat completion under a timeout context,
    and [time.Sleep]. *)
Inductive Call :=
| CreateChatCompletion (timeout : Duration) (req : ChatCompletionRequest)
| Sleep (d : Duration).

Definition Resp (c : Call) : Type :=
  match c with
  | CreateChatCompletion _ _ => result ChatCompletionResponse
  | Sleep _ => unit
  end.

Abbreviation prog := (Prog Call Resp).

(** [Client]: the model name and token budget of its configuration, and
    the prompt constants of the package. *)
Record Client := {
  config_Model : string;
  maxTokens : Z;
  SummarizeStoryPrompt : string;
  SummarizePodcastPrompt : string;
  SummarizeBlogPrompt : string;
  IntroPrompt : string
}.

(** The loop of [generateText]:
    [for i := 0; i < maxRetries; i++ { ... }] followed by the final
    [return "", fmt.Errorf(...)].  [fuel] bounds the iterations. *)
Fixpoint generateText_loop (req : ChatCompletionRequest) (maxRetries : Z)
         (fuel : nat) (i : Z) : prog (result string) :=
  match fuel with
  | O => mret (Err "超过最大重试次数")
  | S fuel' =>
    if i <? maxRetries then
      r ← call (CreateChatCompletion (2 * Minute) req);
      match r with
      | Err err =>
        if i <? maxRetries - 1 then
          call (Sleep ((i + 1) * 2 * Second));;
          generateText_loop req maxRetries fuel' (i + 1)
        else mret (Err (Errorf_w "生成AI内容失败: " err))
      | Ok resp =>
        match Choices resp with
        | [] =>
          if i <? maxRetries - 1 then
            call (Sleep ((i + 1) * 2 * Second));;
            generateText_loop req maxRetries fuel' (i + 1)
          else mret (Err "AI响应中没有内容")
        | content :: _ => mret (Ok content)
        end
      end
    else mret (Err "超过最大重试次数")
  end.

(** [generateText] *)
Definition generateText (req : ChatCompletionRequest) : prog (result string) :=
  let maxRetries := 3 in
  generateText_loop req maxRetries (Z.to_nat maxRetries) 0.

(** [JoinContents] *)
Fixpoint JoinContents_from (result : string) (rest : list string) : string :=
  match rest with
  | [] => result
  | c :: rest' =>
    JoinContents_from (result +:+ separator +:+ c) rest'
  end.

Definition JoinContents (contents : list string) : string :=
  match contents with
  | [] => ""
  | c0 :: rest => JoinContents_from c0 rest
  end.

Definition systemUser (system user : string) : list ChatCompletionMessage :=
  [ {| Role := ChatMessageRoleSystem; Content := system |};
    {| Role := ChatMessageRoleUser; Content := user |} ].

(** [GenerateStoryText]: the request it builds.  [maxLength] is
    computed in [int]; [None] is the run-time panic of
    [storyContent[:maxLength]] for a negative [maxLength]. *)
Definition storyRequest (c : Client) (storyContent : string)
  : option ChatCompletionRequest :=
  let maxLength := wrapInt (maxTokens c * 4) in
  storyContent ←
    (if maxLength <? len storyContent
     then sliceTo storyContent maxLength else Some storyContent);
  Some {| Model := config_Model c;
          Messages := systemUser (SummarizeStoryPrompt c) storyContent;
          MaxTokens := maxTokens c |}.

(** [GenerateStoryText]; [None] is a panic, which happens before any
    request is sent. *)
Definition GenerateStoryText (c : Client) (storyContent : string)
  : prog (option (result string)) :=
  match storyRequest c storyContent with
  | None => mret None
  | Some req => r ← generateText req; mret (Some r)
  end.

(** [GeneratePodcastContent] *)
Definition podcastRequest (c : Client) (summaries : list string) : ChatCompletionRequest :=
  {| Model := config_Model c;
     Messages := systemUser (SummarizePodcastPrompt c) (JoinContents summaries);
     MaxTokens := maxTokens c |}.

Definition GeneratePodcastContent (c : Client) (summaries : list string) : prog (result string) :=
  generateText (podcastRequest c summaries).

(** [GenerateBlogContent] *)
Definition blogRequest (c : Client) (summaries : list string) : ChatCompletionRequest :=
  {| Model := config_Model c;
     Messages := systemUser (SummarizeBlogPrompt c) (JoinContents summaries);
     MaxTokens := maxTokens c |}.

Definition GenerateBlogContent (c : Client) (summaries : list string) : prog (result string) :=
  generateText (blogRequest c summaries).

(** [GenerateIntroContent] *)
Definition introRequest (c : Client) (podcastContent : string) : ChatCompletionRequest :=
  {| Model := config_Model c;
     Messages := systemUser (IntroPrompt c) podcastContent;
     MaxTokens := 300 |}.

Definition GenerateIntroContent (c : Client) (podcastContent : string) : prog (result string) :=
  generateText (introRequest c podcastContent).

(** An attempt fails when the call errs or the response has no choice. *)
Definition failed (r : result ChatCompletionResponse) : bool :=
  match r with
  | Err _ => true
  | Ok resp => match Choices resp with [] => true | _ :: _ => false end
  end.

(** The calls of a run that makes [n] attempts: after the attempt of
    index [i] (counted from 1) that is not the last, a sleep of
    [i * 2s]. *)
Definition attempt (req : ChatCompletionRequest) : Call :=
  CreateChatCompletion (2 * Minute) req.

Definition backoff (i : nat) : Call := Sleep (Z.of_nat i * (2 * Second)).

Fixpoint schedule_from (req : ChatCompletionRequest) (i n : nat) : list Call :=
  match n with
  | O => []
  | S O => [attempt req]
  | S n' => attempt req :: backoff i :: schedule_from req (S i) n'
  end.

Definition schedule (req : ChatCompletionRequest) (n : nat) : list Call :=
  schedule_from req 1 n.

Definition isAttempt (c : Call) : bool :=
  match c with CreateChatCompletion _ _ => true | Sleep _ => false end.

End ai.

(** ** Package [models] *)

Module models.

(** [models.Story] *)
Record Story := {
  ID : string;
  Title : string;
  URL : string;
  HackerNewsURL : string;
  Content : string;
  Comments : string
}.

End models.

(** ** Package [crawler]: [internal/crawler/hackernews.go] *)

Module crawler.

(** The fate of one HTTP GET: [http.NewRequest] may reject the URL,
    [client.Do] may fail in transport, and otherwise a status code comes
    back together with what [io.ReadAll] makes of the body. *)
Inductive HttpOutcome :=
| NewRequestErr (e : error)
| DoErr (e : error)
| Response (StatusCode : Z) (body : result string).

(** The fate of extracting the comment tree with goquery:
    [NewDocumentFromReader] may fail, then [Find(".comment-tree").Html()]
    may fail. *)
Inductive HtmlOutcome :=
| NewDocumentErr (e : error)
| HtmlErr (e : error)
| Html (commentsHtml : string).

Inductive Call :=
| HttpGet (url : string)
| CommentTree (body : string)
| ErrChOrder.

(** [ErrChOrder] answers which goroutine of [GetStoryContent] sends on
    [errCh] first when both do: [true] for the article fetch. *)
Definition Resp (c : Call) : Type :=
  match c with
  | HttpGet _ => HttpOutcome
  | CommentTree _ => HtmlOutcome
  | ErrChOrder => bool
  end.

Abbreviation prog := (Prog Call Resp).

Definition StatusOK : Z := 200.

(** [fetchArticle] *)
Definition fetchArticle (url : string) : prog (result string) :=
  o ← call (HttpGet url);
  match o with
  | NewRequestErr err => mret (Err (Errorf_w "创建请求失败: " err))
  | DoErr _ => mret (Ok "")
  | Response StatusCode body =>
    if negb (StatusCode =? StatusOK) then mret (Ok "")
    else match body with
         | Err err => mret (Err (Errorf_w "读取响应失败: " err))
         | Ok body => mret (Ok body)
         end
  end.

(** [fetchComments] *)
Definition fetchComments (storyID : string) : prog (result string) :=
  let commentURL := "https://news.ycombinator.com/item?id=" +:+ storyID in
  o ← call (HttpGet commentURL);
  match o with
  | NewRequestErr err => mret (Err (Errorf_w "创建请求失败: " err))
  | DoErr _ => mret (Ok "")
  | Response StatusCode body =>
    if negb (StatusCode =? StatusOK) then mret (Ok "")
    else match body with
         | Err err => mret (Err (Errorf_w "读取响应失败: " err))
         | Ok body =>
           d ← call (CommentTree body);
           match d with
           | NewDocumentErr err => mret (Err (Errorf_w "解析HTML失败: " err))
           | HtmlErr err => mret (Err (Errorf_w "提取评论区域失败: " err))
           | Html commentsHtml => mret (Ok commentsHtml)
           end
         end
  end.

(** [if len(text) > maxTokens*4 { text = text[:maxTokens*4] }]: the value
    of [text] afterwards.  The product is computed in [int]; [None] is the
    run-time panic of the slice expression when the product is negative. *)
Definition capped (text : string) (maxTokens : Z) : option string :=
  if wrapInt (maxTokens * 4) <? len text
  then sliceTo text (wrapInt (maxTokens * 4))
  else Some text.

(** The text assembled by [GetStoryContent] once both fetches are in;
    [None] when one of the cuts panics. *)
Definition storyText (story : models.Story) (article comments : string)
           (maxTokens : Z) : option string :=
  let result : list string := [] in
  let result :=
    if negb (String.eqb (models.Title story) "")
    then result ++ ["<title>" +:+ LF +:+ models.Title story +:+ LF +:+ "</title>"]
    else result in
  result ←
    (if negb (String.eqb article "")
     then article ← capped article maxTokens;
          Some (result ++ ["<article>" +:+ LF +:+ article +:+ LF +:+ "</article>"])
     else Some result);
  result ←
    (if negb (String.eqb comments "")
     then comments ← capped comments maxTokens;
          Some (result ++ ["<comments>" +:+ LF +:+ comments +:+ LF +:+ "</comments>"])
     else Some result);
  Some (strings.Join result separator).

(** What a goroutine of [GetStoryContent] sends on its data channel and
    on [errCh]. *)
Definition sent (prefix : string) (r : result string) : string * list error :=
  match r with
  | Ok text => (text, [])
  | Err err => ("", [Errorf_w prefix err])
  end.

(** [GetStoryContent].  The two goroutines are run one after the other;
    both have sent before the [select] on [errCh] is reached, the order of
    two errors in the channel being the scheduler's choice.  [None] is a
    panic of the function while it assembles the text. *)
Definition GetStoryContent (story : models.Story) (maxTokens : Z)
  : prog (option (result string)) :=
  a ← fetchArticle (models.URL story);
  c ← fetchComments (models.ID story);
  articleFirst ← call ErrChOrder;
  let '(article, errA) := sent "获取文章失败: " a in
  let '(comments, errC) := sent "获取评论失败: " c in
  let errCh := if articleFirst : bool then errA ++ errC else errC ++ errA in
  match errCh with
  | err :: _ => mret (Some (Err err))
  | [] => mret (Ok <$> storyText story article comments maxTokens)
  end.

(** An outcome that the fetch functions absorb: a transport failure or a
    status other than 200. *)
Definition soft (o : HttpOutcome) : bool :=
  match o with
  | NewRequestErr _ => false
  | DoErr _ => true
  | Response StatusCode _ => negb (StatusCode =? StatusOK)
  end.

(** An outcome that the fetch functions turn into an error: the request
    cannot be built or the body of a 200 response cannot be read. *)
Definition hard (o : HttpOutcome) : bool :=
  match o with
  | NewRequestErr _ => true
  | DoErr _ => false
  | Response StatusCode body => (StatusCode =? StatusOK) && negb (isOk body)
  end.

(** *** [GetTopStories] *)

(** What goquery reads from one [.athing] element of the front page:
    its [id] attribute, the text of [.titleline > a] and the [href]
    attribute of that link, each empty when it is missing. *)
Record Athing := {
  id : string;
  title : string;
  url : string
}.

(** The fate of the request of [GetTopStories]: the request cannot be
    built, [client.Do] fails, the body cannot be read, goquery cannot
    parse it, or the [.athing] elements of the page in document order.
    The status code is not looked at. *)
Inductive PageOutcome :=
| PageRequestErr (e : error)
| PageDoErr (e : error)
| PageReadErr (e : error)
| PageParseErr (e : error)
| Page (athings : list Athing).

(** The URL requested for [date]; [today] is
    [time.Now().Format("2006-01-02")]. *)
Definition frontURL (today date : string) : string :=
  let date := if String.eqb date "" then today else date in
  "https://news.ycombinator.com/front?day=" +:+ date.

(** The callback of [doc.Find(".athing").Each]: the stories appended for
    one element. *)
Definition storyOf (a : Athing) : list models.Story :=
  let hackerNewsURL := "https://news.ycombinator.com/item?id=" +:+ id a in
  if negb (String.eqb (id a) "") && negb (String.eqb (url a) "")
  then [ {| models.ID := id a; models.Title := title a; models.URL := url a;
            models.HackerNewsURL := hackerNewsURL;
            models.Content := ""; models.Comments := "" |} ]
  else [].

(** [GetTopStories], given the fate of its request.  [None] is the
    run-time panic of the slice expression [stories[:maxItems]] for a
    negative [maxItems]. *)
Definition GetTopStories (maxItems : Z) (o : PageOutcome)
  : option (result (list models.Story)) :=
  match o with
  | PageRequestErr err => Some (Err (Errorf_w "创建请求失败: " err))
  | PageDoErr err => Some (Err (Errorf_w "获取热门文章失败: " err))
  | PageReadErr err => Some (Err (Errorf_w "读取响应失败: " err))
  | PageParseErr err => Some (Err (Errorf_w "解析HTML失败: " err))
  | Page athings =>
    let stories := flat_map storyOf athings in
    if maxItems <? Z.of_nat (length stories) then
      if maxItems <? 0 then None
      else Some (Ok (take (Z.to_nat maxItems) stories))
    else Some (Ok stories)
  end.

Definition isHttpGet (c : Call) : bool :=
  match c with HttpGet _ => true | _ => false end.

End crawler.

(** ** Package [storage]: [internal/storage/minio.go] *)

Module storage.

(** What the MinIO client reports for an object: [GetObject] may reject
    the request; otherwise the handle answers [Stat] with an error or the
    size, and reading it gives an error or the data. *)
Inductive ObjectOutcome :=
| GetObjectErr (e : error)
| Object (stat : result Z) (data : result string).

(** [MinioClient.ObjectExists], as Go's pair [(bool, error)]. *)
Definition ObjectExists (o : ObjectOutcome) : bool * option error :=
  match o with
  | GetObjectErr err => (false, Some (Errorf_w "获取对象失败: " err))
  | Object (Err _) _ => (false, None)
  | Object (Ok Size) _ => if 0 <? Size then (true, None) else (false, None)
  end.

(** [MinioClient.DownloadFile] *)
Definition DownloadFile (o : ObjectOutcome) : result string :=
  match o with
  | GetObjectErr err => Err (Errorf_w "获取对象失败: " err)
  | Object _ (Err err) => Err (Errorf_w "读取对象数据失败: " err)
  | Object _ (Ok data) => Ok data
  end.

(** [MinioClient.UploadFile], given the fate of [PutObject] and of the
    presigned URL. *)
Definition UploadFile (bucketName objectName : string)
           (put : option error) (presigned : result string) : result string :=
  match put with
  | Some err => Err (Errorf_w "上传文件失败: " err)
  | None =>
    match presigned with
    | Err _ => Ok ("/" +:+ bucketName +:+ "/" +:+ objectName)
    | Ok presignedURL => Ok presignedURL
    end
  end.

(** [MinioClient.GetPresignedURL], given the fate of
    [PresignedGetObject]. *)
Definition GetPresignedURL (presigned : result string) : result string :=
  match presigned with
  | Err err => Err (Errorf_w "生成预签名URL失败: " err)
  | Ok presignedURL => Ok presignedURL
  end.

(** [MinioClient.DeleteFile]: the error of [RemoveObject], if any. *)
Definition DeleteFile (remove : option error) : option error := remove.

End storage.

(** ** Package [api]: the server of [config/config.go] *)

Module api.

(** The anonymous struct [content] of [processHackerNews], the persisted
    record of a date. *)
Record Content := {
  Intro : string;
  Podcast : string;
  Blog : string;
  AudioURL : string;
  AudioFiles : list string
}.

(** The zero value of [var content struct {...}]. *)
Definition zeroContent : Content :=
  {| Intro := ""; Podcast := ""; Blog := ""; AudioURL := ""; AudioFiles := [] |}.

Definition setAudioURL (content : Content) (url : string) : Content :=
  {| Intro := Intro content; Podcast := Podcast content; Blog := Blog content;
     AudioURL := url; AudioFiles := AudioFiles content |}.

(** The configuration a [Server] reads. *)
Record Server := {
  config_Server_Env : string;
  config_OpenAI_MaxTokens : Z;
  config_HackerNews_MaxItems : Z
}.

(** The calls of the server: the methods of its collaborators
    ([minioClient], [hnClient], [aiClient], [ttsService]), the [time],
    [os] and [os/exec] functions it uses, and the writes to its own fields
    [isProcessing] and [lastProcessed]. *)
Inductive Call :=
| ObjectExists (objectName : string)
| DownloadFile (objectName : string)
| UploadFile (objectName data contentType : string)
| GetTopStories (date : string) (maxItems : Z)
| GetStoryContent (story : models.Story) (maxTokens : Z)
| GenerateStoryText (storyContent : string)
| GeneratePodcastContent (summaries : list string)
| GenerateBlogContent (summaries : list string)
| GenerateIntroContent (podcastContent : string)
| SynthesizeSpeech (text speaker : string)
| Sleep (d : Duration)
| Now
| MkdirTemp (dir pattern : string)
| Create (name : string)
| WriteFile (name data : string) (perm : Z)
| Fprintf (file text : string)
| Sync (file : string)
| Close (file : string)
| RunCommand (name : string) (args : list string)
| ReadFile (name : string)
| RemoveAll (path : string)
| SetIsProcessing (b : bool)
| SetLastProcessed (t : Z).

Definition Resp (c : Call) : Type :=
  match c with
  | ObjectExists _ => (bool * option error)%type
  | DownloadFile _ => result string
  | UploadFile _ _ _ => result string
  | GetTopStories _ _ => result (list models.Story)
  | GetStoryContent _ _ => result string
  | GenerateStoryText _ => result string
  | GeneratePodcastContent _ => result string
  | GenerateBlogContent _ => result string
  | GenerateIntroContent _ => result string
  | SynthesizeSpeech _ _ => result string
  | Sleep _ => unit
  | Now => Z
  | MkdirTemp _ _ => result string
  | Create _ => option error
  | WriteFile _ _ _ => option error
  | Fprintf _ _ => unit
  | Sync _ => unit
  | Close _ => unit
  | RunCommand _ _ => option error
  | ReadFile _ => result string
  | RemoveAll _ => unit
  | SetIsProcessing _ => unit
  | SetLastProcessed _ => unit
  end.

Abbreviation prog := (Prog Call Resp).

(** *** The world of a server *)

(** The object store as a map from object names to data, the two fields
    of the [Server] that the pipeline writes, and the trace of the calls
    made to collaborators and to the operating system.  Writes to the
    server's own fields and reads of the clock change or read the world
    without being traced. *)
Record World := {
  store : gmap string string;
  isProcessing : bool;
  lastProcessed : Z;
  trace : list (Entry Call Resp)
}.

Definition setStore (st : gmap string string) (w : World) : World :=
  {| store := st; isProcessing := isProcessing w;
     lastProcessed := lastProcessed w; trace := trace w |}.

Definition setIsProcessing (b : bool) (w : World) : World :=
  {| store := store w; isProcessing := b;
     lastProcessed := lastProcessed w; trace := trace w |}.

Definition setLastProcessed (t : Z) (w : World) : World :=
  {| store := store w; isProcessing := isProcessing w;
     lastProcessed := t; trace := trace w |}.

Definition record (e : Entry Call Resp) (w : World) : World :=
  {| store := store w; isProcessing := isProcessing w;
     lastProcessed := lastProcessed w; trace := trace w ++ [e] |}.

(** What can go wrong with a request to the object store: the client
    rejects it, or the network or the service fails. *)
Inductive Fault :=
| NoFault
| ClientFault (e : error)
| NetworkFault (e : error).

(** The environment of a run.  The [n]-th traced call is answered by
    [oracle n] unless it is a call to the object store; the store answers
    from its contents unless [fault n] says otherwise, and [presigned n]
    is the fate of the URL signing that follows an upload. *)
Record Env := {
  oracle : Oracle Call Resp;
  fault : nat → Fault;
  presigned : nat → result string;
  bucketName : string
}.

(** What the MinIO client reports for [objectName]. *)
Definition getObject (env : Env) (w : World) (objectName : string)
  : storage.ObjectOutcome :=
  match fault env (length (trace w)) with
  | ClientFault e => storage.GetObjectErr e
  | NetworkFault e => storage.Object (Err e) (Err e)
  | NoFault =>
    match store w !! objectName with
    | None =>
      storage.Object (Err "The specified key does not exist.")
                     (Err "The specified key does not exist.")
    | Some data => storage.Object (Ok (len data)) (Ok data)
    end
  end.

(** What [PutObject] reports, and the store after it. *)
Definition putObject (env : Env) (w : World) (objectName data : string)
  : option error * gmap string string :=
  match fault env (length (trace w)) with
  | ClientFault e => (Some e, store w)
  | NetworkFault e => (Some e, store w)
  | NoFault => (None, <[objectName := data]> (store w))
  end.

Definition answer (c : Call) (r : Resp c) (w : World) : Resp c * World :=
  (r, record (mkEntry c r) w).

Definition ask (env : Env) (c : Call) (w : World) : Resp c * World :=
  answer c (oracle env (length (trace w)) c) w.

Definition handle (env : Env) : Handler Call Resp World :=
  fun c w =>
  match c as c0 return Resp c0 * World with
  | ObjectExists objectName =>
    answer (ObjectExists objectName)
           (storage.ObjectExists (getObject env w objectName)) w
  | DownloadFile objectName =>
    answer (DownloadFile objectName)
           (storage.DownloadFile (getObject env w objectName)) w
  | UploadFile objectName data contentType =>
    let put := putObject env w objectName data in
    answer (UploadFile objectName data contentType)
           (storage.UploadFile (bucketName env) objectName (fst put)
                               (presigned env (length (trace w))))
           (setStore (snd put) w)
  | SetIsProcessing b => (tt, setIsProcessing b w)
  | SetLastProcessed t => (tt, setLastProcessed t w)
  | Now => (oracle env (length (trace w)) Now, w)
  | GetTopStories date maxItems => ask env (GetTopStories date maxItems) w
  | GetStoryContent story maxTokens => ask env (GetStoryContent story maxTokens) w
  | GenerateStoryText storyContent => ask env (GenerateStoryText storyContent) w
  | GeneratePodcastContent summaries => ask env (GeneratePodcastContent summaries) w
  | GenerateBlogContent summaries => ask env (GenerateBlogContent summaries) w
  | GenerateIntroContent podcastContent => ask env (GenerateIntroContent podcastContent) w
  | SynthesizeSpeech text speaker => ask env (SynthesizeSpeech text speaker) w
  | Sleep d => ask env (Sleep d) w
  | MkdirTemp dir pattern => ask env (MkdirTemp dir pattern) w
  | Create name => ask env (Create name) w
  | WriteFile name data perm => ask env (WriteFile name data perm) w
  | Fprintf file text => ask env (Fprintf file text) w
  | Sync file => ask env (Sync file) w
  | Close file => ask env (Close file) w
  | RunCommand name args => ask env (RunCommand name args) w
  | ReadFile name => ask env (ReadFile name) w
  | RemoveAll path => ask env (RemoveAll path) w
  end.

(** The world after a program has run, and the entries it added to the
    trace. *)
Definition after {A} (env : Env) (p : prog A) (w : World) : World :=
  snd (run (handle env) p w).

Definition added (w w' : World) : list (Entry Call Resp) :=
  drop (length (trace w)) (trace w').

(** *** [mergeAudioBytes] *)

(** [filepath.Join(dir, name)] for a clean directory and a plain file
    name. *)
Definition Join (dir name : string) : string := dir +:+ "/" +:+ name.

(** [fmt.Sprintf("seg%d.mp3", i)] *)
Definition segName (i : nat) : string := "seg" +:+ pretty i +:+ ".mp3".

(** [fmt.Fprintf(fileList, "file '%s'\n", segPath)]: the text written. *)
Definition manifestLine (segPath : string) : string :=
  "file '" +:+ segPath +:+ "'" +:+ LF.

(** The file mode [0644]. *)
Definition perm0644 : Z := 6 * 64 + 4 * 8 + 4.

(** The loop [for i, segment := range audioSegments] of
    [mergeAudioBytes], from index [i]; [Some err] is the early
    [return nil, err]. *)
Fixpoint writeSegments (tempDir fileListPath : string) (i : nat)
         (audioSegments : list string) : prog (option error) :=
  match audioSegments with
  | [] => mret None
  | segment :: rest =>
    let segPath := Join tempDir (segName i) in
    w ← call (WriteFile segPath segment perm0644);
    match w with
    | Some err => mret (Some err)
    | None =>
      call (Fprintf fileListPath (manifestLine segPath));;
      writeSegments tempDir fileListPath (S i) rest
    end
  end.

Definition ffmpegArgs (fileListPath outPath : string) : list string :=
  ["-y"; "-f"; "concat"; "-safe"; "0"; "-i"; fileListPath; "-c"; "copy"; outPath].

(** [mergeAudioBytes].  The deferred [fileList.Close()] and
    [os.RemoveAll(tempDir)] are written out on every return path that
    follows their [defer] statement, last deferred first. *)
Definition mergeAudioBytes (audioSegments : list string) : prog (result string) :=
  t ← call (MkdirTemp "" "audio-merge");
  match t with
  | Err err => mret (Err err)
  | Ok tempDir =>
    let fileListPath := Join tempDir "filelist.txt" in
    f ← call (Create fileListPath);
    match f with
    | Some err => call (RemoveAll tempDir);; mret (Err err)
    | None =>
      w ← writeSegments tempDir fileListPath 0 audioSegments;
      match w with
      | Some err =>
        call (Close fileListPath);; call (RemoveAll tempDir);; mret (Err err)
      | None =>
        call (Sync fileListPath);;
        let outPath := Join tempDir "merged.mp3" in
        c ← call (RunCommand "ffmpeg" (ffmpegArgs fileListPath outPath));
        match c with
        | Some err =>
          call (Close fileListPath);; call (RemoveAll tempDir);; mret (Err err)
        | None =>
          out ← call (ReadFile outPath);
          call (Close fileListPath);; call (RemoveAll tempDir);; mret out
        end
      end
    end
  end.

(** *** [processHackerNews] *)

(** Lines 763-766: the speaker of a script line. *)
Definition speakerOf (conversation : string) : string :=
  let speaker := "女" in
  if strings.HasPrefix conversation "男:" || strings.HasPrefix conversation "男："
  then "男" else speaker.

(** Lines 771-774: the text of a script line handed to synthesis. *)
Definition textOf (conversation : string) : string :=
  let text := conversation in
  let idx := strings.IndexAny conversation ":：" in
  if negb (idx =? -1)
  then strings.TrimSpace (sliceFrom conversation (Z.to_nat (idx + 1)))
  else text.

(** The loop over [strings.Split(podcastContent, "\n")]. *)
Fixpoint synthesizeTurns (conversations : list string) (audioSegments : list string)
  : prog (list string) :=
  match conversations with
  | [] => mret audioSegments
  | conversation :: rest =>
    if String.eqb (strings.TrimSpace conversation) "" then
      synthesizeTurns rest audioSegments
    else
      a ← call (SynthesizeSpeech (textOf conversation) (speakerOf conversation));
      match a with
      | Err _ => synthesizeTurns rest audioSegments
      | Ok audio => synthesizeTurns rest (audioSegments ++ [audio])
      end
  end.

Section Pipeline.

(** [json.Marshal] and [json.Unmarshal] on the content record. *)
Variable json_Marshal : Content → result string.
Variable json_Unmarshal : string → result Content.

Variable s : Server.

(** The loop over the fetched stories (step 2). *)
Fixpoint summarize (stories : list models.Story) (storyTexts : list string)
  : prog (list string) :=
  match stories with
  | [] => mret storyTexts
  | story :: rest =>
    c ← call (GetStoryContent story (config_OpenAI_MaxTokens s));
    match c with
    | Err _ => summarize rest storyTexts
    | Ok storyContent =>
      t ← call (GenerateStoryText storyContent);
      match t with
      | Err _ => summarize rest storyTexts
      | Ok text =>
        call (Sleep (2 * Second));;
        summarize rest (storyTexts ++ [text])
      end
    end
  end.

(** The branch [if !contentExists || force]: [None] is an early
    [return]; otherwise the content record and the values of
    [podcastContent] and [introContent] at the end of the branch. *)
Definition generate (date : string) (maxItems : Z) (contentKey : string)
  : prog (option (Content * string * string)) :=
  stories ← call (GetTopStories date maxItems);
  match stories with
  | Err _ => mret None
  | Ok stories =>
    storyTexts ← summarize stories [];
    if (length storyTexts =? 0)%nat then mret None else
    p ← call (GeneratePodcastContent storyTexts);
    match p with
    | Err _ => mret None
    | Ok podcastContent =>
      b ← call (GenerateBlogContent storyTexts);
      match b with
      | Err _ => mret None
      | Ok blogContent =>
        i ← call (GenerateIntroContent podcastContent);
        match i with
        | Err _ => mret None
        | Ok introContent =>
          let content :=
            {| Intro := introContent; Podcast := podcastContent;
               Blog := blogContent; AudioURL := ""; AudioFiles := [] |} in
          match json_Marshal content with
          | Err _ => mret None
          | Ok contentData =>
            u ← call (UploadFile contentKey contentData "application/json");
            match u with
            | Err _ => mret None
            | Ok _ => mret (Some (content, podcastContent, introContent))
            end
          end
        end
      end
    end
  end.

(** The [else] branch: the content already exists. *)
Definition load (forceAudio : bool) (contentKey : string)
  : prog (option (Content * string * string)) :=
  d ← call (DownloadFile contentKey);
  match d with
  | Err _ => mret None
  | Ok contentData =>
    match json_Unmarshal contentData with
    | Err _ => mret None
    | Ok content =>
      let podcastContent := Podcast content in
      let introContent := Intro content in
      if negb (String.eqb (AudioURL content) "") && negb forceAudio
      then mret None
      else mret (Some (content, podcastContent, introContent))
    end
  end.

(** Lines 792-806: merge the segments and upload the result, when there
    is at least one segment; the value of [content] afterwards. *)
Definition mergeAndUpload (date : string) (content : Content)
           (audioSegments : list string) : prog Content :=
  if (0 <? length audioSegments)%nat then
    m ← mergeAudioBytes audioSegments;
    match m with
    | Err _ => mret content
    | Ok mergedAudio =>
      let mergedAudioKey := "audio/" +:+ date +:+ "-complete.mp3" in
      u ← call (UploadFile mergedAudioKey mergedAudio "audio/mpeg");
      match u with
      | Err _ => mret content
      | Ok mergedAudioURL => mret (setAudioURL content mergedAudioURL)
      end
    end
  else mret content.

(** Lines 823-833: serialize the content record and upload it. *)
Definition writeBack (contentKey : string) (content : Content) : prog unit :=
  match json_Marshal content with
  | Err _ => mret tt
  | Ok contentData =>
    call (UploadFile contentKey contentData "application/json");;
    mret tt
  end.

(** Step 6 to the end: synthesis of the turns, merge and upload, the
    synthesis of the intro (whose audio is dropped), and the final write
    of the content record. *)
Definition synthesize (date contentKey : string) (content : Content)
           (podcastContent introContent : string) : prog unit :=
  audioSegments ← synthesizeTurns (strings.Split podcastContent LF) [];
  content ← mergeAndUpload date content audioSegments;
  call (SynthesizeSpeech introContent "男");;
  writeBack contentKey content.

Definition contentKeyOf (date : string) : string :=
  "content:" +:+ config_Server_Env s +:+ ":hacker-news:" +:+ date.

(** Lines 628-749: the two branches on [!contentExists || force]. *)
Definition contentFor (date : string) (maxItems : Z) (force forceAudio : bool)
           (contentExists : bool) : prog (option (Content * string * string)) :=
  if negb contentExists || force
  then generate date maxItems (contentKeyOf date)
  else load forceAudio (contentKeyOf date).

(** The body of [processHackerNews] between the flag updates. *)
Definition processBody (date : string) (maxItems : Z) (force forceAudio : bool)
  : prog unit :=
  let contentKey := contentKeyOf date in
  '(contentExists, _) ← call (ObjectExists contentKey);
  r ← contentFor date maxItems force forceAudio contentExists;
  match r with
  | None => mret tt
  | Some (content, podcastContent, introContent) =>
    synthesize date contentKey content podcastContent introContent
  end.

(** [processHackerNews]; the deferred function runs on every return. *)
Definition processHackerNews (date : string) (maxItems : Z) (force forceAudio : bool)
  : prog unit :=
  call (SetIsProcessing true);;
  processBody date maxItems force forceAudio;;
  call (SetIsProcessing false);;
  t ← call Now;
  call (SetLastProcessed t).

(** [ProcessHackerNews] *)
Definition ProcessHackerNews (date : string) (maxItems : Z) : prog unit :=
  processHackerNews date maxItems false false.

(** *** [processHandler] and the goroutines it starts *)

(** The JSON body of a process request. *)
Record ProcessRequest := {
  Date : string;
  MaxItems : Z;
  Force : bool;
  ForceAudio : bool
}.

(** The reply of [processHandler]: status 400 with an error, or status
    200 with the date and a message. *)
Inductive Reply :=
| BadRequest (error : string)
| Started (date message : string).

(** A server at run time: its world and the goroutines started by
    [processHandler] that have not finished, each with the program it has
    left to run. *)
Record Machine := {
  world : World;
  goroutines : list (prog unit)
}.

(** The function started by [go func() { ... }()]. *)
Definition background (req : ProcessRequest) : prog unit :=
  processHackerNews (Date req) (MaxItems req) (Force req) (ForceAudio req);;
  call (SetIsProcessing false).

(** The request after the defaults for a missing date and a missing item
    count; [today] is [time.Now().Format("2006-01-02")]. *)
Definition defaults (today : string) (req : ProcessRequest) : ProcessRequest :=
  {| Date := if String.eqb (Date req) "" then today else Date req;
     MaxItems := if MaxItems req <=? 0 then config_HackerNews_MaxItems s
                 else MaxItems req;
     Force := Force req;
     ForceAudio := ForceAudio req |}.

(** [processHandler]; [binding] is the result of [c.ShouldBindJSON]. *)
Definition processHandler (today : string) (binding : result ProcessRequest)
           (m : Machine) : Reply * Machine :=
  match binding with
  | Err _ => (BadRequest "无效的请求参数", m)
  | Ok req =>
    let req := defaults today req in
    (Started (Date req) "处理已开始",
     {| world := setIsProcessing true (world m);
        goroutines := goroutines m ++ [background req] |})
  end.

(** [getStatusHandler]: the value reported as [isProcessing]. *)
Definition getStatusHandler (m : Machine) : bool := isProcessing (world m).

(** One step of goroutine [i]: its next call, answered in the shared
    world.  A goroutine that has returned, or an index that names none,
    leaves the machine as it is. *)
Definition step (env : Env) (i : nat) (m : Machine) : Machine :=
  match goroutines m !! i with
  | Some (Do c k) =>
    let '(r, w) := handle env c (world m) in
    {| world := w; goroutines := <[i := k r]> (goroutines m) |}
  | _ => m
  end.

(** A schedule names the goroutine to step, one step after the other. *)
Definition schedule (env : Env) (sched : list nat) (m : Machine) : Machine :=
  fold_left (fun m i => step env i m) sched m.

(** A goroutine is running while it has a call left to make. *)
Definition running (p : prog unit) : bool :=
  match p with Do _ _ => true | Ret _ => false end.

End Pipeline.

End api.

(** ** Observations on traces *)

Module obs.

Import api.



Definition isRunCommand (c : Call) : bool :=
  match c with RunCommand _ _ => true | _ => false end.

(** A call of [mergeAudioBytes]: on the file system or to ffmpeg. *)
Definition isMergeCall (c : Call) : bool :=
  match c with
  | MkdirTemp _ _ | Create _ | WriteFile _ _ _ | Fprintf _ _ | Sync _
  | Close _ | RunCommand _ _ | ReadFile _ | RemoveAll _ => true
  | _ => false
  end.

Definition isUploadFile (c : Call) : bool :=
  match c with UploadFile _ _ _ => true | _ => false end.

Definition isSynthesizeSpeech (c : Call) : bool :=
  match c with SynthesizeSpeech _ _ => true | _ => false end.

(** The paths of the segment files of a merge of [n] segments in
    [tempDir], in index order. *)
Definition segPaths (tempDir : string) (i n : nat) : list string :=
  map (fun j => Join tempDir (segName j)) (seq i n).

(** The calls of the loop of [mergeAudioBytes] when no write fails. *)
Definition segmentCalls (fileListPath : string) (files : list (string * string))
  : list Call :=
  flat_map (fun '(segPath, segment) =>
              [WriteFile segPath segment perm0644;
               Fprintf fileListPath (manifestLine segPath)]) files.

(** The calls of [mergeAudioBytes] up to and including the invocation
    of ffmpeg. *)
Definition mergeCalls (tempDir : string) (audioSegments : list string) : list Call :=
  let fileListPath := Join tempDir "filelist.txt" in
  [MkdirTemp "" "audio-merge"; Create fileListPath]
  ++ segmentCalls fileListPath
       (zip (segPaths tempDir 0 (length audioSegments)) audioSegments)
  ++ [Sync fileListPath;
      RunCommand "ffmpeg" (ffmpegArgs fileListPath (Join tempDir "merged.mp3"))].

End obs.

(** ** The turns of a script, and what a trace shows of them *)

Module turns.

Import api.

(** A script line is dropped when its trimmed text is empty. *)
Definition kept (conversation : string) : bool :=
  negb (String.eqb (strings.TrimSpace conversation) "").

(** The turns of a podcast script as the synthesis loop makes them: for
    every kept line, in order, the text handed to the synthesizer and
    the speaker. *)
Definition ofLines (conversations : list string) : list (string * string) :=
  map (fun conversation => (textOf conversation, speakerOf conversation))
      (List.filter kept conversations).

Definition ofScript (podcastContent : string) : list (string * string) :=
  ofLines (strings.Split podcastContent LF).

(** The synthesis requests of a trace, in order. *)
Definition requested (cs : list Call) : list (string * string) :=
  flat_map (fun c => match c with
                     | SynthesizeSpeech text speaker => [(text, speaker)]
                     | _ => []
                     end) cs.

(** The audio returned by the successful synthesis requests of a trace,
    in order. *)
Definition audioOf (e : Entry Call Resp) : list string :=
  match e with
  | mkEntry c r =>
    match c return Resp c → list string with
    | SynthesizeSpeech _ _ =>
      fun r => match r with Ok audio => [audio] | Err _ => [] end
    | _ => fun _ => []
    end r
  end.

Definition synthesized (tr : list (Entry Call Resp)) : list string :=
  flat_map audioOf tr.

End turns.

(** ** Example environments *)

Module examples.

Import api.

(** An oracle under which every collaborator succeeds; the speech
    synthesizer echoes its text. *)
Definition obliging : Oracle Call Resp :=
  fun n c =>
  match c as c0 return Resp c0 with
  | ObjectExists _ => (false, None)
  | DownloadFile _ => Err "unused"
  | UploadFile _ _ _ => Err "unused"
  | GetTopStories _ _ => Ok []
  | GetStoryContent story _ => Ok (models.Title story)
  | GenerateStoryText storyContent => Ok storyContent
  | GeneratePodcastContent _ => Ok "podcast"
  | GenerateBlogContent _ => Ok "blog"
  | GenerateIntroContent _ => Ok "intro"
  | SynthesizeSpeech text _ => Ok text
  | Sleep _ => tt
  | Now => 0
  | MkdirTemp _ _ => Ok "/tmp/audio-merge1"
  | Create _ => None
  | WriteFile _ _ _ => None
  | Fprintf _ _ => tt
  | Sync _ => tt
  | Close _ => tt
  | RunCommand _ _ => None
  | ReadFile _ => Ok "merged"
  | RemoveAll _ => tt
  | SetIsProcessing _ => tt
  | SetLastProcessed _ => tt
  end.

(** The environment of [obliging] with a store that never fails. *)
Definition env : Env :=
  {| oracle := obliging;
     fault := fun _ => NoFault;
     presigned := fun _ => Ok "https://minio/presigned";
     bucketName := "hacker-news" |}.

(** A server that has stored nothing and made no call. *)
Definition world : World :=
  {| store := ∅; isProcessing := false; lastProcessed := 0; trace := [] |}.

Definition server : Server :=
  {| config_Server_Env := "production";
     config_OpenAI_MaxTokens := 4096;
     config_HackerNews_MaxItems := 10 |}.

End examples.

(** ** Example fetches *)

Module fetches.

Import crawler.

Definition story : models.Story :=
  {| models.ID := "1"; models.Title := "t"; models.URL := "https://example.com/a";
     models.HackerNewsURL := "https://news.ycombinator.com/item?id=1";
     models.Content := ""; models.Comments := "" |}.

(** The URL of the comment page of a story, as [fetchComments] builds
    it. *)
Definition commentURL (story : models.Story) : string :=
  "https://news.ycombinator.com/item?id=" +:+ models.ID story.

(** The article answers 200 but its body cannot be read to the end; the
    comment page is fine. *)
Definition brokenBody : Oracle Call Resp :=
  fun n c =>
  match c as c0 return Resp c0 with
  | HttpGet url =>
    if String.eqb url "https://example.com/a"
    then Response 200 (Err "unexpected EOF")
    else Response 200 (Ok "<html></html>")
  | CommentTree _ => Html "<tr></tr>"
  | ErrChOrder => true
  end.

(** The article request fails in transport; the comment page is fine. *)
Definition unreachable : Oracle Call Resp :=
  fun n c =>
  match c as c0 return Resp c0 with
  | HttpGet url =>
    if String.eqb url "https://example.com/a"
    then DoErr "dial tcp: i/o timeout"
    else Response 200 (Ok "<html></html>")
  | CommentTree _ => Html "<tr></tr>"
  | ErrChOrder => true
  end.

End fetches.

(** ** Example scripts *)

Module scripts.

(** The two-turn script of the specification: a male line with an ASCII
    colon, a female line with a full-width colon, an empty line. *)
Definition twoTurns : string :=
  "男: hello" +:+ LF +:+ "女：world" +:+ LF +:+ LF.

(** The last two bytes of the UTF-8 encoding of the full-width colon
    (EF BC 9A). *)
Definition colonTail : string := String "188" (String "154" "").

(** A line whose label is not a speaker label, with a full-width colon. *)
Definition hostLine : string := "主持人：欢迎收听".

End scripts.

(** ** The shape of the traces of the generation stage *)

Module shape.

Import api.

(** The entries of one item of the loop over the stories, and the
    summaries it contributes: none when the content fetch or the
    summarization fails, one otherwise. *)
Inductive itemRun (maxTokens : Z) (story : models.Story)
  : list (Entry Call Resp) → list string → Prop :=
| fetchFailed (err : error) :
    itemRun maxTokens story
      [mkEntry (GetStoryContent story maxTokens) (Err err)] []
| summaryFailed (storyContent : string) (err : error) :
    itemRun maxTokens story
      [mkEntry (GetStoryContent story maxTokens) (Ok storyContent);
       mkEntry (GenerateStoryText storyContent) (Err err)] []
| summarized (storyContent text : string) :
    itemRun maxTokens story
      [mkEntry (GetStoryContent story maxTokens) (Ok storyContent);
       mkEntry (GenerateStoryText storyContent) (Ok text);
       mkEntry (Sleep (2 * Second)) tt] [text].

(** The entries of the whole loop: the items one after the other, in the
    order of the list of stories. *)
Inductive itemsRun (maxTokens : Z)
  : list models.Story → list (Entry Call Resp) → list string → Prop :=
| itemsDone : itemsRun maxTokens [] [] []
| itemsNext (story : models.Story) (stories : list models.Story)
            (l ls : list (Entry Call Resp)) (t ts : list string) :
    itemRun maxTokens story l t →
    itemsRun maxTokens stories ls ts →
    itemsRun maxTokens (story :: stories) (l ++ ls) (t ++ ts).

(** A failed generation of the podcast script, the blog text or the
    intro. *)
Definition generationFailed (e : Entry Call Resp) : bool :=
  match e with
  | mkEntry c r =>
    match c return Resp c → bool with
    | GeneratePodcastContent _ => fun r => negb (isOk r)
    | GenerateBlogContent _ => fun r => negb (isOk r)
    | GenerateIntroContent _ => fun r => negb (isOk r)
    | _ => fun _ => false
    end r
  end.

(** The summaries obtained in a trace, in order. *)
Definition summaryOf (e : Entry Call Resp) : list string :=
  match e with
  | mkEntry c r =>
    match c return Resp c → list string with
    | GenerateStoryText _ =>
      fun r => match r with Ok text => [text] | Err _ => [] end
    | _ => fun _ => []
    end r
  end.

Definition summaries (tr : list (Entry Call Resp)) : list string :=
  flat_map summaryOf tr.

(** The stories whose content was requested in a trace, in order. *)
Definition fetched (cs : list Call) : list models.Story :=
  flat_map (fun c => match c with
                     | GetStoryContent story _ => [story]
                     | _ => []
                     end) cs.

Definition isGenerateStoryText (c : Call) : bool :=
  match c with GenerateStoryText _ => true | _ => false end.

(** The calls that follow the loop over the stories in the generation
    stage. *)
Definition isLaterGeneration (c : Call) : bool :=
  match c with
  | GeneratePodcastContent _ | GenerateBlogContent _ | GenerateIntroContent _
  | UploadFile _ _ _ => true
  | _ => false
  end.

(** The story lists obtained from the source in a trace. *)
Definition listedOf (e : Entry Call Resp) : list (list models.Story) :=
  match e with
  | mkEntry c r =>
    match c return Resp c → list (list models.Story) with
    | GetTopStories _ _ =>
      fun r => match r with Ok stories => [stories] | Err _ => [] end
    | _ => fun _ => []
    end r
  end.

Definition listed (tr : list (Entry Call Resp)) : list (list models.Story) :=
  flat_map listedOf tr.

(** The summaries handed to the podcast and to the blog generation in a
    trace. *)
Definition inputs (cs : list Call) : list (list string) :=
  flat_map (fun c => match c with
                     | GeneratePodcastContent summaries => [summaries]
                     | GenerateBlogContent summaries => [summaries]
                     | _ => []
                     end) cs.

(** A call of the synthesis stage. *)
Definition isSynthesisCall (c : Call) : bool :=
  match c with
  | SynthesizeSpeech _ _ | UploadFile _ _ _
  | MkdirTemp _ _ | Create _ | WriteFile _ _ _ | Fprintf _ _ | Sync _
  | Close _ | RunCommand _ _ | ReadFile _ | RemoveAll _ => true
  | _ => false
  end.

(** The content record assembled from the three generated texts. *)
Definition assembled (introContent podcastContent blogContent : string) : Content :=
  {| Intro := introContent; Podcast := podcastContent; Blog := blogContent;
     AudioURL := ""; AudioFiles := [] |}.

Section Texts.

Variable json_Marshal : Content → result string.

(** The entries of steps 3 to 5 and of the first write, for the
    summaries [storyTexts], and what the stage hands on: nothing when a
    generation, the serialization or the upload fails. *)
Inductive textsRun (storyTexts : list string) (contentKey : string)
  : list (Entry Call Resp) → option (Content * string * string) → Prop :=
| podcastFailed (err : error) :
    textsRun storyTexts contentKey
      [mkEntry (GeneratePodcastContent storyTexts) (Err err)] None
| blogFailed (podcastContent : string) (err : error) :
    textsRun storyTexts contentKey
      [mkEntry (GeneratePodcastContent storyTexts) (Ok podcastContent);
       mkEntry (GenerateBlogContent storyTexts) (Err err)] None
| introFailed (podcastContent blogContent : string) (err : error) :
    textsRun storyTexts contentKey
      [mkEntry (GeneratePodcastContent storyTexts) (Ok podcastContent);
       mkEntry (GenerateBlogContent storyTexts) (Ok blogContent);
       mkEntry (GenerateIntroContent podcastContent) (Err err)] None
| marshalFailed (podcastContent blogContent introContent : string) (err : error) :
    json_Marshal (assembled introContent podcastContent blogContent) = Err err →
    textsRun storyTexts contentKey
      [mkEntry (GeneratePodcastContent storyTexts) (Ok podcastContent);
       mkEntry (GenerateBlogContent storyTexts) (Ok blogContent);
       mkEntry (GenerateIntroContent podcastContent) (Ok introContent)] None
| uploadFailed (podcastContent blogContent introContent contentData : string)
               (err : error) :
    json_Marshal (assembled introContent podcastContent blogContent)
    = Ok contentData →
    textsRun storyTexts contentKey
      [mkEntry (GeneratePodcastContent storyTexts) (Ok podcastContent);
       mkEntry (GenerateBlogContent storyTexts) (Ok blogContent);
       mkEntry (GenerateIntroContent podcastContent) (Ok introContent);
       mkEntry (UploadFile contentKey contentData "application/json") (Err err)]
      None
| uploaded (podcastContent blogContent introContent contentData url : string) :
    json_Marshal (assembled introContent podcastContent blogContent)
    = Ok contentData →
    textsRun storyTexts contentKey
      [mkEntry (GeneratePodcastContent storyTexts) (Ok podcastContent);
       mkEntry (GenerateBlogContent storyTexts) (Ok blogContent);
       mkEntry (GenerateIntroContent podcastContent) (Ok introContent);
       mkEntry (UploadFile contentKey contentData "application/json") (Ok url)]
      (Some (assembled introContent podcastContent blogContent,
             podcastContent, introContent)).

(** The entries of the synthesis stage entered with the record
    [content], and the store it leaves: only calls of that stage, among
    them a synthesis request; the record [content'] it ends with has the
    texts of [content], and an audio URL that is the old one or the one
    returned by the upload of the merged audio; when that record
    serializes, the last entry is its upload under the content key. *)
Definition synthesisRun (date contentKey : string) (content : Content)
           (l : list (Entry Call Resp)) (st : gmap string string) : Prop :=
  Forall (fun c => isSynthesisCall c = true) (calls l) ∧
  existsb obs.isSynthesizeSpeech (calls l) = true ∧
  ∃ content' : Content,
    Intro content' = Intro content ∧
    Podcast content' = Podcast content ∧
    Blog content' = Blog content ∧
    AudioFiles content' = AudioFiles content ∧
    (content' = content
     ∨ ∃ mergedAudio url,
         content' = setAudioURL content url ∧
         In (mkEntry (UploadFile ("audio/" +:+ date +:+ "-complete.mp3")
                                 mergedAudio "audio/mpeg") (Ok url)) l) ∧
    match json_Marshal content' with
    | Err _ => True
    | Ok contentData =>
      ∃ l0 r,
        l = l0 ++ [mkEntry (UploadFile contentKey contentData "application/json") r] ∧
        (isOk r = true → st !! contentKey = Some contentData)
    end.

Variable json_Unmarshal : string → result Content.

(** The traces of a whole run for [date], from a store [st0] to a store
    [st']: the existence check, then either the load of the existing
    record, stopping there or going on to the synthesis stage, or the
    generation stage, stopping at one of its early returns or going on to
    the synthesis stage. *)
Inductive wholeRun (maxTokens : Z) (date : string) (maxItems : Z)
          (contentKey : string) (st0 st' : gmap string string)
  : list (Entry Call Resp) → Prop :=
| loadStopped (re : bool * option error) (rd : result string) :
    st' = st0 →
    wholeRun maxTokens date maxItems contentKey st0 st'
      [mkEntry (ObjectExists contentKey) re; mkEntry (DownloadFile contentKey) rd]
| loaded (re : bool * option error) (contentData : string) (content : Content)
         (l : list (Entry Call Resp)) :
    json_Unmarshal contentData = Ok content →
    synthesisRun date contentKey content l st' →
    wholeRun maxTokens date maxItems contentKey st0 st'
      ([mkEntry (ObjectExists contentKey) re;
        mkEntry (DownloadFile contentKey) (Ok contentData)] ++ l)
| listingFailed (re : bool * option error) (err : error) :
    st' = st0 →
    wholeRun maxTokens date maxItems contentKey st0 st'
      [mkEntry (ObjectExists contentKey) re;
       mkEntry (GetTopStories date maxItems) (Err err)]
| nothingSummarized (re : bool * option error) (stories : list models.Story)
                    (lsum : list (Entry Call Resp)) :
    itemsRun maxTokens stories lsum [] →
    st' = st0 →
    wholeRun maxTokens date maxItems contentKey st0 st'
      ([mkEntry (ObjectExists contentKey) re;
        mkEntry (GetTopStories date maxItems) (Ok stories)] ++ lsum)
| textsStopped (re : bool * option error) (stories : list models.Story)
               (lsum ltail : list (Entry Call Resp)) (ts : list string) :
    ts ≠ [] →
    itemsRun maxTokens stories lsum ts →
    textsRun ts contentKey ltail None →
    st' = st0 →
    wholeRun maxTokens date maxItems contentKey st0 st'
      ([mkEntry (ObjectExists contentKey) re;
        mkEntry (GetTopStories date maxItems) (Ok stories)] ++ lsum ++ ltail)
| generated (re : bool * option error) (stories : list models.Story)
            (lsum ltail l : list (Entry Call Resp)) (ts : list string)
            (content : Content) (podcastContent introContent : string) :
    ts ≠ [] →
    itemsRun maxTokens stories lsum ts →
    textsRun ts contentKey ltail (Some (content, podcastContent, introContent)) →
    synthesisRun date contentKey content l st' →
    wholeRun maxTokens date maxItems contentKey st0 st'
      ([mkEntry (ObjectExists contentKey) re;
        mkEntry (GetTopStories date maxItems) (Ok stories)]
       ++ lsum ++ ltail ++ l).

End Texts.

End shape.

(** ** An example artifact *)

Module artifact.

Import api.

(** A complete content record and a toy serialization of it: the four
    texts separated by bars.  Only this record can be read back. *)
Definition complete : Content :=
  {| Intro := "intro"; Podcast := "男: hello"; Blog := "blog";
     AudioURL := "https://minio/audio/2025-04-23-complete.mp3";
     AudioFiles := [] |}.

Definition Marshal (content : Content) : result string :=
  Ok (Intro content +:+ "|" +:+ Podcast content +:+ "|" +:+ Blog content
      +:+ "|" +:+ AudioURL content).

Definition stored : string :=
  "intro|男: hello|blog|https://minio/audio/2025-04-23-complete.mp3".

Definition Unmarshal (data : string) : result Content :=
  if String.eqb data stored then Ok complete
  else Err "invalid character".

Definition date : string := "2025-04-23".

(** A server whose store holds the complete record of [date]. *)
Definition world : World :=
  {| store := {[ "content:production:hacker-news:2025-04-23" := stored ]};
     isProcessing := false; lastProcessed := 0; trace := [] |}.

End artifact.

(** ** Example runs of the generation stage *)

Module partial.

Import api.

Definition item (id title : string) : models.Story :=
  {| models.ID := id; models.Title := title;
     models.URL := "https://example.com/" +:+ id;
     models.HackerNewsURL := "https://news.ycombinator.com/item?id=" +:+ id;
     models.Content := ""; models.Comments := "" |}.

(** Five fetched items. *)
Definition five : list models.Story :=
  [item "1" "t1"; item "2" "t2"; item "3" "t3"; item "4" "t4"; item "5" "t5"].

(** The source lists the five items; the content of the second cannot be
    fetched and the summarization of the fourth fails; everything else
    succeeds, the content of an item being its title and its summary
    being its content. *)
Definition twoOfFiveFail : Oracle Call Resp :=
  fun n c =>
  match c as c0 return Resp c0 with
  | GetTopStories _ _ => Ok five
  | GetStoryContent story _ =>
    if String.eqb (models.ID story) "2" then Err "获取文章失败: 读取响应失败: EOF"
    else Ok (models.Title story)
  | GenerateStoryText storyContent =>
    if String.eqb storyContent "t4" then Err "超过最大重试次数"
    else Ok storyContent
  | c0 => examples.obliging n c0
  end.

(** The same source, with a podcast generation that fails. *)
Definition podcastFails : Oracle Call Resp :=
  fun n c =>
  match c as c0 return Resp c0 with
  | GeneratePodcastContent _ => Err "生成AI内容失败: context deadline exceeded"
  | c0 => twoOfFiveFail n c0
  end.

Definition envOf (o : Oracle Call Resp) : Env :=
  {| oracle := o;
     fault := fun _ => NoFault;
     presigned := fun _ => Ok "https://minio/presigned";
     bucketName := "hacker-news" |}.

End partial.

(** ** Two requests for one date *)

Module twice.

Import api.

(** A process request for the date of the example artifact. *)
Definition request : ProcessRequest :=
  {| Date := artifact.date; MaxItems := 10; Force := false; ForceAudio := false |}.

(** A server with an empty store and no goroutine. *)
Definition idle : Machine :=
  {| world := examples.world; goroutines := [] |}.

(** The server after two process requests for the same date. *)
Definition afterTwoRequests : Machine :=
  snd (processHandler artifact.Marshal artifact.Unmarshal examples.server
         "2025-04-24" (Ok request)
         (snd (processHandler artifact.Marshal artifact.Unmarshal examples.server
                 "2025-04-24" (Ok request) idle))).

(** Each goroutine in turn sets the flag, checks for the content and asks
    for the stories. *)
Definition interleaving : list nat := [0; 0; 1; 1; 0; 1]%nat.

End twice.

(** ** What a program can issue *)

(** Every call that [p] can issue, whatever the responses, satisfies
    [P]. *)
Fixpoint issues {C R A} (P : C → Prop) (p : Prog C R A) : Prop :=
  match p with
  | Ret _ => True
  | Do c k => P c ∧ ∀ r, issues P (k r)
  end.

Module keys.

Import api.

(** The object names of a run for [date]: the content record and the
    merged audio. *)
Definition merged (date : string) : string := "audio/" +:+ date +:+ "-complete.mp3".

(** A call that writes to the store writes one of the two objects of
    [date]. *)
Definition writesOnly (contentKey date : string) (c : Call) : Prop :=
  match c with
  | UploadFile objectName _ _ => objectName = contentKey ∨ objectName = merged date
  | _ => True
  end.

(** A call that is not a write of object [k]. *)
Definition spares (k : string) (c : Call) : Prop :=
  match c with
  | UploadFile objectName _ _ => objectName ≠ k
  | _ => True
  end.

(** A synthesis request names one of the two speakers. *)
Definition speaks (c : Call) : Prop :=
  match c with
  | SynthesizeSpeech _ speaker => speaker = "男" ∨ speaker = "女"
  | _ => True
  end.

(** What a run for [date] may issue. *)
Definition allowed (contentKey date : string) (c : Call) : Prop :=
  writesOnly contentKey date c ∧ speaks c.

End keys.
Module scoped.

Import api.

(** A call of the merge between the creation and the removal of its
    temporary directory: a file operation on a path below [tempDir], or
    the invocation of ffmpeg. *)
Definition inside (tempDir : string) (c : Call) : Prop :=
  match c with
  | Create name | WriteFile name _ _ | ReadFile name
  | Fprintf name _ | Sync name | Close name =>
    strings.HasPrefix name (tempDir +:+ "/") = true
  | RunCommand name _ => name = "ffmpeg"
  | _ => False
  end.

End scoped.

Module stages.

Import api.

(** A call to the source fetcher or to the text generator. *)
Definition isFetchOrGenerate (c : Call) : bool :=
  match c with
  | GetTopStories _ _ | GetStoryContent _ _ | GenerateStoryText _
  | GeneratePodcastContent _ | GenerateBlogContent _ | GenerateIntroContent _ => true
  | _ => false
  end.

End stages.

(** ** Package [tts] *)

Module tts.

(** The double quote, as a string. *)
Definition quote : string := String "034" "".

Definition TAB : string := String "009" "".

(** [escapeXML] *)
Definition escapeXML (text : string) : string :=
  let text := strings.ReplaceAll text "&" "&amp;" in
  let text := strings.ReplaceAll text "<" "&lt;" in
  let text := strings.ReplaceAll text ">" "&gt;" in
  let text := strings.ReplaceAll text quote "&quot;" in
  let text := strings.ReplaceAll text "'" "&apos;" in
  text.

(** [escapeXML] of [cmd/edge_tts_test/main.go], which replaces the
    apostrophe before the double quote. *)
Definition escapeXML_cmd (text : string) : string :=
  let text := strings.ReplaceAll text "&" "&amp;" in
  let text := strings.ReplaceAll text "<" "&lt;" in
  let text := strings.ReplaceAll text ">" "&gt;" in
  let text := strings.ReplaceAll text "'" "&apos;" in
  let text := strings.ReplaceAll text quote "&quot;" in
  text.

(** One of the five bytes that [escapeXML] replaces. *)
Definition isSpecial (b : ascii) : bool :=
  Ascii.eqb b "&" || Ascii.eqb b "<" || Ascii.eqb b ">"
  || Ascii.eqb b "034" || Ascii.eqb b "'".

(** A byte that opens or closes markup or an attribute value. *)
Definition isMarkup (b : ascii) : bool :=
  Ascii.eqb b "<" || Ascii.eqb b ">" || Ascii.eqb b "034" || Ascii.eqb b "'".

(** The entity that stands for a byte, the byte itself when it is not
    special. *)
Definition entity (b : ascii) : string :=
  if Ascii.eqb b "&" then "&amp;"
  else if Ascii.eqb b "<" then "&lt;"
  else if Ascii.eqb b ">" then "&gt;"
  else if Ascii.eqb b "034" then "&quot;"
  else if Ascii.eqb b "'" then "&apos;"
  else String b "".

(** [f] applied to every byte of [s], the results appended. *)
Fixpoint mapBytes (f : ascii → string) (s : string) : string :=
  match s with
  | EmptyString => ""
  | String c t => f c +:+ mapBytes f t
  end.

(** [GetSpeakerVoice] *)
Definition GetSpeakerVoice (provider speaker : string) : result string :=
  if negb (String.eqb speaker "男") && negb (String.eqb speaker "女")
  then Err "无效的角色，必须是'男'或'女'"
  else if String.eqb provider "edge" then
    if String.eqb speaker "男" then Ok "zh-CN-YunxiNeural"
    else Ok "zh-CN-XiaoxiaoNeural"
  else if String.eqb provider "aliyun" then
    if String.eqb speaker "男" then Ok "aixia"
    else Ok "xiaoyun"
  else
    if String.eqb speaker "男" then Ok "zh-CN-YunxiNeural"
    else Ok "zh-CN-XiaoxiaoNeural".

(** The number of occurrences of the byte [b] in [s]. *)
Fixpoint countByte (b : ascii) (s : string) : nat :=
  match s with
  | EmptyString => 0
  | String c t => (if Ascii.eqb c b then 1 else 0) + countByte b t
  end.

(** [EdgeTTS] *)
Record EdgeTTS := { outputFormat : string }.

(** The fate of the HTTP request of [directEdgeTTS]:
    [http.NewRequestWithContext] may reject it, [client.Do] may fail, and
    otherwise a status code comes back together with what [io.ReadAll]
    makes of the body. *)
Inductive HttpOutcome :=
| NewRequestErr (e : error)
| DoErr (e : error)
| Response (StatusCode : Z) (body : result string).

Inductive Call :=
| HttpPost (url body : string) (header : list (string * string)).

Definition Resp (c : Call) : Type := HttpOutcome.

Abbreviation prog := (Prog Call Resp).

Definition baseURL : string :=
  "https://speech.platform.bing.com/consumer/speech/synthesize/readaloud/edge/v1".

(** The SSML text that [directEdgeTTS] builds with [fmt.Sprintf]. *)
Definition ssml (voiceID text : string) : string :=
  LF +:+ "<speak version=" +:+ quote +:+ "1.0" +:+ quote
     +:+ " xmlns=" +:+ quote +:+ "http://www.w3.org/2001/10/synthesis" +:+ quote
     +:+ " xml:lang=" +:+ quote +:+ "zh-CN" +:+ quote +:+ ">" +:+ LF
  +:+ TAB +:+ "<voice name=" +:+ quote +:+ voiceID +:+ quote +:+ ">" +:+ LF
  +:+ TAB +:+ TAB +:+ "<prosody rate=" +:+ quote +:+ "0%" +:+ quote
     +:+ " pitch=" +:+ quote +:+ "0%" +:+ quote +:+ ">"
     +:+ escapeXML text +:+ "</prosody>" +:+ LF
  +:+ TAB +:+ "</voice>" +:+ LF
  +:+ "</speak>".

(** The request header set by [directEdgeTTS]. *)
Definition header (e : EdgeTTS) : list (string * string) :=
  [("Content-Type", "application/ssml+xml");
   ("X-Microsoft-OutputFormat", outputFormat e);
   ("User-Agent",
    "Mozilla/5.0 (Windows NT 10.0; Win64; x64) AppleWebKit/537.36 (KHTML, like Gecko) Chrome/93.0.4577.63 Safari/537.36 Edg/93.0.961.47");
   ("Origin", "https://speech.platform.bing.com")].

Definition StatusOK : Z := 200.

(** [EdgeTTS.directEdgeTTS] *)
Definition directEdgeTTS (e : EdgeTTS) (text voiceID : string) : prog (result string) :=
  o ← call (HttpPost baseURL (ssml voiceID text) (header e));
  match o with
  | NewRequestErr err => mret (Err (Errorf_w "创建请求失败: " err))
  | DoErr err => mret (Err (Errorf_w "发送请求失败: " err))
  | Response StatusCode body =>
    if negb (StatusCode =? StatusOK)
    then mret (Err ("TTS请求失败，状态码: " +:+ pretty StatusCode))
    else match body with
         | Err err => mret (Err (Errorf_w "读取响应内容失败: " err))
         | Ok audio => mret (Ok audio)
         end
  end.

(** [EdgeTTS.SynthesizeSpeech] *)
Definition SynthesizeSpeech (e : EdgeTTS) (text speaker : string) : prog (result string) :=
  match GetSpeakerVoice "edge" speaker with
  | Err err => mret (Err err)
  | Ok voiceID => directEdgeTTS e text voiceID
  end.

End tts.

(** ** Package [strconv] (Go standard library) *)

Module strconv.

(** The result of a conversion: a number, or one of the two errors
    [ErrSyntax] and [ErrRange]. *)
Inductive numResult :=
| Num (n : Z)
| ErrSyntax
| ErrRange.

(** The value of a decimal digit. *)
Definition digitOf (c : ascii) : option Z :=
  let d := byteOf c - byteOf "0" in
  if (0 <=? d) && (d <=? 9) then Some d else None.

(** The loop of the fast path of [Atoi]:
    [for _, ch := range []byte(s) { ch -= '0'; if ch > 9 {...}; n = n*10 + int(ch) }].
    It runs on fewer than 19 bytes, so [n] stays within [int]. *)
Fixpoint fastDigits (s : string) (n : Z) : option Z :=
  match s with
  | EmptyString => Some n
  | String ch t =>
    match digitOf ch with
    | None => None
    | Some d => fastDigits t (n * 10 + d)
    end
  end.

Definition maxUint64 : Z := 2 ^ 64 - 1.

(** The loop of [ParseUint(s, 10, 64)]. *)
Fixpoint uintDigits (s : string) (n : Z) : numResult :=
  match s with
  | EmptyString => Num n
  | String c t =>
    match digitOf c with
    | None => ErrSyntax
    | Some d =>
      let cutoff := maxUint64 / 10 + 1 in
      if cutoff <=? n then ErrRange
      else
        let n := n * 10 in
        let n1 := n + d in
        if maxUint64 <? n1 then ErrRange else uintDigits t n1
    end
  end.

(** [ParseUint(s, 10, 64)] *)
Definition ParseUint (s : string) : numResult :=
  if String.eqb s "" then ErrSyntax else uintDigits s 0.

(** [ParseInt(s, 10, 0)] on a 64-bit platform. *)
Definition ParseInt (s : string) : numResult :=
  match s with
  | EmptyString => ErrSyntax
  | String c0 t =>
    let neg := Ascii.eqb c0 "-" in
    let s := if Ascii.eqb c0 "+" || Ascii.eqb c0 "-" then t else s in
    let cutoff := 2 ^ 63 in
    match ParseUint s with
    | ErrSyntax => ErrSyntax
    | ErrRange => ErrRange
    | Num un =>
      if negb neg && (cutoff <=? un) then ErrRange
      else if neg && (cutoff <? un) then ErrRange
      else Num (if neg then - un else un)
    end
  end.

(** [strconv.Atoi] on a 64-bit platform: a fast path for strings of
    fewer than 19 bytes, [ParseInt] for the others. *)
Definition Atoi (s : string) : numResult :=
  let sLen := String.length s in
  if (0 <? sLen)%nat && (sLen <? 19)%nat then
    match s with
    | EmptyString => ErrSyntax
    | String c0 t =>
      let digits := if Ascii.eqb c0 "-" || Ascii.eqb c0 "+" then t else s in
      if (String.length digits <? 1)%nat then ErrSyntax
      else
        match fastDigits digits 0 with
        | None => ErrSyntax
        | Some n => Num (if Ascii.eqb c0 "-" then - n else n)
        end
    end
  else ParseInt s.

End strconv.

(** ** Package [config]: the first part of [config/config.go] *)

Module config.

(** The environment of the process: the variables that are set. *)
Definition Environ := gmap string string.

(** [os.Getenv]: the empty string for a variable that is not set. *)
Definition Getenv (environ : Environ) (key : string) : string :=
  default "" (environ !! key).

Record ServerConfig := { Port : string; Env : string }.

Record OpenAIConfig := {
  BaseURL : string;
  APIKey : string;
  Model : string;
  ThinkingModel : string;
  MaxTokens : Z;
  DefaultAPIKey : string;
  DefaultBaseURL : string
}.

Record MinIOConfig := {
  Endpoint : string;
  BucketName : string;
  AccessKeyID : string;
  SecretAccessKey : string
}.

Record HackerNewsConfig := { JinaKey : string; MaxItems : Z }.

Record EdgeTTSConfig := { OutputFormat : string }.

Record AliyunTTSConfig := {
  Aliyun_AccessKeyID : string;
  AccessKeySecret : string;
  Region : string;
  VoiceID : string
}.

Record TTSConfig := {
  Provider : string;
  EdgeTTS : EdgeTTSConfig;
  AliyunTTS : AliyunTTSConfig
}.

Record Config := {
  Server : ServerConfig;
  OpenAI : OpenAIConfig;
  MinIO : MinIOConfig;
  HackerNews : HackerNewsConfig;
  TTS : TTSConfig
}.

(** [getEnvOrDefault] *)
Definition getEnvOrDefault (environ : Environ) (key defaultValue : string) : string :=
  let value := Getenv environ key in
  if String.eqb value "" then defaultValue else value.

(** [getEnvIntOrDefault] *)
Definition getEnvIntOrDefault (environ : Environ) (key : string) (defaultValue : Z) : Z :=
  let value := Getenv environ key in
  if String.eqb value "" then defaultValue
  else match strconv.Atoi value with
       | strconv.Num intValue => intValue
       | _ => defaultValue
       end.

(** [LoadConfig] *)
Definition LoadConfig (environ : Environ) : Config :=
  {| Server :=
       {| Port := getEnvOrDefault environ "APP_PORT" "3001";
          Env := getEnvOrDefault environ "WORKER_ENV" "production" |};
     OpenAI :=
       {| BaseURL := getEnvOrDefault environ "OPENAI_BASE_URL" "https://api.deepseek.com/v1";
          APIKey := getEnvOrDefault environ "OPENAI_API_KEY" "";
          Model := getEnvOrDefault environ "OPENAI_MODEL" "deepseek-chat";
          ThinkingModel := getEnvOrDefault environ "OPENAI_THINKING_MODEL" "";
          MaxTokens := getEnvIntOrDefault environ "OPENAI_MAX_TOKENS" 4096;
          DefaultAPIKey := "sk-b5195ce322244754b2c87d901473070e";
          DefaultBaseURL := "https://api.deepseek.com/v1" |};
     MinIO :=
       {| Endpoint := getEnvOrDefault environ "HACKER_NEWS_R2_BUCKET_URL" "http://localhost:9000";
          BucketName := getEnvOrDefault environ "HACKER_NEWS_BUCKET_NAME" "hacker-news";
          AccessKeyID := getEnvOrDefault environ "MINIO_ACCESS_KEY" "minioadmin";
          SecretAccessKey := getEnvOrDefault environ "MINIO_SECRET_KEY" "minioadmin" |};
     HackerNews :=
       {| JinaKey := getEnvOrDefault environ "JINA_KEY" "";
          MaxItems := getEnvIntOrDefault environ "MAX_ITEMS" 10 |};
     TTS :=
       {| Provider := getEnvOrDefault environ "TTS_PROVIDER" "edge";
          EdgeTTS := {| OutputFormat := getEnvOrDefault environ "EDGE_TTS_FORMAT" "mp3" |};
          AliyunTTS :=
            {| Aliyun_AccessKeyID := getEnvOrDefault environ "ALIYUN_ACCESS_KEY_ID" "";
               AccessKeySecret := getEnvOrDefault environ "ALIYUN_ACCESS_KEY_SECRET" "";
               Region := getEnvOrDefault environ "ALIYUN_REGION" "cn-shanghai";
               VoiceID := getEnvOrDefault environ "ALIYUN_VOICE_ID" "xiaoyun" |} |} |}.

End config.

(** ** Package [api]: the handlers that read and delete what is stored *)

Module handlers.

(** The calls of these handlers: methods of [minioClient] and of
    [ttsService]. *)
Inductive Call :=
| GetPresignedURL (objectName : string) (expiry : Duration)
| DownloadFile (objectName : string)
| DeleteFile (objectName : string)
| UploadFile (objectName data contentType : string)
| SynthesizeSpeech (text speaker : string).

Definition Resp (c : Call) : Type :=
  match c with
  | GetPresignedURL _ _ => result string
  | DownloadFile _ => result string
  | DeleteFile _ => option error
  | UploadFile _ _ _ => result string
  | SynthesizeSpeech _ _ => result string
  end.

Abbreviation prog := (Prog Call Resp).

(** The object store and the trace of the calls made. *)
Record World := {
  store : gmap string string;
  trace : list (Entry Call Resp)
}.

(** The environment of a handler: the faults of the store, the fate of
    URL signing and the answers of the speech synthesizer, each for the
    [n]-th call. *)
Record Env := {
  fault : nat → api.Fault;
  presigned : nat → result string;
  synthesized : nat → string → string → result string;
  bucketName : string
}.

Definition getObject (env : Env) (w : World) (objectName : string)
  : storage.ObjectOutcome :=
  match fault env (length (trace w)) with
  | api.ClientFault e => storage.GetObjectErr e
  | api.NetworkFault e => storage.Object (Err e) (Err e)
  | api.NoFault =>
    match store w !! objectName with
    | None =>
      storage.Object (Err "The specified key does not exist.")
                     (Err "The specified key does not exist.")
    | Some data => storage.Object (Ok (len data)) (Ok data)
    end
  end.

(** What [PutObject] and [RemoveObject] report, and the store after
    them.  Removing an object that is not there is no error. *)
Definition putObject (env : Env) (w : World) (objectName data : string)
  : option error * gmap string string :=
  match fault env (length (trace w)) with
  | api.ClientFault e => (Some e, store w)
  | api.NetworkFault e => (Some e, store w)
  | api.NoFault => (None, <[objectName := data]> (store w))
  end.

Definition removeObject (env : Env) (w : World) (objectName : string)
  : option error * gmap string string :=
  match fault env (length (trace w)) with
  | api.ClientFault e => (Some e, store w)
  | api.NetworkFault e => (Some e, store w)
  | api.NoFault => (None, delete objectName (store w))
  end.

Definition answer (c : Call) (r : Resp c) (st : gmap string string) (w : World)
  : Resp c * World :=
  (r, {| store := st; trace := trace w ++ [mkEntry c r] |}).

Definition handle (env : Env) : Handler Call Resp World :=
  fun c w =>
  let n := length (trace w) in
  match c as c0 return Resp c0 * World with
  | GetPresignedURL objectName expiry =>
    answer (GetPresignedURL objectName expiry)
           (storage.GetPresignedURL (presigned env n)) (store w) w
  | DownloadFile objectName =>
    answer (DownloadFile objectName)
           (storage.DownloadFile (getObject env w objectName)) (store w) w
  | DeleteFile objectName =>
    let remove := removeObject env w objectName in
    answer (DeleteFile objectName) (storage.DeleteFile (fst remove)) (snd remove) w
  | UploadFile objectName data contentType =>
    let put := putObject env w objectName data in
    answer (UploadFile objectName data contentType)
           (storage.UploadFile (bucketName env) objectName (fst put) (presigned env n))
           (snd put) w
  | SynthesizeSpeech text speaker =>
    answer (SynthesizeSpeech text speaker) (synthesized env n text speaker) (store w) w
  end.

(** What a handler writes with [c.JSON] (status code and the fields of
    the [gin.H] object) or with [c.Writer] (header fields and body). *)
Inductive Reply :=
| JSON (code : Z) (obj : list (string * string))
| Data (header : list (string * string)) (body : string).

Definition StatusOK : Z := 200.
Definition StatusBadRequest : Z := 400.
Definition StatusNotFound : Z := 404.
Definition StatusInternalServerError : Z := 500.
Definition StatusNotImplemented : Z := 501.

Definition Hour : Duration := 60 * Minute.

(** The anonymous struct [content] of [getPodcastHandler] and
    [getBlogHandler]. *)
Record Content := {
  Intro : string;
  Podcast : string;
  Blog : string;
  AudioURL : string
}.

Section Handlers.

(** [json.Unmarshal] into that struct. *)
Variable json_Unmarshal : string → result Content.

Variable s : api.Server.

(** [getPodcastHandler]; [today] is [time.Now().Format("2006-01-02")]
    and [query_date] is [c.Query("date")]. *)
Definition getPodcastHandler (today query_date : string) : prog Reply :=
  let date := if String.eqb query_date "" then today else query_date in
  let datePath := strings.ReplaceAll date "-" "/" in
  let env := api.config_Server_Env s in
  let podcastObjectName :=
    datePath +:+ "/" +:+ env +:+ "/hacker-news-" +:+ date +:+ ".mp3" in
  p ← call (GetPresignedURL podcastObjectName (24 * Hour));
  match p with
  | Err _ => mret (JSON StatusInternalServerError [("error", "获取播客失败")])
  | Ok presignedURL =>
    let contentObjectName := "content:" +:+ env +:+ ":hacker-news:" +:+ date in
    d ← call (DownloadFile contentObjectName);
    match d with
    | Err _ => mret (JSON StatusInternalServerError [("error", "获取播客内容失败")])
    | Ok contentData =>
      match json_Unmarshal contentData with
      | Err _ => mret (JSON StatusInternalServerError [("error", "解析内容失败")])
      | Ok content =>
        mret (JSON StatusOK
                   [("date", date);
                    ("title", "Hacker News 每日播客 " +:+ date);
                    ("intro", Intro content);
                    ("content", Podcast content);
                    ("audioUrl", presignedURL)])
      end
    end
  end.

(** [getBlogHandler] *)
Definition getBlogHandler (today query_date : string) : prog Reply :=
  let date := if String.eqb query_date "" then today else query_date in
  let env := api.config_Server_Env s in
  let contentObjectName := "content:" +:+ env +:+ ":hacker-news:" +:+ date in
  d ← call (DownloadFile contentObjectName);
  match d with
  | Err _ => mret (JSON StatusInternalServerError [("error", "获取博客内容失败")])
  | Ok contentData =>
    match json_Unmarshal contentData with
    | Err _ => mret (JSON StatusInternalServerError [("error", "解析内容失败")])
    | Ok content =>
      mret (JSON StatusOK
                 [("date", date);
                  ("title", "Hacker News 每日博客 " +:+ date);
                  ("content", Blog content)])
    end
  end.

(** [ttsHandler]; [binding] is the result of [c.ShouldBindJSON] with the
    text and the speaker, and [stamp] is
    [time.Now().Format("20060102-150405")]. *)
Definition ttsHandler (stamp : string) (binding : result (string * string))
  : prog Reply :=
  match binding with
  | Err _ => mret (JSON StatusBadRequest [("error", "无效的请求参数")])
  | Ok (text, speaker) =>
    a ← call (SynthesizeSpeech text speaker);
    match a with
    | Err _ => mret (JSON StatusInternalServerError [("error", "文本转语音失败")])
    | Ok audio =>
      let filename := "tts-" +:+ stamp +:+ ".mp3" in
      let contentType := "audio/mpeg" in
      u ← call (UploadFile filename audio contentType);
      match u with
      | Err _ => mret (JSON StatusInternalServerError [("error", "上传音频失败")])
      | Ok audioURL => mret (JSON StatusOK [("audioUrl", audioURL)])
      end
    end
  end.

(** [concatAudioHandler]; [binding] is the result of
    [c.ShouldBindJSON] with the list of URLs. *)
Definition concatAudioHandler (binding : result (list string)) : prog Reply :=
  match binding with
  | Err _ => mret (JSON StatusBadRequest [("error", "无效的请求参数")])
  | Ok _ => mret (JSON StatusNotImplemented [("error", "音频合并功能尚未实现")])
  end.

(** [serveAudioHandler]; [filename] is [c.Param("filename")]. *)
Definition serveAudioHandler (filename : string) : prog Reply :=
  if String.eqb filename "" then
    mret (JSON StatusBadRequest [("error", "文件名不能为空")])
  else
    let audioPath := "audio/" +:+ filename in
    d ← call (DownloadFile audioPath);
    match d with
    | Err _ => mret (JSON StatusNotFound [("error", "文件不存在")])
    | Ok data =>
      mret (Data [("Content-Type", "audio/mpeg"); ("Content-Disposition", "inline")]
                 data)
    end.

(** [deleteContentHandler]; [date] is [c.Query("date")]. *)
Definition deleteContentHandler (date : string) : prog Reply :=
  if String.eqb date "" then
    mret (JSON StatusBadRequest [("error", "日期不能为空")])
  else
    let env := api.config_Server_Env s in
    let contentObjectName := "content:" +:+ env +:+ ":hacker-news:" +:+ date in
    let audioObjectName := "audio/hacker-news-" +:+ date +:+ ".mp3" in
    let oldAudioObjectName :=
      strings.ReplaceAll date "-" "/" +:+ "/" +:+ env +:+ "/hacker-news-" +:+ date
      +:+ ".mp3" in
    call (DeleteFile contentObjectName);;
    call (DeleteFile audioObjectName);;
    call (DeleteFile oldAudioObjectName);;
    mret (JSON StatusOK [("message", "内容删除成功"); ("date", date)]).

End Handlers.

(** An environment without faults. *)
Definition calm : Env :=
  {| fault := fun _ => api.NoFault;
     presigned := fun _ => Ok "https://minio/presigned";
     synthesized := fun _ text _ => Ok text;
     bucketName := "hacker-news" |}.

End handlers.

Module waits.

(** The time slept by the calls of a generation, in nanoseconds. *)
Definition slept (cs : list ai.Call) : Z :=
  foldr (fun c total => match c with
                        | ai.Sleep d => d + total
                        | ai.CreateChatCompletion _ _ => total
                        end) 0 cs.

(** The time allowed to the attempts of a generation: the sum of their
    timeouts. *)
Definition allowed (cs : list ai.Call) : Z :=
  foldr (fun c total => match c with
                        | ai.Sleep _ => total
                        | ai.CreateChatCompletion timeout _ => timeout + total
                        end) 0 cs.

End waits.

Module listing.

Import api.

(** A request for the stories of a day names a day and a positive number
    of items, for which [crawler.GetTopStories] does not panic. *)
Definition wellFormed (c : Call) : Prop :=
  match c with
  | GetTopStories date maxItems =>
    date ≠ "" ∧ 0 < maxItems ∧ ∀ o, crawler.GetTopStories maxItems o ≠ None
  | _ => True
  end.

End listing.

Module runs.

Import api.

(** The calls that a run for [date] with [maxItems] can issue: the
    store is read at the content key and written at the content key and
    at the merged audio, the stories are listed for the date and the item
    count of the run, their content is fetched under the configured
    token budget, speech is requested for one of the two speakers, the
    pacing sleep lasts two seconds, and the merge works with a temporary
    directory of its own, files of mode 0644 and ffmpeg. *)
Definition footprint (s : Server) (date : string) (maxItems : Z) (c : Call) : Prop :=
  match c with
  | ObjectExists objectName | DownloadFile objectName =>
    objectName = contentKeyOf s date
  | UploadFile objectName _ contentType =>
    (objectName = contentKeyOf s date ∧ contentType = "application/json")
    ∨ (objectName = keys.merged date ∧ contentType = "audio/mpeg")
  | GetTopStories date' maxItems' => date' = date ∧ maxItems' = maxItems
  | GetStoryContent _ maxTokens => maxTokens = config_OpenAI_MaxTokens s
  | SynthesizeSpeech _ speaker => speaker = "男" ∨ speaker = "女"
  | Sleep d => d = 2 * Second
  | MkdirTemp dir pattern => dir = "" ∧ pattern = "audio-merge"
  | WriteFile _ _ perm => perm = perm0644
  | RunCommand name _ => name = "ffmpeg"
  | _ => True
  end.

End runs.

Module branches.

Import api.

Definition isDownloadFile (c : Call) : bool :=
  match c with DownloadFile _ => true | _ => false end.

End branches.

(** ** A store that cannot be reached, an ffmpeg that rejects its input *)

Module outage.

Import api.

(** The store cannot be reached by the first call of a run and answers
    from the second call on; the source and the generators are those of
    [partial.twoOfFiveFail]. *)
Definition env : Env :=
  {| oracle := partial.twoOfFiveFail;
     fault := fun n => match n with
                       | O => NetworkFault "dial tcp: i/o timeout"
                       | S _ => NoFault
                       end;
     presigned := fun _ => Ok "https://minio/presigned";
     bucketName := "hacker-news" |}.

End outage.

Module concat.

Import api.




End concat.

(** * Properties *)

(** ** Running programs *)

Lemma run_bind {C R W A B} (h : Handler C R W) (p : Prog C R A)
      (f : A → Prog C R B) (w : W) :
  run h (p ≫= f) w = let '(a, w') := run h p w in run h (f a) w'.
Proof.
  revert w. induction p as [a | c k IH]; intros w.
  - reflexivity.
  - cbn. destruct (h c w) as [r w1]. apply IH.
Qed.

(** Symbolic execution of a server program up to the next response
    that is not known. *)
Ltac run_step :=
  cbn [run bind mbind mret Prog_bind Prog_ret call
       api.handle api.ask api.answer fst snd].

(** ** The retry wrapper of [ai.generateText] *)

(** Every text generator entry point is [generateText] on a request; for
    the summary of a story, on the request that is left when the cut of
    the content does not panic. *)
Lemma generators_use_generateText (c : ai.Client) :
  (∀ x req, ai.storyRequest c x = Some req →
            ai.GenerateStoryText c x = r ← ai.generateText req; mret (Some r)) ∧
  (∀ l, ai.GeneratePodcastContent c l = ai.generateText (ai.podcastRequest c l)) ∧
  (∀ l, ai.GenerateBlogContent c l = ai.generateText (ai.blogRequest c l)) ∧
  (∀ x, ai.GenerateIntroContent c x = ai.generateText (ai.introRequest c x)).
Proof.
  repeat split. intros x req H. unfold ai.GenerateStoryText. now rewrite H.
Qed.

(** C5.  Whatever the chat service answers, a call of [generateText]
    makes [n] attempts for some [1 <= n <= 3], each under a timeout of
    two minutes; its calls are exactly the attempts interleaved with
    sleeps, the sleep after the attempt of index [i] (from 1) lasting
    [i] times two seconds; every attempt before the last one failed (an
    error, or a response without choices); the result is the text of the
    first choice of the last attempt when that attempt succeeded, and an
    error only when all three attempts failed. *)
Theorem generateText_retry (o : Oracle ai.Call ai.Resp)
        (req : ai.ChatCompletionRequest) :
  let '(res, tr) := exec o (ai.generateText req) in
  ∃ n : nat,
    (1 ≤ n ≤ 3)%nat ∧
    calls tr = ai.schedule req n ∧
    length (List.filter ai.isAttempt (calls tr)) = n ∧
    (∀ i : nat, (i < n - 1)%nat →
       ai.failed (o (2 * i)%nat (ai.attempt req)) = true) ∧
    match res with
    | Ok text =>
      ∃ resp, o (2 * (n - 1))%nat (ai.attempt req) = Ok resp ∧
              head (ai.Choices resp) = Some text
    | Err _ =>
      n = 3%nat ∧ ai.failed (o 4%nat (ai.attempt req)) = true
    end.
Proof.
  assert (below : ∀ n : nat,
    (∀ i, (i < n)%nat → ai.failed (o (2 * i)%nat (ai.attempt req)) = true) →
    ai.failed (o (2 * n)%nat (ai.attempt req)) = true →
    ∀ i, (i < S n)%nat → ai.failed (o (2 * i)%nat (ai.attempt req)) = true).
  { intros n Hlt Hn i Hi. destruct (decide (i = n)) as [-> | Hne]; [exact Hn |].
    apply Hlt. lia. }
  assert (lt0 : ∀ i, (i < 0)%nat →
                     ai.failed (o (2 * i)%nat (ai.attempt req)) = true) by (intros; lia).
  unfold exec, ai.generateText.
  lazy -[Nat.mul Nat.sub ai.attempt ai.schedule ai.failed ai.isAttempt List.filter].
  change (ai.CreateChatCompletion _ req) with (ai.attempt req).
  destruct (o 0%nat (ai.attempt req)) as [[[| t0 ch0] tok0] | e0] eqn:E0.
  2: { exists 1%nat. repeat split; try lia; try reflexivity.
       eexists; split; [exact E0 | reflexivity]. }
  all: assert (F0 : ai.failed (o (2 * 0)%nat (ai.attempt req)) = true)
         by (change (2 * 0)%nat with 0%nat; rewrite E0; reflexivity);
       pose proof (below 0%nat lt0 F0) as lt1;
       destruct (o 2%nat (ai.attempt req)) as [[[| t1 ch1] tok1] | e1] eqn:E1.
  2, 5: exists 2%nat; repeat split; try lia; try reflexivity;
        try (apply lt1; lia); eexists; split; [exact E1 | reflexivity].
  all: assert (F1 : ai.failed (o (2 * 1)%nat (ai.attempt req)) = true)
         by (change (2 * 1)%nat with 2%nat; rewrite E1; reflexivity);
       pose proof (below 1%nat lt1 F1) as lt2;
       destruct (o 4%nat (ai.attempt req)) as [[[| t2 ch2] tok2] | e2] eqn:E2;
       exists 3%nat; repeat split; try lia; try reflexivity;
       try (apply lt2; lia);
       try (eexists; split; [exact E2 | reflexivity]);
       try (rewrite E2; reflexivity).
Qed.

(** ** Runs of server programs *)

Import api obs.

Lemma added_app (w w' : World) (l : list (Entry Call Resp)) :
  trace w' = trace w ++ l → added w w' = l.
Proof. intros H. unfold added. rewrite H. apply drop_app_length. Qed.

Lemma handle_frame (env : Env) (c : Call) (w : World) :
  ∃ l, trace (snd (handle env c w)) = trace w ++ l ∧
       (l = [] ∨ l = [mkEntry c (fst (handle env c w))]).
Proof.
  destruct c; cbn;
    try (eexists; split; [reflexivity | right; reflexivity]);
    try (exists []; split; [symmetry; apply app_nil_r | left; reflexivity]).
Qed.

Lemma run_frame (env : Env) {A} (p : prog A) (w : World) :
  ∃ l, trace (after env p w) = trace w ++ l.
Proof.
  unfold after. revert w. induction p as [a | c k IH]; intros w.
  - exists []. cbn. symmetry. apply app_nil_r.
  - cbn. destruct (handle_frame env c w) as (l1 & E1 & _).
    destruct (handle env c w) as [r w1]. cbn in E1.
    destruct (IH r w1) as (l2 & E2). exists (l1 ++ l2).
    rewrite E2, E1. symmetry. apply app_assoc.
Qed.

(** ** The audio merge *)

Lemma writeSegments_calls (env : Env) (tempDir fl : string)
      (segs : list string) (i : nat) (w : World) :
  let '(r, w') := run (handle env) (writeSegments tempDir fl i segs) w in
  store w' = store w ∧
  ∃ l, trace w' = trace w ++ l ∧
       Forall (fun c => isRunCommand c = false) (calls l) ∧
       Forall (fun c => isMergeCall c = true) (calls l) ∧
       (r = None →
        calls l = segmentCalls fl (zip (segPaths tempDir i (length segs)) segs)).
Proof.
  revert i w. induction segs as [| seg rest IH]; intros i w.
  - cbn. split; [reflexivity |]. exists []. rewrite app_nil_r.
    repeat split; constructor.
  - cbn [writeSegments]. run_step.
    destruct (oracle env (length (trace w)) _) as [err |] eqn:E.
    + cbn. split; [reflexivity |]. eexists. split; [reflexivity |].
      split; [repeat constructor |]. split; [repeat constructor | discriminate].
    + run_step.
      set (w2 := record _ (record _ w)).
      specialize (IH (S i) w2).
      destruct (run (handle env) (writeSegments tempDir fl (S i) rest) w2) as [r w'].
      destruct IH as (Hst & l & Htr & Hnf & Hmc & Hcalls).
      split; [exact Hst |].
      eexists. split.
      { rewrite Htr. subst w2. cbn. rewrite <- !app_assoc. reflexivity. }
      split.
      { cbn. repeat constructor. exact Hnf. }
      split.
      { cbn. repeat constructor. exact Hmc. }
      intros Hr. unfold calls. rewrite !map_app. cbn [map callOf].
      fold (calls l). rewrite (Hcalls Hr). reflexivity.
Qed.

Lemma run_mbind {C R W A B} (h : Handler C R W) (p : Prog C R A)
      (f : A → Prog C R B) (w : W) :
  run h (p ≫= f) w = run h (f (fst (run h p w))) (snd (run h p w)).
Proof. rewrite run_bind. destruct (run h p w); reflexivity. Qed.

Lemma string_length_app (s t : string) :
  String.length (s +:+ t) = (String.length s + String.length t)%nat.
Proof. induction s as [| c s IH]; simpl; [reflexivity | f_equal; exact IH]. Qed.

Lemma string_app_inv_tail (s1 s2 t : string) : s1 +:+ t = s2 +:+ t → s1 = s2.
Proof.
  revert s2. induction s1 as [| c s1 IH]; intros [| c2 s2] H; simpl in H.
  - reflexivity.
  - apply (f_equal String.length) in H.
    rewrite ?string_length_app in H. simpl in H.
    rewrite ?string_length_app in H. lia.
  - apply (f_equal String.length) in H.
    rewrite ?string_length_app in H. simpl in H.
    rewrite ?string_length_app in H. lia.
  - injection H as -> H. f_equal. now apply IH.
Qed.










Lemma existsb_Forall_false {A} (f : A → bool) (l : list A) :
  Forall (fun x => f x = false) l → existsb f l = false.
Proof. induction 1 as [| x l Hx _ IH]; cbn; [reflexivity | now rewrite Hx]. Qed.

Lemma mergeAudioBytes_run (env : Env) (segs : list string) (w : World) :
  let res := fst (run (handle env) (mergeAudioBytes segs) w) in
  let w' := snd (run (handle env) (mergeAudioBytes segs) w) in
  store w' = store w ∧
  ∃ l, trace w' = trace w ++ l ∧
       Forall (fun c => isMergeCall c = true) (calls l) ∧
       (existsb isRunCommand (calls l) = true →
        ∃ tempDir,
          let fl := Join tempDir "filelist.txt" in
          let out := Join tempDir "merged.mp3" in
          calls l = mergeCalls tempDir segs ++ [Close fl; RemoveAll tempDir]
          ∨ calls l = mergeCalls tempDir segs
                      ++ [ReadFile out; Close fl; RemoveAll tempDir]) ∧
       (isOk res = true → existsb isRunCommand (calls l) = true).
Proof.
  unfold mergeAudioBytes. run_step.
  destruct (oracle env (length (trace w)) (MkdirTemp "" "audio-merge"))
    as [tempDir | err] eqn:E1; run_step.
  2: { split; [reflexivity |]. eexists. split; [reflexivity |].
       split; [repeat constructor |]. split; cbn; discriminate. }
  destruct (oracle env _ (Create _)) as [err |] eqn:E2; run_step.
  { split; [reflexivity |]. eexists. split.
    { cbn [trace record]. rewrite <- !app_assoc. reflexivity. }
    split; [repeat constructor |]. split; cbn; discriminate. }
  rewrite run_mbind.
  match goal with
  | |- context [run (handle env) (writeSegments ?d ?f ?i ?s) ?w0] =>
    pose proof (writeSegments_calls env d f s i w0) as H;
    destruct (run (handle env) (writeSegments d f i s) w0) as [r w3]
  end.
  destruct H as (Hst & l1 & Htr & Hnf & Hmc & Hcalls). cbn [fst snd].
  assert (Hmerge : ∀ pre post,
    Forall (fun c => isMergeCall c = true) pre →
    Forall (fun c => isMergeCall c = true) post →
    Forall (fun c => isMergeCall c = true) (pre ++ calls l1 ++ post)).
  { intros pre post Hpre Hpost. rewrite !Forall_app. auto. }
  destruct r as [err |]; run_step.
  { split; [exact Hst |]. eexists. split.
    { cbn [trace record] in *. rewrite Htr, <- !app_assoc. reflexivity. }
    unfold calls. rewrite !map_app. fold (calls l1). cbn [map callOf app].
    split; [apply (Hmerge [_; _] [_; _]); repeat constructor |].
    split; [| discriminate].
    cbn [existsb isRunCommand orb]. rewrite existsb_app.
    rewrite (existsb_Forall_false _ _ Hnf). cbn. discriminate. }
  specialize (Hcalls eq_refl).
  destruct (oracle env _ (RunCommand _ _)) as [err |] eqn:E3; run_step.
  - split; [exact Hst |]. eexists. split.
    { cbn [trace record] in *. rewrite Htr, <- !app_assoc. reflexivity. }
    unfold calls. rewrite !map_app. fold (calls l1). cbn [map callOf app].
    split; [apply (Hmerge [_; _] [_; _; _; _]); repeat constructor |].
    split; [| discriminate].
    intros _. exists tempDir. left. rewrite Hcalls. unfold mergeCalls.
    cbn [app]. rewrite <- !app_assoc. reflexivity.
  - split; [exact Hst |]. eexists. split.
    { cbn [trace record] in *. rewrite Htr, <- !app_assoc. reflexivity. }
    unfold calls. rewrite !map_app. fold (calls l1). cbn [map callOf app].
    assert (Hshape : ∃ tempDir0 : string,
      MkdirTemp "" "audio-merge" :: Create (Join tempDir "filelist.txt")
        :: calls l1 ++ Sync (Join tempDir "filelist.txt")
        :: RunCommand "ffmpeg"
             (ffmpegArgs (Join tempDir "filelist.txt") (Join tempDir "merged.mp3"))
        :: ReadFile (Join tempDir "merged.mp3")
        :: Close (Join tempDir "filelist.txt") :: [RemoveAll tempDir]
      = mergeCalls tempDir0 segs ++ [Close (Join tempDir0 "filelist.txt"); RemoveAll tempDir0]
      ∨ MkdirTemp "" "audio-merge" :: Create (Join tempDir "filelist.txt")
        :: calls l1 ++ Sync (Join tempDir "filelist.txt")
        :: RunCommand "ffmpeg"
             (ffmpegArgs (Join tempDir "filelist.txt") (Join tempDir "merged.mp3"))
        :: ReadFile (Join tempDir "merged.mp3")
        :: Close (Join tempDir "filelist.txt") :: [RemoveAll tempDir]
      = mergeCalls tempDir0 segs
        ++ [ReadFile (Join tempDir0 "merged.mp3");
            Close (Join tempDir0 "filelist.txt"); RemoveAll tempDir0]).
    { exists tempDir. right. rewrite Hcalls. unfold mergeCalls.
      cbn [app]. rewrite <- !app_assoc. reflexivity. }
    split; [apply (Hmerge [_; _] [_; _; _; _; _]); repeat constructor |].
    split; [intros _; exact Hshape |].
    intros _. cbn [existsb isRunCommand orb]. rewrite existsb_app.
    cbn. apply orb_true_r.
Qed.

(** ** The synthesis stage *)

Lemma synthesizeTurns_run (env : Env) (lines acc : list string) (w : World) :
  let audioSegments := fst (run (handle env) (synthesizeTurns lines acc) w) in
  let w' := snd (run (handle env) (synthesizeTurns lines acc) w) in
  store w' = store w ∧
  ∃ l, trace w' = trace w ++ l ∧
       calls l = map (fun '(text, speaker) => SynthesizeSpeech text speaker)
                     (turns.ofLines lines) ∧
       audioSegments = acc ++ turns.synthesized l ∧
       ((∀ n text speaker,
           isOk (oracle env n (SynthesizeSpeech text speaker)) = false) →
        audioSegments = acc).
Proof.
  revert acc w. induction lines as [| conversation rest IH]; intros acc w.
  - cbn. split; [reflexivity |]. exists []. rewrite !app_nil_r. repeat split.
  - cbn [synthesizeTurns]. unfold turns.ofLines. cbn [List.filter].
    unfold turns.kept at 1.
    destruct (String.eqb (strings.TrimSpace conversation) "") eqn:Eempty;
      cbn [negb].
    + apply IH.
    + run_step.
      destruct (oracle env (length (trace w)) (SynthesizeSpeech _ _))
        as [audio | err] eqn:E; run_step.
      * match goal with
        | |- context [run (handle env) (synthesizeTurns rest ?a) ?w0] =>
          destruct (IH a w0) as (Hst & l & Htr & Hcalls & Haudio & Hnone)
        end.
        split; [exact Hst |]. eexists. split.
        { rewrite Htr. cbn [trace record]. rewrite <- app_assoc. reflexivity. }
        split; [| split].
        { cbn [app]. unfold calls in *. cbn [map callOf]. now rewrite Hcalls. }
        { rewrite Haudio. cbn [app]. unfold turns.synthesized.
          cbn [flat_map turns.audioOf]. rewrite <- app_assoc. reflexivity. }
        intros Hall. specialize (Hall (length (trace w)) (textOf conversation)
                                      (speakerOf conversation)).
        rewrite E in Hall. discriminate.
      * match goal with
        | |- context [run (handle env) (synthesizeTurns rest ?a) ?w0] =>
          destruct (IH a w0) as (Hst & l & Htr & Hcalls & Haudio & Hnone)
        end.
        split; [exact Hst |]. eexists. split.
        { rewrite Htr. cbn [trace record]. rewrite <- app_assoc. reflexivity. }
        split; [| split].
        { cbn [app]. unfold calls in *. cbn [map callOf]. now rewrite Hcalls. }
        { rewrite Haudio. cbn [app]. unfold turns.synthesized.
          cbn [flat_map turns.audioOf]. reflexivity. }
        exact Hnone.
Qed.

Lemma merge_or_upload (cs : list Call) :
  Forall (fun c => isMergeCall c = true) cs →
  Forall (fun c => isMergeCall c || isUploadFile c = true) cs.
Proof.
  intros H. eapply Forall_impl; [exact H |].
  intros c Hc. now rewrite Hc.
Qed.

Section Stages.

Variable json_Marshal : Content → result string.
Variable json_Unmarshal : string → result Content.
Variable s : Server.
Variable env : Env.

Lemma mergeAndUpload_run (date : string) (content : Content)
      (segs : list string) (w : World) :
  let content' := fst (run (handle env) (mergeAndUpload date content segs) w) in
  let w' := snd (run (handle env) (mergeAndUpload date content segs) w) in
  ∃ l, trace w' = trace w ++ l ∧
       Intro content' = Intro content ∧
       Podcast content' = Podcast content ∧
       Blog content' = Blog content ∧
       AudioFiles content' = AudioFiles content ∧
       (content' = content
        ∨ ∃ mergedAudio url,
            content' = setAudioURL content url ∧
            In (mkEntry (UploadFile ("audio/" +:+ date +:+ "-complete.mp3")
                                    mergedAudio "audio/mpeg") (Ok url)) l) ∧
       Forall (fun c => isMergeCall c || isUploadFile c = true) (calls l) ∧
       (segs = [] → l = [] ∧ content' = content ∧ w' = w) ∧
       (∀ k, k ≠ "audio/" +:+ date +:+ "-complete.mp3" →
             store w' !! k = store w !! k).
Proof.
  unfold mergeAndUpload.
  destruct segs as [| seg segs].
  { cbn. exists []. rewrite app_nil_r. repeat split; auto; constructor. }
  change (0 <? length (seg :: segs))%nat with true. cbn [run].
  rewrite run_mbind.
  destruct (mergeAudioBytes_run env (seg :: segs) w) as (Hst & l1 & Htr & Hmc & _).
  apply merge_or_upload in Hmc.
  destruct (run (handle env) (mergeAudioBytes (seg :: segs)) w) as [m w1].
  cbn [fst snd] in *.
  destruct m as [mergedAudio | err]; run_step.
  2: { exists l1. repeat split; try assumption; try discriminate; auto.
       intros k _. now rewrite Hst. }
  assert (Hstore : ∀ k, k ≠ "audio/" +:+ date +:+ "-complete.mp3" →
            (putObject env w1 ("audio/" +:+ date +:+ "-complete.mp3") mergedAudio).2 !! k
            = store w !! k).
  { intros k Hk. unfold putObject. rewrite <- Hst.
    destruct (fault env (length (trace w1))); cbn [snd]; try reflexivity.
    now rewrite lookup_insert_ne. }
  destruct (storage.UploadFile _ _ _ _) as [url | err] eqn:Eu; run_step;
    (eexists; split;
     [ cbn [trace record setStore]; rewrite Htr, <- app_assoc; reflexivity |]);
    do 4 (split; [reflexivity |]).
  - split.
    { right. exists mergedAudio, url. split; [reflexivity |].
      apply in_or_app. right. left. reflexivity. }
    unfold calls. rewrite map_app. cbn [map callOf].
    split; [apply Forall_app; split; [exact Hmc | repeat constructor] |].
    split; [discriminate | exact Hstore].
  - split; [left; reflexivity |].
    unfold calls. rewrite map_app. cbn [map callOf].
    split; [apply Forall_app; split; [exact Hmc | repeat constructor] |].
    split; [discriminate | exact Hstore].
Qed.

Lemma writeBack_run (contentKey : string) (content : Content) (w : World) :
  let w' := snd (run (handle env) (writeBack json_Marshal contentKey content) w) in
  match json_Marshal content with
  | Err _ => w' = w
  | Ok data =>
    ∃ r, trace w' = trace w ++ [mkEntry (UploadFile contentKey data "application/json") r] ∧
         (isOk r = true → store w' !! contentKey = Some data) ∧
         (isOk r = false → store w' = store w)
  end.
Proof.
  unfold writeBack. destruct (json_Marshal content) as [data | err]; [| reflexivity].
  run_step. eexists. split; [reflexivity |].
  cbn [store setStore record]. unfold putObject, storage.UploadFile.
  destruct (fault env (length (trace w))); cbn [fst snd].
  - split; [intros _; apply lookup_insert_eq |].
    destruct (presigned env _); discriminate.
  - split; [discriminate | reflexivity].
  - split; [discriminate | reflexivity].
Qed.


Lemma synthesize_run (date contentKey : string) (content : Content)
      (podcastContent introContent : string) (w : World) :
  let w' := after env (synthesize json_Marshal date contentKey content
                                  podcastContent introContent) w in
  ∃ (content' : Content) (lturns lmerge : list (Entry Call Resp))
    (ri : result string),
    Intro content' = Intro content ∧
    Podcast content' = Podcast content ∧
    Blog content' = Blog content ∧
    AudioFiles content' = AudioFiles content ∧
    (content' = content
     ∨ ∃ mergedAudio url,
         content' = setAudioURL content url ∧
         In (mkEntry (UploadFile ("audio/" +:+ date +:+ "-complete.mp3")
                                 mergedAudio "audio/mpeg") (Ok url)) lmerge) ∧
    calls lturns = map (fun '(text, speaker) => SynthesizeSpeech text speaker)
                       (turns.ofScript podcastContent) ∧
    Forall (fun c => isMergeCall c || isUploadFile c = true) (calls lmerge) ∧
    (turns.synthesized lturns = [] → lmerge = [] ∧ content' = content) ∧
    ((∀ n text speaker,
        isOk (oracle env n (SynthesizeSpeech text speaker)) = false) →
     lmerge = [] ∧ content' = content) ∧
    match json_Marshal content' with
    | Err _ =>
      trace w' = trace w ++ lturns ++ lmerge
                 ++ [mkEntry (SynthesizeSpeech introContent "男") ri]
    | Ok data =>
      ∃ r, trace w' = trace w ++ lturns ++ lmerge
                      ++ [mkEntry (SynthesizeSpeech introContent "男") ri;
                          mkEntry (UploadFile contentKey data "application/json") r] ∧
           (isOk r = true → store w' !! contentKey = Some data)
    end.
Proof.
  unfold after, synthesize. rewrite run_mbind.
  destruct (synthesizeTurns_run env (strings.Split podcastContent LF) [] w)
    as (Hst1 & lturns & Htr1 & Hcalls1 & Haudio & Hnone).
  destruct (run (handle env) (synthesizeTurns (strings.Split podcastContent LF) []) w)
    as [audioSegments w1].
  cbn [fst snd] in *. rewrite run_mbind.
  destruct (mergeAndUpload_run date content audioSegments w1)
    as (lmerge & Htr2 & HI & HP & HB & HA & Hurl & Hns & Hnil & _).
  destruct (run (handle env) (mergeAndUpload date content audioSegments) w1)
    as [content' w2].
  cbn [fst snd] in *. run_step.
  set (ri := oracle env (length (trace w2)) (SynthesizeSpeech introContent "男")).
  exists content', lturns, lmerge, ri.
  repeat (split; [assumption |]).
  split.
  { intros Hs. rewrite Hs in Haudio. destruct (Hnil Haudio) as (? & ? & _). auto. }
  split.
  { intros Hall. destruct (Hnil (Hnone Hall)) as (? & ? & _). auto. }
  pose proof (writeBack_run contentKey content'
                (record (mkEntry (SynthesizeSpeech introContent "男") ri) w2)) as Hwb.
  cbn zeta in Hwb.
  destruct (json_Marshal content') as [data | err].
  - destruct Hwb as (r & Htr3 & Hok & _). exists r. split; [| exact Hok].
    rewrite Htr3. cbn [trace record]. rewrite Htr2, Htr1.
    rewrite <- !app_assoc. reflexivity.
  - rewrite Hwb. cbn [trace record]. rewrite Htr2, Htr1.
    rewrite <- !app_assoc. reflexivity.
Qed.

End Stages.



(** ** Fetching the content of an item *)

Lemma wrapInt_small (z : Z) : minInt ≤ z ≤ maxInt → wrapInt z = z.
Proof.
  unfold wrapInt, minInt, maxInt. intros H.
  rewrite Z.mod_small; lia.
Qed.

Lemma wrapInt_le (z : Z) : 0 ≤ z → wrapInt z ≤ z.
Proof.
  unfold wrapInt, minInt. intros H.
  pose proof (Z.mod_le (z - -9223372036854775808) 18446744073709551616) as Hle.
  lia.
Qed.

Lemma slice_0_length (s : string) (n : nat) :
  String.length (slice s 0 n) = Nat.min n (String.length s).
Proof.
  unfold slice. rewrite Nat.sub_0_r. revert n.
  induction s as [| c s IH]; intros [| n]; cbn; try reflexivity.
  now rewrite IH.
Qed.

Lemma slice_0_prefix (s : string) (n : nat) :
  String.prefix (slice s 0 n) s = true.
Proof.
  unfold slice. rewrite Nat.sub_0_r. revert n.
  induction s as [| c s IH]; intros [| n]; cbn; try reflexivity.
  destruct (ascii_dec c c); [apply IH | congruence].
Qed.

Lemma prefix_refl (s : string) : String.prefix s s = true.
Proof.
  induction s as [| c s IH]; [reflexivity |].
  cbn. destruct (ascii_dec c c); [exact IH | congruence].
Qed.

(** The cut [text[:n]] that follows the test [len(text) > n]: it panics
    exactly when [n] is negative, and otherwise leaves the first [n]
    bytes of a longer text and the whole of a shorter one. *)
Lemma cut_cases (text : string) (n : Z) :
  match (if n <? len text then sliceTo text n else Some text) with
  | None => n < 0
  | Some t =>
    0 ≤ n ∧ String.prefix t text = true ∧ len t = Z.min (len text) n
    ∨ len text ≤ n ∧ t = text
  end.
Proof.
  unfold sliceTo, len.
  destruct (n <? Z.of_nat (String.length text)) eqn:E.
  - apply Z.ltb_lt in E. destruct (n <? 0) eqn:E0; cbn [orb].
    + now apply Z.ltb_lt in E0.
    + apply Z.ltb_ge in E0.
      destruct (Z.of_nat (String.length text) <? n) eqn:E1;
        [apply Z.ltb_lt in E1; lia |].
      left. split; [exact E0 |]. split; [apply slice_0_prefix |].
      rewrite slice_0_length. lia.
  - apply Z.ltb_ge in E. right. split; [exact E | reflexivity].
Qed.

Lemma capped_panics (text : string) (maxTokens : Z) :
  crawler.capped text maxTokens = None ↔ wrapInt (maxTokens * 4) < 0.
Proof.
  unfold crawler.capped.
  pose proof (cut_cases text (wrapInt (maxTokens * 4))) as H.
  destruct (if wrapInt (maxTokens * 4) <? len text then _ else _) as [t |].
  - split; [discriminate |]. intros Hneg. unfold len in H. lia.
  - split; [intros _; exact H | reflexivity].
Qed.

(** Assembling the text panics exactly when a fetched text that is not
    empty meets a negative bound. *)
Lemma storyText_panics (story : models.Story) (article comments : string)
      (maxTokens : Z) :
  crawler.storyText story article comments maxTokens = None
  ↔ wrapInt (maxTokens * 4) < 0 ∧ (article ≠ "" ∨ comments ≠ "").
Proof.
  unfold crawler.storyText. cbn zeta.
  pose proof (capped_panics article maxTokens) as Ha.
  pose proof (capped_panics comments maxTokens) as Hc.
  destruct (String.eqb_spec article "") as [-> | Hna];
    destruct (String.eqb_spec comments "") as [-> | Hnc]; cbn [negb mbind option_bind].
  - split; [discriminate | intros [_ [H | H]]; congruence].
  - destruct (crawler.capped comments maxTokens) as [c |]; cbn [mbind option_bind].
    + split; [discriminate |]. intros [Hneg _]. apply Hc in Hneg. discriminate.
    + split; [| reflexivity]. intros _. split; [now apply Hc | now right].
  - destruct (crawler.capped article maxTokens) as [a |]; cbn [mbind option_bind].
    + split; [discriminate |]. intros [Hneg _]. apply Ha in Hneg. discriminate.
    + split; [| reflexivity]. intros _. split; [now apply Ha | now left].
  - destruct (crawler.capped article maxTokens) as [a |]; cbn [mbind option_bind].
    + destruct (crawler.capped comments maxTokens) as [c |]; cbn [mbind option_bind].
      * split; [discriminate |]. intros [Hneg _]. apply Hc in Hneg. discriminate.
      * split; [| reflexivity]. intros _. split; [now apply Hc | now right].
    + split; [| reflexivity]. intros _. split; [now apply Ha | now left].
Qed.

(** What [GetStoryContent] returns: the first error on [errCh], or the
    text assembled from what the two fetches returned. *)
Lemma GetStoryContent_result (o : Oracle crawler.Call crawler.Resp)
      (story : models.Story) (maxTokens : Z) :
  (∃ err, fst (exec o (crawler.GetStoryContent story maxTokens)) = Some (Err err))
  ∨ ∃ article comments,
      fst (exec o (crawler.GetStoryContent story maxTokens))
      = Ok <$> crawler.storyText story article comments maxTokens.
Proof.
  unfold exec, crawler.GetStoryContent.
  rewrite (run_mbind (oracleHandler o) (crawler.fetchArticle (models.URL story))).
  destruct (run _ (crawler.fetchArticle _) _) as [a tr1]. cbn [fst snd].
  rewrite (run_mbind (oracleHandler o) (crawler.fetchComments (models.ID story))).
  destruct (run _ (crawler.fetchComments _) _) as [c tr2]. cbn [fst snd].
  cbn [run bind mbind mret Prog_bind Prog_ret call oracleHandler fst snd].
  destruct (crawler.sent _ a) as [article errA].
  destruct (crawler.sent _ c) as [comments errC].
  destruct (if o (length tr2) crawler.ErrChOrder then errA ++ errC else errC ++ errA)
    as [| err errs]; cbn [run fst].
  - right. exists article, comments. reflexivity.
  - left. exists err. reflexivity.
Qed.

(** C8 (amended).  [GetStoryContent] absorbs the failures that
    [fetchArticle] and [fetchComments] absorb: a part whose request fails
    in transport or is answered with a status other than 200 contributes
    empty text and no error.  It does return an error to the pipeline, and
    no text, when a request cannot be built, when the body of a 200
    response cannot be read, or when the comment page cannot be parsed.
    It panics only while it cuts a fetched text: exactly when a text that
    is not empty meets a bound [maxTokens * 4] that is negative as an
    [int]; with a budget from 0 to a quarter of the largest [int] it never
    does.  [oa] and [oc] are the fates of the article and of the comment
    request. *)
Theorem GetStoryContent_failures (o : Oracle crawler.Call crawler.Resp)
        (story : models.Story) (maxTokens : Z) :
  let oa := o 0%nat (crawler.HttpGet (models.URL story)) in
  let oc := o 1%nat (crawler.HttpGet (fetches.commentURL story)) in
  let res := fst (exec o (crawler.GetStoryContent story maxTokens)) in
  (crawler.soft oa = true → crawler.soft oc = true →
   res = Ok <$> crawler.storyText story "" "" maxTokens) ∧
  (crawler.soft oa = true →
   ∀ body commentsHtml,
     oc = crawler.Response 200 (Ok body) →
     o 2%nat (crawler.CommentTree body) = crawler.Html commentsHtml →
     res = Ok <$> crawler.storyText story "" commentsHtml maxTokens) ∧
  (crawler.soft oc = true →
   ∀ body,
     oa = crawler.Response 200 (Ok body) →
     res = Ok <$> crawler.storyText story body "" maxTokens) ∧
  (crawler.hard oa = true → ∃ err, res = Some (Err err)) ∧
  (crawler.hard oc = true → ∃ err, res = Some (Err err)) ∧
  (∀ body,
     oc = crawler.Response 200 (Ok body) →
     (∀ commentsHtml, o 2%nat (crawler.CommentTree body) ≠ crawler.Html commentsHtml) →
     ∃ err, res = Some (Err err)) ∧
  (∀ article comments,
     crawler.storyText story article comments maxTokens = None
     ↔ wrapInt (maxTokens * 4) < 0 ∧ (article ≠ "" ∨ comments ≠ "")) ∧
  (res = None → wrapInt (maxTokens * 4) < 0) ∧
  (0 ≤ maxTokens → maxTokens * 4 ≤ maxInt → res ≠ None).
Proof.
  intros oa oc res.
  assert (Hpanic : res = None → wrapInt (maxTokens * 4) < 0).
  { subst res. intros Hnone.
    destruct (GetStoryContent_result o story maxTokens)
      as [(err & Herr) | (article & comments & Htext)]; [congruence |].
    rewrite Htext in Hnone.
    destruct (crawler.storyText story article comments maxTokens) eqn:E;
      [discriminate |].
    now apply storyText_panics in E. }
  split; [| split; [| split; [| split; [| split; [| split; [| split; [| split]]]]]]].
  7: { intros article comments. apply storyText_panics. }
  7: { exact Hpanic. }
  7: { intros H0 Hmax Hnone. apply Hpanic in Hnone.
       rewrite wrapInt_small in Hnone by (unfold minInt; lia). lia. }
  all: clear Hpanic; subst res; unfold exec, crawler.GetStoryContent;
    unfold crawler.fetchArticle, crawler.fetchComments;
    fold (fetches.commentURL story);
    assert (E200 : (200 =? crawler.StatusOK) = true) by reflexivity;
    cbn [run bind mbind mret Prog_bind Prog_ret call oracleHandler fst snd length app];
    fold oa; clearbody oa.
  all: destruct oa as [ea | ea | codea [ba | ea]];
    [ | | destruct (codea =? crawler.StatusOK) eqn:Ea .. ];
    cbn [run bind mbind mret Prog_bind Prog_ret call oracleHandler fst snd
         length app negb];
    fold oc; clearbody oc.
  all: destruct oc as [ec | ec | codec [bc | ec]];
    [ | | destruct (codec =? crawler.StatusOK) eqn:Ec .. ];
    cbn [run bind mbind mret Prog_bind Prog_ret call oracleHandler fst snd
         length app negb].
  all: try (destruct (o 2%nat (crawler.CommentTree bc)) as [ed | ed | html] eqn:Ed;
    cbn [run bind mbind mret Prog_bind Prog_ret call oracleHandler fst snd
         length app negb]).
  all: destruct (o _ crawler.ErrChOrder);
    cbn [run bind mbind mret Prog_bind Prog_ret call oracleHandler fst snd
         length app negb crawler.sent crawler.soft crawler.hard isOk andb].
  all: rewrite ?Ea, ?Ec; cbn [negb andb].
  all: intros; simplify_eq; try reflexivity; try congruence; eauto.
  all: exfalso; match goal with H : ∀ _, _ ≠ _ |- _ => eapply H; eassumption end.
Qed.

(** C8, counterexample to the claim as stated: it is not the case that
    [GetStoryContent] always returns text; when the body of the article
    cannot be read it returns an error. *)
Lemma GetStoryContent_returns_error :
  ¬ (∀ (o : Oracle crawler.Call crawler.Resp) (story : models.Story) (maxTokens : Z),
       ∃ text, fst (exec o (crawler.GetStoryContent story maxTokens)) = Some (Ok text)).
Proof.
  intros H. destruct (H fetches.brokenBody fetches.story 4096) as [text Htext].
  vm_compute in Htext. discriminate.
Qed.

(** The cases on examples: an unreachable article is absorbed, an
    unreadable body is returned as an error, and a negative budget makes
    the cut of the fetched comments panic. *)
Lemma GetStoryContent_witness :
  crawler.soft (fetches.unreachable 0%nat (crawler.HttpGet (models.URL fetches.story)))
  = true ∧
  fst (exec fetches.unreachable (crawler.GetStoryContent fetches.story 4096))
  = Ok <$> crawler.storyText fetches.story "" "<tr></tr>" 4096 ∧
  crawler.hard (fetches.brokenBody 0%nat (crawler.HttpGet (models.URL fetches.story)))
  = true ∧
  (∃ err, fst (exec fetches.brokenBody (crawler.GetStoryContent fetches.story 4096))
          = Some (Err err)) ∧
  fst (exec fetches.unreachable (crawler.GetStoryContent fetches.story 4096)) ≠ None ∧
  fst (exec fetches.unreachable (crawler.GetStoryContent fetches.story (-1))) = None.
Proof.
  assert (H1 : crawler.soft (fetches.unreachable 0%nat
                               (crawler.HttpGet (models.URL fetches.story))) = true)
    by reflexivity.
  assert (H2 : crawler.hard (fetches.brokenBody 0%nat
                               (crawler.HttpGet (models.URL fetches.story))) = true)
    by reflexivity.
  pose proof (GetStoryContent_failures fetches.unreachable fetches.story 4096)
    as (_ & Hcomments & _ & _ & _ & _ & _ & _ & Hsafe).
  pose proof (GetStoryContent_failures fetches.brokenBody fetches.story 4096)
    as (_ & _ & _ & Hhard & _).
  pose proof (GetStoryContent_failures fetches.unreachable fetches.story (-1))
    as (_ & Hneg & _ & _ & _ & _ & Hpanics & _).
  split; [exact H1 |]. split; [| split; [exact H2 |]].
  - exact (Hcomments H1 "<html></html>" "<tr></tr>" eq_refl eq_refl).
  - split; [exact (Hhard H2) |]. split.
    + apply Hsafe; [lia | unfold maxInt; lia].
    + rewrite (Hneg H1 "<html></html>" "<tr></tr>" eq_refl eq_refl).
      assert (Hnone : crawler.storyText fetches.story "" "<tr></tr>" (-1) = None).
      { apply Hpanics. split; [vm_compute; reflexivity | right; discriminate]. }
      now rewrite Hnone.
Defined.

(** ** Splitting the script into turns *)

Lemma requested_turns (l : list (string * string)) :
  turns.requested (map (fun '(text, speaker) => SynthesizeSpeech text speaker) l) = l.
Proof.
  induction l as [| [text speaker] l IH]; [reflexivity |].
  unfold turns.requested in *. cbn [map flat_map app]. f_equal. exact IH.
Qed.

(** Whatever the synthesizer answers, the synthesis loop requests exactly
    the turns of the kept lines, in order. *)
Lemma synthesizeTurns_requests (env : Env) (lines acc : list string) (w : World) :
  turns.requested
    (calls (added w (snd (run (handle env) (synthesizeTurns lines acc) w))))
  = turns.ofLines lines.
Proof.
  destruct (synthesizeTurns_run env lines acc w) as (_ & l & Htr & Hcalls & _).
  rewrite (added_app _ _ _ Htr), Hcalls. apply requested_turns.
Qed.

Lemma sliceFrom_0 (s : string) : sliceFrom s 0 = s.
Proof.
  unfold sliceFrom. rewrite Nat.sub_0_r.
  induction s as [| c s IH]; [reflexivity |].
  cbn [String.length substring]. now rewrite IH.
Qed.

Lemma sliceFrom_S (c : ascii) (s : string) (k : nat) :
  sliceFrom (String c s) (S k) = sliceFrom s k.
Proof. reflexivity. Qed.

(** A found index of the rune scan is the byte offset of a rune that
    satisfies the test. *)
Lemma rangeIndex_found (f : Z → bool) (s : string) :
  ∀ (skip : nat) (i : Z),
    strings.rangeIndex f skip i s ≠ -1 → 0 ≤ i →
    ∃ k : nat,
      strings.rangeIndex f skip i s = i + Z.of_nat k ∧
      (k < String.length s)%nat ∧
      f (fst (utf8.DecodeRuneInString (sliceFrom s k))) = true.
Proof.
  induction s as [| c s IH]; intros skip i Hfound Hi.
  - cbn in Hfound. congruence.
  - cbn [strings.rangeIndex] in *. destruct skip as [| skip].
    + destruct (utf8.DecodeRuneInString (String c s)) as [r w] eqn:Ed.
      destruct (f r) eqn:Ef.
      * exists 0%nat. rewrite sliceFrom_0, Ed. cbn [fst String.length].
        repeat split; [lia | lia | exact Ef].
      * destruct (IH (w - 1)%nat (i + 1) Hfound ltac:(lia)) as (k & Hk & Hlt & Hf).
        exists (S k). rewrite sliceFrom_S. cbn [String.length].
        repeat split; [rewrite Hk; lia | lia | exact Hf].
    + destruct (IH skip (i + 1) Hfound ltac:(lia)) as (k & Hk & Hlt & Hf).
      exists (S k). rewrite sliceFrom_S. cbn [String.length].
      repeat split; [rewrite Hk; lia | lia | exact Hf].
Qed.

(** The runes of the set searched by [processHackerNews]: the ASCII colon
    and the full-width colon. *)
Lemma colon_runes (r : Z) :
  strings.containsRune ":：" r = true → r = 0x3A ∨ r = 0xFF1A.
Proof.
  unfold strings.containsRune.
  change (strings.rangeIndex (Z.eqb r) 0 0 ":：")
    with (if r =? 0x3A then 0 else if r =? 0xFF1A then 1 else -1).
  destruct (r =? 0x3A) eqn:E1; [apply Z.eqb_eq in E1; auto |].
  destruct (r =? 0xFF1A) eqn:E2; [apply Z.eqb_eq in E2; auto |].
  discriminate.
Qed.

(** The text of any line: without a colon the line itself; with one, what
    follows the byte offset of the colon plus one, whichever of the two
    colons was found and however many bytes it takes. *)
Lemma textOf_strips_one_byte (conversation : string) :
  let idx := strings.IndexAny conversation ":：" in
  (idx = -1 → textOf conversation = conversation) ∧
  (idx ≠ -1 →
   ∃ k : nat,
     idx = Z.of_nat k ∧ (k < String.length conversation)%nat ∧
     (let r := fst (utf8.DecodeRuneInString (sliceFrom conversation k)) in
      r = 0x3A ∨ r = 0xFF1A) ∧
     textOf conversation = strings.TrimSpace (sliceFrom conversation (S k))).
Proof.
  intros idx. unfold textOf. fold idx. split.
  - intros ->. reflexivity.
  - intros Hidx. subst idx. unfold strings.IndexAny in *.
    change (String.eqb ":：" "") with false in *. cbn iota in *.
    destruct (rangeIndex_found (strings.containsRune ":：") conversation 0 0 Hidx
                ltac:(lia)) as (k & Hk & Hlt & Hf).
    exists k. rewrite Hk. split; [lia |]. split; [exact Hlt |].
    split; [apply colon_runes, Hf |].
    replace (0 + Z.of_nat k =? -1) with false by (symmetry; apply Z.eqb_neq; lia).
    cbn [negb]. f_equal. f_equal. lia.
Qed.

(** An ASCII colon is removed whole, a line without colon is handed over
    as it is, and behind a male label the full-width colon leaves the same
    two bytes. *)
Example ascii_colon_and_no_colon :
  textOf "注: 大家好 " = "大家好" ∧ speakerOf "注: 大家好 " = "女" ∧
  textOf " 没有冒号 " = " 没有冒号 " ∧ speakerOf " 没有冒号 " = "女" ∧
  textOf "男：你好" = scripts.colonTail +:+ "你好" ∧ speakerOf "男：你好" = "男".
Proof. repeat split. Qed.

(** C2, the code at the script of the specification.  The empty line is
    dropped and the speakers are male then female, but the text of the
    second turn is not "world": [conversation[idx+1:]] skips one byte of
    the three-byte full-width colon, so the text keeps the bytes BC 9A in
    front. *)
Theorem twoTurns_split (env : Env) (w : World) :
  turns.requested
    (calls (added w (snd (run (handle env)
                              (synthesizeTurns (strings.Split scripts.twoTurns LF) [])
                              w))))
  = [("hello", "男"); (scripts.colonTail +:+ "world", "女")]
  ∧ scripts.colonTail +:+ "world" ≠ "world".
Proof.
  split; [| discriminate].
  rewrite synthesizeTurns_requests. reflexivity.
Qed.

(** C10, the code at a line that does not begin with a male label and
    contains a full-width colon.  The speaker is the default female one,
    but what follows the colon is handed over with the bytes BC 9A in
    front; skipping the whole colon would give the text behind it. *)
Theorem hostLine_text :
  turns.ofLines [scripts.hostLine]
  = [(scripts.colonTail +:+ "欢迎收听", "女")]
  ∧ strings.HasPrefix scripts.hostLine "男:" = false
  ∧ strings.HasPrefix scripts.hostLine "男：" = false
  ∧ sliceFrom scripts.hostLine
              (Z.to_nat (strings.IndexAny scripts.hostLine ":："
                         + len "：")) = "欢迎收听"
  ∧ scripts.colonTail +:+ "欢迎收听" ≠ "欢迎收听".
Proof. repeat split; discriminate. Qed.

(** ** The generation stage and the whole run *)

Section Generation.

Variable json_Marshal : Content → result string.
Variable json_Unmarshal : string → result Content.
Variable s : Server.
Variable env : Env.

Lemma summarize_run (stories : list models.Story) (acc : list string) (w : World) :
  let storyTexts := fst (run (handle env) (summarize s stories acc) w) in
  let w' := snd (run (handle env) (summarize s stories acc) w) in
  store w' = store w ∧
  ∃ l ts, trace w' = trace w ++ l ∧
          shape.itemsRun (config_OpenAI_MaxTokens s) stories l ts ∧
          storyTexts = acc ++ ts.
Proof.
  revert acc w. induction stories as [| story rest IH]; intros acc w.
  - cbn. split; [reflexivity |]. exists [], []. rewrite !app_nil_r.
    repeat split. constructor.
  - cbn [summarize]. run_step.
    destruct (oracle env (length (trace w)) (GetStoryContent _ _))
      as [storyContent | err] eqn:E1; run_step.
    2: { match goal with
         | |- context [run (handle env) (summarize s rest ?a) ?w0] =>
           destruct (IH a w0) as (Hst & l & ts & Htr & Hitems & Htexts)
         end.
         split; [exact Hst |]. eexists (_ :: l), ts. split.
         { rewrite Htr. cbn [trace record]. rewrite <- app_assoc. reflexivity. }
         split; [| exact Htexts].
         apply (shape.itemsNext _ _ _ [_] l [] ts); [constructor | exact Hitems]. }
    destruct (oracle env _ (GenerateStoryText _)) as [text | err] eqn:E2; run_step.
    2: { match goal with
         | |- context [run (handle env) (summarize s rest ?a) ?w0] =>
           destruct (IH a w0) as (Hst & l & ts & Htr & Hitems & Htexts)
         end.
         split; [exact Hst |]. eexists (_ :: _ :: l), ts. split.
         { rewrite Htr. cbn [trace record]. rewrite <- !app_assoc. reflexivity. }
         split; [| exact Htexts].
         apply (shape.itemsNext _ _ _ [_; _] l [] ts); [constructor | exact Hitems]. }
    destruct (oracle env _ (Sleep _)).
    match goal with
    | |- context [run (handle env) (summarize s rest ?a) ?w0] =>
      destruct (IH a w0) as (Hst & l & ts & Htr & Hitems & Htexts)
    end.
    split; [exact Hst |]. eexists (_ :: _ :: _ :: l), (text :: ts). split.
    { rewrite Htr. cbn [trace record]. rewrite <- !app_assoc. reflexivity. }
    split.
    + apply (shape.itemsNext _ _ _ [_; _; _] l [text] ts);
        [constructor | exact Hitems].
    + rewrite Htexts, <- app_assoc. reflexivity.
Qed.


Lemma upload_ok_store (w : World) (objectName data contentType url : string) :
  storage.UploadFile (bucketName env) objectName
    (fst (putObject env w objectName data)) (presigned env (length (trace w)))
  = Ok url →
  snd (putObject env w objectName data) = <[objectName := data]> (store w).
Proof.
  unfold putObject, storage.UploadFile.
  destruct (fault env (length (trace w))); cbn [fst snd];
    [reflexivity | discriminate | discriminate].
Qed.

Lemma upload_err_store (w : World) (objectName data contentType : string) (err : error) :
  storage.UploadFile (bucketName env) objectName
    (fst (putObject env w objectName data)) (presigned env (length (trace w)))
  = Err err →
  snd (putObject env w objectName data) = store w.
Proof.
  unfold putObject, storage.UploadFile.
  destruct (fault env (length (trace w))); cbn [fst snd];
    [destruct (presigned env _); discriminate | reflexivity | reflexivity].
Qed.

Lemma generate_run (date : string) (maxItems : Z) (contentKey : string) (w : World) :
  let r := fst (run (handle env) (generate json_Marshal s date maxItems contentKey) w) in
  let w' := snd (run (handle env) (generate json_Marshal s date maxItems contentKey) w) in
  ∃ rs lsum ltail,
    trace w' = trace w ++ [mkEntry (GetTopStories date maxItems) rs] ++ lsum ++ ltail ∧
    match rs with
    | Err _ => lsum = [] ∧ ltail = [] ∧ r = None ∧ store w' = store w
    | Ok stories =>
      ∃ ts,
        shape.itemsRun (config_OpenAI_MaxTokens s) stories lsum ts ∧
        match ts with
        | [] => ltail = [] ∧ r = None ∧ store w' = store w
        | _ :: _ =>
          shape.textsRun json_Marshal ts contentKey ltail r ∧
          match r with
          | None => store w' = store w
          | Some (content, _, _) =>
            ∃ contentData,
              json_Marshal content = Ok contentData ∧
              store w' = <[contentKey := contentData]> (store w)
          end
        end
    end.
Proof.
  unfold generate. run_step.
  destruct (oracle env (length (trace w)) (GetTopStories date maxItems))
    as [stories | err] eqn:E0; run_step.
  2: { exists (Err err), [], []. split; [reflexivity |]. repeat split. }
  rewrite run_mbind.
  match goal with
  | |- context [run (handle env) (summarize s stories []) ?w0] =>
    destruct (summarize_run stories [] w0) as (Hst & lsum & ts & Htr & Hitems & Htexts);
    destruct (run (handle env) (summarize s stories []) w0) as [storyTexts w1]
  end.
  cbn [fst snd app] in *. subst storyTexts.
  exists (Ok stories), lsum.
  destruct ts as [| t ts].
  { cbn [length Nat.eqb]. run_step. exists []. split.
    { rewrite Htr. cbn [trace record]. rewrite <- !app_assoc, app_nil_r. reflexivity. }
    exists []. split; [exact Hitems |]. repeat split. exact Hst. }
  cbn [length Nat.eqb]. run_step.
  assert (Hpre : ∀ ltail, trace w1 ++ ltail
            = trace w ++ [mkEntry (GetTopStories date maxItems) (Ok stories)]
                      ++ lsum ++ ltail).
  { intros ltail. rewrite Htr. cbn [trace record]. rewrite <- !app_assoc. reflexivity. }
  destruct (oracle env _ (GeneratePodcastContent _)) as [podcastContent | err] eqn:E1;
    run_step.
  2: { eexists. split; [apply Hpre |]. exists (t :: ts). split; [exact Hitems |].
       split; [constructor | exact Hst]. }
  destruct (oracle env _ (GenerateBlogContent _)) as [blogContent | err] eqn:E2;
    run_step.
  2: { eexists. split; [cbn [trace record]; rewrite <- !app_assoc; apply Hpre |].
       exists (t :: ts). split; [exact Hitems |].
       split; [constructor | exact Hst]. }
  destruct (oracle env _ (GenerateIntroContent _)) as [introContent | err] eqn:E3;
    run_step.
  2: { eexists. split; [cbn [trace record]; rewrite <- !app_assoc; apply Hpre |].
       exists (t :: ts). split; [exact Hitems |].
       split; [constructor | exact Hst]. }
  fold (shape.assembled introContent podcastContent blogContent).
  destruct (json_Marshal (shape.assembled introContent podcastContent blogContent))
    as [contentData | err] eqn:Em; run_step.
  2: { eexists. split; [cbn [trace record]; rewrite <- !app_assoc; apply Hpre |].
       exists (t :: ts). split; [exact Hitems |].
       split; [econstructor; exact Em | exact Hst]. }
  match goal with
  | |- context [storage.UploadFile ?b ?k (fst (putObject env ?w0 ?k ?d)) ?p] =>
    pose proof (upload_ok_store w0 k d "application/json") as Hok;
    pose proof (upload_err_store w0 k d "application/json") as Herr;
    destruct (storage.UploadFile b k (fst (putObject env w0 k d)) p)
      as [url | err] eqn:Eu
  end; run_step.
  - eexists. split.
    { cbn [trace record setStore]. rewrite <- !app_assoc. apply Hpre. }
    exists (t :: ts). split; [exact Hitems |].
    split; [econstructor; exact Em |].
    exists contentData. split; [exact Em |].
    cbn [store record setStore]. rewrite (Hok url eq_refl).
    cbn [store record]. now rewrite Hst.
  - eexists. split.
    { cbn [trace record setStore]. rewrite <- !app_assoc. apply Hpre. }
    exists (t :: ts). split; [exact Hitems |].
    split; [econstructor; exact Em |].
    cbn [store record setStore]. rewrite (Herr err eq_refl).
    cbn [store record]. exact Hst.
Qed.


Lemma load_run (forceAudio : bool) (contentKey : string) (w : World) :
  let r := fst (run (handle env) (load json_Unmarshal forceAudio contentKey) w) in
  let w' := snd (run (handle env) (load json_Unmarshal forceAudio contentKey) w) in
  let rd := storage.DownloadFile (getObject env w contentKey) in
  trace w' = trace w ++ [mkEntry (DownloadFile contentKey) rd] ∧
  store w' = store w ∧
  match r with
  | None =>
    ∀ contentData content,
      rd = Ok contentData → json_Unmarshal contentData = Ok content →
      AudioURL content ≠ "" ∧ forceAudio = false
  | Some (content, podcastContent, introContent) =>
    ∃ contentData,
      rd = Ok contentData ∧ json_Unmarshal contentData = Ok content ∧
      podcastContent = Podcast content ∧ introContent = Intro content ∧
      (AudioURL content = "" ∨ forceAudio = true)
  end.
Proof.
  unfold load. run_step.
  destruct (storage.DownloadFile (getObject env w contentKey))
    as [contentData | err] eqn:Ed; run_step.
  2: { do 2 (split; [reflexivity |]). intros ? ? [=]. }
  destruct (json_Unmarshal contentData) as [content | err] eqn:Eu.
  2: { run_step. do 2 (split; [reflexivity |]).
       intros ? ? [= <-] H. congruence. }
  destruct (String.eqb (AudioURL content) "") eqn:Ea; cbn [negb andb].
  - apply String.eqb_eq in Ea. run_step. do 2 (split; [reflexivity |]).
    exists contentData. repeat split; auto.
  - apply String.eqb_neq in Ea. destruct forceAudio; cbn [negb]; run_step.
    + do 2 (split; [reflexivity |]). exists contentData. repeat split; auto.
    + do 2 (split; [reflexivity |]). intros ? ? [= <-] H.
      split; [congruence | reflexivity].
Qed.

Lemma processBody_run (date : string) (maxItems : Z) (force forceAudio : bool)
      (w : World) :
  let contentKey := contentKeyOf s date in
  let re := storage.ObjectExists (getObject env w contentKey) in
  let w0 := record (mkEntry (ObjectExists contentKey) re) w in
  let stage := run (handle env)
                   (contentFor json_Marshal json_Unmarshal s date maxItems
                               force forceAudio (fst re)) w0 in
  after env (processBody json_Marshal json_Unmarshal s date maxItems force forceAudio) w
  = match fst stage with
    | None => snd stage
    | Some (content, podcastContent, introContent) =>
      after env (synthesize json_Marshal date contentKey content
                            podcastContent introContent) (snd stage)
    end.
Proof.
  unfold after, processBody. run_step.
  destruct (storage.ObjectExists (getObject env w (contentKeyOf s date)))
    as [contentExists err].
  cbn [fst snd]. rewrite run_mbind.
  destruct (run (handle env)
              (contentFor json_Marshal json_Unmarshal s date maxItems
                          force forceAudio contentExists) _)
    as [[[[content podcastContent] introContent] |] w1]; reflexivity.
Qed.

Lemma processHackerNews_run (date : string) (maxItems : Z) (force forceAudio : bool)
      (w : World) :
  let w1 := after env (processBody json_Marshal json_Unmarshal s date maxItems
                                   force forceAudio) (setIsProcessing true w) in
  after env (processHackerNews json_Marshal json_Unmarshal s date maxItems
                               force forceAudio) w
  = setLastProcessed (oracle env (length (trace w1)) Now) (setIsProcessing false w1).
Proof.
  unfold after, processHackerNews. run_step. rewrite run_mbind. run_step.
  reflexivity.
Qed.

End Generation.

Lemma len_pos (data : string) : data ≠ "" → (0 <? len data) = true.
Proof.
  intros H. destruct data as [| c data]; [congruence |].
  apply Z.ltb_lt. unfold len. cbn [String.length]. lia.
Qed.

(** ** A complete artifact is left alone *)

(** C1 (amended).  When the store holds, under the content key of the date, a
    non-empty object that parses to a record with a non-empty audio URL,
    and the existence check reaches the store, a run with [force = false]
    and [forceAudio = false] makes two calls, the existence check and the
    download, and nothing else: no item is fetched, no text generated, no
    speech synthesized, nothing uploaded; the store is unchanged. *)
Theorem complete_artifact_is_left_alone
        (json_Marshal : Content → result string)
        (json_Unmarshal : string → result Content)
        (s : Server) (env : Env) (date : string) (maxItems : Z) (w : World)
        (contentData : string) (content : Content) :
  store w !! contentKeyOf s date = Some contentData →
  contentData ≠ "" →
  json_Unmarshal contentData = Ok content →
  AudioURL content ≠ "" →
  fault env (length (trace w)) = NoFault →
  let w' := after env (processHackerNews json_Marshal json_Unmarshal s date maxItems
                                         false false) w in
  store w' = store w ∧
  calls (added w w') = [ObjectExists (contentKeyOf s date);
                        DownloadFile (contentKeyOf s date)] ∧
  isProcessing w' = false.
Proof.
  intros Hstore Hne Hparse Haudio Hfault w'. subst w'.
  rewrite processHackerNews_run, processBody_run.
  set (w0 := setIsProcessing true w).
  assert (Hexists : storage.ObjectExists (getObject env w0 (contentKeyOf s date))
                    = (true, None)).
  { unfold getObject. cbn [trace setIsProcessing w0 store]. rewrite Hfault, Hstore.
    cbn [storage.ObjectExists]. now rewrite (len_pos _ Hne). }
  rewrite Hexists. cbn [fst snd]. unfold contentFor. cbn [negb orb].
  match goal with
  | |- context [run (handle env) (load _ _ _) ?w1] =>
    pose proof (load_run json_Unmarshal env false (contentKeyOf s date) w1) as Hload;
    destruct (run (handle env) (load json_Unmarshal false (contentKeyOf s date)) w1)
      as [r w2]
  end.
  cbn [fst snd] in *. cbn zeta in Hload.
  destruct Hload as (Htr & Hst & Hr).
  assert (Hdown : ∀ data,
            storage.DownloadFile
              (getObject env (record (mkEntry (ObjectExists (contentKeyOf s date))
                                              (true, None)) w0)
                         (contentKeyOf s date)) = Ok data →
            data = contentData).
  { intros data. unfold getObject. cbn [store record setIsProcessing w0].
    rewrite Hstore.
    match goal with
    | |- context [fault env ?n] => destruct (fault env n)
    end; cbn [storage.DownloadFile]; try discriminate.
    intros H. injection H as H. now symmetry. }
  assert (r = None) as ->.
  { destruct r as [[[c p] i] |]; [| reflexivity].
    destruct Hr as (data & Hd & Hu & _ & _ & [Ha | Hf]); [| discriminate].
    apply Hdown in Hd. subst data. congruence. }
  cbn [store trace isProcessing setLastProcessed setIsProcessing].
  split; [exact Hst |]. split; [| reflexivity].
  unfold added. cbn [trace setLastProcessed setIsProcessing].
  rewrite Htr. subst w0. cbn [trace record setIsProcessing].
  rewrite <- app_assoc, drop_app_length. reflexivity.
Qed.

Lemma complete_artifact_witness :
  store artifact.world !! contentKeyOf examples.server artifact.date
  = Some artifact.stored ∧
  artifact.stored ≠ "" ∧
  artifact.Unmarshal artifact.stored = Ok artifact.complete ∧
  AudioURL artifact.complete ≠ "" ∧
  fault examples.env (length (trace artifact.world)) = NoFault ∧
  let w' := after examples.env
                  (processHackerNews artifact.Marshal artifact.Unmarshal
                                     examples.server artifact.date 10 false false)
                  artifact.world in
  store w' = store artifact.world ∧
  calls (added artifact.world w')
  = [ObjectExists (contentKeyOf examples.server artifact.date);
     DownloadFile (contentKeyOf examples.server artifact.date)] ∧
  isProcessing w' = false.
Proof.
  assert (H1 : store artifact.world !! contentKeyOf examples.server artifact.date
               = Some artifact.stored) by (apply lookup_singleton_eq).
  assert (H2 : artifact.stored ≠ "") by discriminate.
  assert (H3 : artifact.Unmarshal artifact.stored = Ok artifact.complete)
    by reflexivity.
  assert (H4 : AudioURL artifact.complete ≠ "") by discriminate.
  assert (H5 : fault examples.env (length (trace artifact.world)) = NoFault)
    by reflexivity.
  repeat (split; [assumption |]).
  exact (complete_artifact_is_left_alone artifact.Marshal artifact.Unmarshal
           examples.server examples.env artifact.date 10 artifact.world
           artifact.stored artifact.complete H1 H2 H3 H4 H5).
Defined.

(** C1, counterexample to the claim as stated: the store holds a complete
    record of the date, but the existence check of the run does not reach
    the store.  [ObjectExists] then reports the record as absent, and the
    run, with [force] and [forceAudio] false, lists and fetches the
    items, generates the texts, synthesizes the speech and overwrites the
    record. *)
Lemma complete_artifact_overwritten :
  let w := artifact.world in
  let w' := after outage.env
                  (processHackerNews artifact.Marshal artifact.Unmarshal
                                     examples.server artifact.date 10 false false) w in
  store w !! contentKeyOf examples.server artifact.date = Some artifact.stored ∧
  artifact.Unmarshal artifact.stored = Ok artifact.complete ∧
  AudioURL artifact.complete ≠ "" ∧
  existsb stages.isFetchOrGenerate (calls (added w w')) = true ∧
  existsb isSynthesizeSpeech (calls (added w w')) = true ∧
  store w' !! contentKeyOf examples.server artifact.date
  = Some "intro|podcast|blog|https://minio/presigned" ∧
  store w' ≠ store w.
Proof.
  cbn zeta.
  split; [apply lookup_singleton_eq |]. split; [reflexivity |].
  split; [discriminate |].
  split; [vm_compute; reflexivity |]. split; [vm_compute; reflexivity |].
  assert (Hnew : store (after outage.env
                          (processHackerNews artifact.Marshal artifact.Unmarshal
                             examples.server artifact.date 10 false false)
                          artifact.world)
                 !! contentKeyOf examples.server artifact.date
                 = Some "intro|podcast|blog|https://minio/presigned")
    by (vm_compute; reflexivity).
  split; [exact Hnew |].
  intros Heq. rewrite Heq in Hnew.
  assert (Hold : store artifact.world !! contentKeyOf examples.server artifact.date
                 = Some artifact.stored) by apply lookup_singleton_eq.
  rewrite Hold in Hnew. discriminate Hnew.
Qed.

(** ** The shape of a whole run *)

Lemma calls_app (l1 l2 : list (Entry Call Resp)) :
  calls (l1 ++ l2) = calls l1 ++ calls l2.
Proof. apply map_app. Qed.

Lemma itemRun_facts (maxTokens : Z) (story : models.Story)
      (l : list (Entry Call Resp)) (t : list string) :
  shape.itemRun maxTokens story l t →
  shape.fetched (calls l) = [story] ∧
  shape.summaries l = t ∧
  shape.listed l = [] ∧
  shape.inputs (calls l) = [] ∧
  existsb shape.generationFailed l = false ∧
  existsb shape.isLaterGeneration (calls l) = false ∧
  existsb shape.isSynthesisCall (calls l) = false.
Proof. destruct 1; repeat split. Qed.

Lemma itemsRun_facts (maxTokens : Z) (stories : list models.Story)
      (l : list (Entry Call Resp)) (ts : list string) :
  shape.itemsRun maxTokens stories l ts →
  shape.fetched (calls l) = stories ∧
  shape.summaries l = ts ∧
  shape.listed l = [] ∧
  shape.inputs (calls l) = [] ∧
  existsb shape.generationFailed l = false ∧
  existsb shape.isLaterGeneration (calls l) = false ∧
  existsb shape.isSynthesisCall (calls l) = false.
Proof.
  induction 1 as [| story stories l ls t ts Hitem _ IH]; [repeat split |].
  destruct (itemRun_facts _ _ _ _ Hitem) as (F1 & F2 & F3 & F4 & F5 & F6 & F7).
  destruct IH as (G1 & G2 & G3 & G4 & G5 & G6 & G7).
  unfold shape.fetched, shape.summaries, shape.listed, shape.inputs in *.
  rewrite calls_app, !flat_map_app, !existsb_app.
  rewrite F1, F2, F3, F4, F5, F6, F7, G1, G2, G3, G4, G5, G6, G7.
  repeat split.
Qed.

Lemma synthesis_facts (l : list (Entry Call Resp)) :
  Forall (fun c => shape.isSynthesisCall c = true) (calls l) →
  shape.fetched (calls l) = [] ∧
  shape.summaries l = [] ∧
  shape.listed l = [] ∧
  shape.inputs (calls l) = [] ∧
  existsb shape.generationFailed l = false.
Proof.
  induction l as [| [c r] l IH]; [repeat split |].
  intros H. cbn [calls map callOf] in H. apply Forall_cons in H as [Hc Hl].
  destruct (IH Hl) as (G1 & G2 & G3 & G4 & G5).
  unfold shape.fetched, shape.summaries, shape.listed, shape.inputs in *.
  cbn [calls map callOf flat_map existsb].
  fold (calls l). rewrite G1, G2, G3, G4, G5.
  destruct c; try discriminate Hc; repeat split.
Qed.

Lemma textsRun_facts (json_Marshal : Content → result string)
      (ts : list string) (contentKey : string)
      (l : list (Entry Call Resp)) (r : option (Content * string * string)) :
  shape.textsRun json_Marshal ts contentKey l r →
  shape.fetched (calls l) = [] ∧
  shape.summaries l = [] ∧
  shape.listed l = [] ∧
  Forall (fun summaries => summaries = ts) (shape.inputs (calls l)) ∧
  existsb isSynthesizeSpeech (calls l) = false ∧
  (existsb shape.generationFailed l = true →
   r = None ∧
   ∃ l0 e, l = l0 ++ [e] ∧ shape.generationFailed e = true ∧
           existsb isUploadFile (calls l0) = false).
Proof.
  destruct 1; (do 3 (split; [reflexivity |]));
    (split; [repeat constructor |]); (split; [reflexivity |]);
    cbn; try discriminate; intros _; (split; [reflexivity |]).
  - exists [], (mkEntry (GeneratePodcastContent ts) (Err err)). repeat split.
  - exists [mkEntry (GeneratePodcastContent ts) (Ok podcastContent)],
           (mkEntry (GenerateBlogContent ts) (Err err)). repeat split.
  - exists [mkEntry (GeneratePodcastContent ts) (Ok podcastContent);
            mkEntry (GenerateBlogContent ts) (Ok blogContent)],
           (mkEntry (GenerateIntroContent podcastContent) (Err err)). repeat split.
Qed.

Lemma merge_or_upload_synthesis (cs : list Call) :
  Forall (fun c => isMergeCall c || isUploadFile c = true) cs →
  Forall (fun c => shape.isSynthesisCall c = true) cs.
Proof.
  intros H. eapply Forall_impl; [exact H |].
  intros c. destruct c; cbn; congruence.
Qed.

Lemma turn_calls_synthesis (l : list (string * string)) :
  Forall (fun c => shape.isSynthesisCall c = true)
         (map (fun '(text, speaker) => SynthesizeSpeech text speaker) l).
Proof. apply Forall_map, Forall_forall. intros [text speaker] _. reflexivity. Qed.

Lemma synthesize_trace (json_Marshal : Content → result string) (env : Env)
      (date contentKey : string) (content : Content)
      (podcastContent introContent : string) (w : World) :
  let w' := after env (synthesize json_Marshal date contentKey content
                                  podcastContent introContent) w in
  ∃ l, trace w' = trace w ++ l ∧
       Forall (fun c => shape.isSynthesisCall c = true) (calls l) ∧
       existsb isSynthesizeSpeech (calls l) = true.
Proof.
  destruct (synthesize_run json_Marshal env date contentKey content
              podcastContent introContent w)
    as (content' & lturns & lmerge & ri & _ & _ & _ & _ & _ & Hturns & Hmerge & _ & _ & Htr).
  apply merge_or_upload_synthesis in Hmerge.
  pose proof (turn_calls_synthesis (turns.ofScript podcastContent)) as Ht.
  rewrite <- Hturns in Ht.
  destruct (json_Marshal content') as [data | err].
  - destruct Htr as (r & Htr & _). eexists. split; [exact Htr |].
    rewrite !calls_app. split.
    + rewrite !Forall_app. repeat split; try assumption. repeat constructor.
    + rewrite !existsb_app. cbn. now rewrite !orb_true_r.
  - eexists. split; [exact Htr |].
    rewrite !calls_app. split.
    + rewrite !Forall_app. repeat split; try assumption. repeat constructor.
    + rewrite !existsb_app. cbn. now rewrite !orb_true_r.
Qed.

Lemma synthesize_shape (json_Marshal : Content → result string) (env : Env)
      (date contentKey : string) (content : Content)
      (podcastContent introContent : string) (w : World) :
  let w' := after env (synthesize json_Marshal date contentKey content
                                  podcastContent introContent) w in
  ∃ l, trace w' = trace w ++ l ∧
       shape.synthesisRun json_Marshal date contentKey content l (store w').
Proof.
  destruct (synthesize_trace json_Marshal env date contentKey content
              podcastContent introContent w) as (l & Htr & Hall & Hsyn).
  exists l. split; [exact Htr |]. split; [exact Hall |]. split; [exact Hsyn |].
  destruct (synthesize_run json_Marshal env date contentKey content
              podcastContent introContent w)
    as (content' & lturns & lmerge & ri & HI & HP & HB & HA & Hurl & _ & _ & _ & _ & Htr').
  exists content'. do 4 (split; [assumption |]).
  cbn zeta in *. split.
  - destruct Hurl as [-> | (mergedAudio & url & -> & Hin)]; [left; reflexivity |].
    right. exists mergedAudio, url. split; [reflexivity |].
    destruct (json_Marshal _); [destruct Htr' as (r & Htr' & _) |];
      rewrite Htr' in Htr; apply app_inv_head in Htr; subst l;
      apply in_or_app; right; apply in_or_app; left; exact Hin.
  - destruct (json_Marshal content') as [data | err]; [| exact I].
    destruct Htr' as (r & Htr' & Hok).
    rewrite Htr' in Htr. apply app_inv_head in Htr. subst l.
    exists (lturns ++ lmerge ++ [mkEntry (SynthesizeSpeech introContent "男") ri]), r.
    split; [| exact Hok].
    rewrite <- !app_assoc. reflexivity.
Qed.

Section Whole.

Variable json_Marshal : Content → result string.
Variable json_Unmarshal : string → result Content.
Variable s : Server.
Variable env : Env.

Lemma processHackerNews_shape (date : string) (maxItems : Z)
      (force forceAudio : bool) (w : World) :
  let w' := after env (processHackerNews json_Marshal json_Unmarshal s date maxItems
                                         force forceAudio) w in
  shape.wholeRun json_Marshal json_Unmarshal (config_OpenAI_MaxTokens s)
                 date maxItems (contentKeyOf s date) (store w) (store w')
                 (added w w') ∧
  isProcessing w' = false.
Proof.
  intros w'. subst w'. rewrite processHackerNews_run.
  split; [| reflexivity].
  unfold added. cbn [store trace setLastProcessed setIsProcessing].
  rewrite processBody_run. cbn zeta.
  set (key := contentKeyOf s date).
  set (w0 := setIsProcessing true w).
  set (re := storage.ObjectExists (getObject env w0 key)).
  set (w1 := record (mkEntry (ObjectExists key) re) w0).
  assert (Htr1 : trace w1 = trace w ++ [mkEntry (ObjectExists key) re]) by reflexivity.
  assert (Hst1 : store w1 = store w) by reflexivity.
  clearbody w1 re. clear w0. unfold contentFor. fold key.
  destruct (negb (fst re) || force).
  - (* generation *)
    destruct (generate_run json_Marshal s env date maxItems key w1)
      as (rs & lsum & ltail & Htr & Hrs).
    destruct (run (handle env) (generate json_Marshal s date maxItems key) w1)
      as [r w2].
    cbn [fst snd] in *.
    destruct rs as [stories | err].
    2: { destruct Hrs as (-> & -> & -> & Hst).
         rewrite Htr, Htr1, <- !app_assoc, drop_app_length, Hst, Hst1.
         cbn [app]. now constructor. }
    destruct Hrs as (ts & Hitems & Hts).
    destruct ts as [| t ts].
    { destruct Hts as (-> & -> & Hst).
      rewrite Htr, Htr1, <- !app_assoc, drop_app_length, Hst, Hst1.
      rewrite app_nil_r.
      apply (shape.nothingSummarized json_Marshal json_Unmarshal _ _ _ _ _ _ re
                                     stories lsum); [exact Hitems | reflexivity]. }
    destruct Hts as (Htexts & Hr).
    destruct r as [[[content podcastContent] introContent] |].
    + destruct (synthesize_shape json_Marshal env date key content
                  podcastContent introContent w2) as (l & Htr2 & Hsyn).
      cbn zeta in *. rewrite Htr2, Htr, Htr1, <- !app_assoc, drop_app_length.
      apply (shape.generated json_Marshal json_Unmarshal _ _ _ _ _ _ re stories
               lsum ltail l (t :: ts) content podcastContent introContent);
        [discriminate | exact Hitems | exact Htexts | exact Hsyn].
    + rewrite Htr, Htr1, <- !app_assoc, drop_app_length, Hr, Hst1.
      apply (shape.textsStopped json_Marshal json_Unmarshal _ _ _ _ _ _ re stories
               lsum ltail (t :: ts));
        [discriminate | exact Hitems | exact Htexts | reflexivity].
  - (* load *)
    destruct (load_run json_Unmarshal env forceAudio key w1) as (Htr & Hst & Hr).
    destruct (run (handle env) (load json_Unmarshal forceAudio key) w1) as [r w2].
    cbn [fst snd] in *.
    destruct r as [[[content podcastContent] introContent] |].
    + destruct Hr as (contentData & Hd & Hu & _).
      destruct (synthesize_shape json_Marshal env date key content
                  podcastContent introContent w2) as (l & Htr2 & Hsyn).
      cbn zeta in *. rewrite Htr2, Htr, Hd, Htr1, <- !app_assoc, drop_app_length.
      apply (shape.loaded json_Marshal json_Unmarshal _ _ _ _ _ _ re contentData
               content l); [exact Hu | exact Hsyn].
    + rewrite Htr, Htr1, <- !app_assoc, drop_app_length, Hst, Hst1.
      now constructor.
Qed.

End Whole.

(** ** Failed generation of a text *)

Lemma no_synthesis_call (cs : list Call) :
  existsb shape.isSynthesisCall cs = false →
  existsb isUploadFile cs = false ∧ existsb isSynthesizeSpeech cs = false.
Proof.
  induction cs as [| c cs IH]; [split; reflexivity |].
  cbn [existsb]. intros H. apply orb_false_elim in H as [Hc Hcs].
  destruct (IH Hcs) as [-> ->]. destruct c; try discriminate Hc; split; reflexivity.
Qed.

(** C6.  Whatever the environment and the flags, if in a run the
    generation of the podcast script, of the blog text or of the intro
    fails, that failed call is the last call of the run, no upload was
    made before it, and the store is as it was before the run. *)
Theorem failed_generation_writes_nothing
        (json_Marshal : Content → result string)
        (json_Unmarshal : string → result Content)
        (s : Server) (env : Env) (date : string) (maxItems : Z)
        (force forceAudio : bool) (w : World) :
  let w' := after env (processHackerNews json_Marshal json_Unmarshal s date maxItems
                                         force forceAudio) w in
  existsb shape.generationFailed (added w w') = true →
  store w' = store w ∧
  ∃ l0 e, added w w' = l0 ++ [e] ∧
          shape.generationFailed e = true ∧
          existsb isUploadFile (calls l0) = false.
Proof.
  intros w'.
  destruct (processHackerNews_shape json_Marshal json_Unmarshal s env date maxItems
              force forceAudio w) as [Hshape _].
  fold w' in Hshape.
  destruct Hshape as [re rd Hst | re contentData content l Hparse Hsyn
                      | re err Hst | re stories lsum Hitems Hst
                      | re stories lsum ltail ts Hne Hitems Htexts Hst
                      | re stories lsum ltail l ts content podcastContent
                           introContent Hne Hitems Htexts Hsyn].
  - cbn. discriminate.
  - destruct Hsyn as (Hall & _). apply synthesis_facts in Hall as (_ & _ & _ & _ & Hnf).
    rewrite existsb_app, Hnf. cbn. discriminate.
  - cbn. discriminate.
  - apply itemsRun_facts in Hitems as (_ & _ & _ & _ & Hnf & _).
    rewrite existsb_app, Hnf. cbn. discriminate.
  - pose proof (itemsRun_facts _ _ _ _ Hitems) as (_ & _ & _ & _ & Hnf & _ & Hns).
    apply no_synthesis_call in Hns as [Hnu _].
    destruct (textsRun_facts _ _ _ _ _ Htexts) as (_ & _ & _ & _ & _ & Hfail).
    rewrite !existsb_app, Hnf. cbn [existsb shape.generationFailed orb].
    intros Hf. destruct (Hfail Hf) as (_ & l0 & e & -> & He & Hl0).
    split; [exact Hst |].
    exists ([mkEntry (ObjectExists (contentKeyOf s date)) re;
             mkEntry (GetTopStories date maxItems) (Ok stories)] ++ lsum ++ l0), e.
    split; [now rewrite <- !app_assoc |]. split; [exact He |].
    rewrite !calls_app, !existsb_app, Hnu, Hl0. reflexivity.
  - pose proof (itemsRun_facts _ _ _ _ Hitems) as (_ & _ & _ & _ & Hnf & _).
    destruct (textsRun_facts _ _ _ _ _ Htexts) as (_ & _ & _ & _ & _ & Hfail).
    destruct Hsyn as (Hall & _). apply synthesis_facts in Hall as (_ & _ & _ & _ & Hnl).
    rewrite !existsb_app, Hnf, Hnl. cbn [existsb shape.generationFailed orb].
    rewrite orb_false_r. intros Hf. destruct (Hfail Hf) as (Hnone & _). discriminate.
Qed.

Lemma failed_generation_witness :
  let w' := after (partial.envOf partial.podcastFails)
                  (processHackerNews artifact.Marshal artifact.Unmarshal
                                     examples.server artifact.date 10 true false)
                  artifact.world in
  existsb shape.generationFailed (added artifact.world w') = true ∧
  store w' = store artifact.world ∧
  ∃ l0 e, added artifact.world w' = l0 ++ [e] ∧
          shape.generationFailed e = true ∧
          existsb isUploadFile (calls l0) = false.
Proof.
  assert (H : existsb shape.generationFailed
                (added artifact.world
                   (after (partial.envOf partial.podcastFails)
                      (processHackerNews artifact.Marshal artifact.Unmarshal
                         examples.server artifact.date 10 true false)
                      artifact.world)) = true) by (vm_compute; reflexivity).
  split; [exact H |].
  exact (failed_generation_writes_nothing artifact.Marshal artifact.Unmarshal
           examples.server (partial.envOf partial.podcastFails) artifact.date 10
           true false artifact.world H).
Defined.

(** ** The summaries of the fetched items *)



(** Two of five items fail: the three surviving summaries, in fetch
    order. *)
Example two_of_five_fail :
  let r := run (handle (partial.envOf partial.twoOfFiveFail))
               (summarize examples.server partial.five []) examples.world in
  fst r = ["t1"; "t3"; "t5"] ∧
  shape.fetched (calls (trace (snd r))) = partial.five.
Proof. split; reflexivity. Qed.

(** The same in a whole run: podcast and blog are generated from the
    three summaries and a record is stored. *)
Example two_of_five_fail_run :
  let w' := after (partial.envOf partial.twoOfFiveFail)
                  (processHackerNews artifact.Marshal artifact.Unmarshal
                                     examples.server artifact.date 10 false false)
                  examples.world in
  shape.inputs (calls (trace w')) = [["t1"; "t3"; "t5"]; ["t1"; "t3"; "t5"]] ∧
  store w' !! contentKeyOf examples.server artifact.date
  = Some "intro|podcast|blog|https://minio/presigned".
Proof. split; vm_compute; reflexivity. Qed.

Lemma In_before_last (e : Entry Call Resp) (l0 : list (Entry Call Resp))
      (contentKey contentData : string) (r : result string)
      (objectName data : string) (r' : result string) :
  e = mkEntry (UploadFile objectName data "audio/mpeg") r' →
  In e (l0 ++ [mkEntry (UploadFile contentKey contentData "application/json") r]) →
  In e l0.
Proof.
  intros -> Hin. apply in_app_or in Hin as [Hin | [Heq | []]]; [exact Hin |].
  apply (f_equal callOf) in Heq. cbn in Heq. discriminate.
Qed.

(** ** The final write of the content record *)

(** C7.  Serialization of the record never failing, every run that
    reaches the synthesis stage ends with the upload of the serialized
    record under the content key, whatever became of the audio; the
    record written has the intro, the podcast script, the blog text and
    the list of audio files of the record loaded from the store or
    assembled from the texts generated earlier in the run, and differs
    from it at most in the audio URL, which is then the URL returned by
    the upload of the merged audio; if the store accepts the upload, it
    holds the serialized record afterwards. *)
Theorem final_write_carries_texts
        (json_Marshal : Content → result string)
        (json_Unmarshal : string → result Content)
        (s : Server) (env : Env) (date : string) (maxItems : Z)
        (force forceAudio : bool) (w : World) :
  (∀ content, isOk (json_Marshal content) = true) →
  let contentKey := contentKeyOf s date in
  let w' := after env (processHackerNews json_Marshal json_Unmarshal s date maxItems
                                         force forceAudio) w in
  let tr := added w w' in
  existsb isSynthesizeSpeech (calls tr) = true →
  ∃ (content content' : Content) (contentData : string) (r : result string)
    (l0 : list (Entry Call Resp)),
    tr = l0 ++ [mkEntry (UploadFile contentKey contentData "application/json") r] ∧
    json_Marshal content' = Ok contentData ∧
    Intro content' = Intro content ∧
    Podcast content' = Podcast content ∧
    Blog content' = Blog content ∧
    AudioFiles content' = AudioFiles content ∧
    (content' = content
     ∨ ∃ mergedAudio url,
         content' = setAudioURL content url ∧
         In (mkEntry (UploadFile ("audio/" +:+ date +:+ "-complete.mp3")
                                 mergedAudio "audio/mpeg") (Ok url)) l0) ∧
    (isOk r = true → store w' !! contentKey = Some contentData) ∧
    ((∃ loadedData,
        In (mkEntry (DownloadFile contentKey) (Ok loadedData)) l0 ∧
        json_Unmarshal loadedData = Ok content)
     ∨ (∃ storyTexts podcastContent blogContent introContent,
          content = shape.assembled introContent podcastContent blogContent ∧
          In (mkEntry (GeneratePodcastContent storyTexts) (Ok podcastContent)) l0 ∧
          In (mkEntry (GenerateBlogContent storyTexts) (Ok blogContent)) l0 ∧
          In (mkEntry (GenerateIntroContent podcastContent) (Ok introContent)) l0)).
Proof.
  intros Htotal contentKey w' tr.
  destruct (processHackerNews_shape json_Marshal json_Unmarshal s env date maxItems
              force forceAudio w) as [Hshape _].
  fold w' in Hshape. fold tr in Hshape. fold contentKey in Hshape. clearbody tr.
  assert (Hfinish : ∀ content l pre,
    shape.synthesisRun json_Marshal date contentKey content l (store w') →
    ∃ (content' : Content) (contentData : string) (r : result string)
      (l0 : list (Entry Call Resp)),
      pre ++ l = (pre ++ l0)
                 ++ [mkEntry (UploadFile contentKey contentData "application/json") r] ∧
      json_Marshal content' = Ok contentData ∧
      Intro content' = Intro content ∧
      Podcast content' = Podcast content ∧
      Blog content' = Blog content ∧
      AudioFiles content' = AudioFiles content ∧
      (content' = content
       ∨ ∃ mergedAudio url,
           content' = setAudioURL content url ∧
           In (mkEntry (UploadFile ("audio/" +:+ date +:+ "-complete.mp3")
                                   mergedAudio "audio/mpeg") (Ok url)) (pre ++ l0)) ∧
      (isOk r = true → store w' !! contentKey = Some contentData)).
  { intros content l pre (_ & _ & content' & HI & HP & HB & HA & Hurl & Hm).
    specialize (Htotal content').
    destruct (json_Marshal content') as [contentData | err] eqn:Em;
      [| discriminate Htotal].
    destruct Hm as (l0 & r & -> & Hok).
    exists content', contentData, r, l0.
    split; [now rewrite app_assoc |]. split; [exact Em |].
    do 4 (split; [assumption |]). split; [| exact Hok].
    destruct Hurl as [-> | (mergedAudio & url & -> & Hin)]; [left; reflexivity |].
    right. exists mergedAudio, url. split; [reflexivity |].
    apply in_or_app. right. eapply In_before_last; [reflexivity | exact Hin]. }
  destruct Hshape as [re rd Hst | re contentData content l Hparse Hsyn
                      | re err Hst | re stories lsum Hitems Hst
                      | re stories lsum ltail ts Hne Hitems Htexts Hst
                      | re stories lsum ltail l ts content podcastContent
                           introContent Hne Hitems Htexts Hsyn].
  - cbn. discriminate.
  - intros _.
    match goal with
    | |- ∃ _ _ _ _ _, ?pre ++ l = _ ∧ _ =>
      destruct (Hfinish content l pre Hsyn)
        as (content' & data & r & l0 & Htr & Hm & HI & HP & HB & HA & Hurl & Hok);
      exists content, content', data, r, (pre ++ l0)
    end.
    split; [exact Htr |]. do 7 (split; [assumption |]).
    left. exists contentData. split; [| exact Hparse].
    cbn. right. left. reflexivity.
  - cbn. discriminate.
  - apply itemsRun_facts in Hitems as (_ & _ & _ & _ & _ & _ & Hns).
    apply no_synthesis_call in Hns as [_ Hns].
    rewrite calls_app, existsb_app, Hns. cbn. discriminate.
  - apply itemsRun_facts in Hitems as (_ & _ & _ & _ & _ & _ & Hns).
    apply no_synthesis_call in Hns as [_ Hns].
    apply textsRun_facts in Htexts as (_ & _ & _ & _ & Hnt & _).
    rewrite !calls_app, !existsb_app, Hns, Hnt. cbn. discriminate.
  - intros _.
    rewrite !app_assoc.
    match goal with
    | |- ∃ _ _ _ _ _, ?pre ++ l = _ ∧ _ =>
      destruct (Hfinish content l pre Hsyn)
        as (content' & data & r & l0 & Htr & Hm & HI & HP & HB & HA & Hurl & Hok);
      exists content, content', data, r, (pre ++ l0)
    end.
    split; [exact Htr |]. do 7 (split; [assumption |]).
    right. inversion Htexts; subst.
    exists ts, podcastContent, blogContent, introContent.
    split; [reflexivity |].
    repeat split; apply in_or_app; left; apply in_or_app; right; cbn; auto.
Qed.

Lemma final_write_witness :
  let env := partial.envOf partial.twoOfFiveFail in
  let contentKey := contentKeyOf examples.server artifact.date in
  let w' := after env
                  (processHackerNews artifact.Marshal artifact.Unmarshal
                                     examples.server artifact.date 10 false false)
                  examples.world in
  let tr := added examples.world w' in
  (∀ content, isOk (artifact.Marshal content) = true) ∧
  existsb isSynthesizeSpeech (calls tr) = true ∧
  ∃ (content content' : Content) (contentData : string) (r : result string)
    (l0 : list (Entry Call Resp)),
    tr = l0 ++ [mkEntry (UploadFile contentKey contentData "application/json") r] ∧
    artifact.Marshal content' = Ok contentData ∧
    Intro content' = Intro content ∧
    Podcast content' = Podcast content ∧
    Blog content' = Blog content ∧
    AudioFiles content' = AudioFiles content ∧
    (content' = content
     ∨ ∃ mergedAudio url,
         content' = setAudioURL content url ∧
         In (mkEntry (UploadFile ("audio/" +:+ artifact.date +:+ "-complete.mp3")
                                 mergedAudio "audio/mpeg") (Ok url)) l0) ∧
    (isOk r = true → store w' !! contentKey = Some contentData) ∧
    ((∃ loadedData,
        In (mkEntry (DownloadFile contentKey) (Ok loadedData)) l0 ∧
        artifact.Unmarshal loadedData = Ok content)
     ∨ (∃ storyTexts podcastContent blogContent introContent,
          content = shape.assembled introContent podcastContent blogContent ∧
          In (mkEntry (GeneratePodcastContent storyTexts) (Ok podcastContent)) l0 ∧
          In (mkEntry (GenerateBlogContent storyTexts) (Ok blogContent)) l0 ∧
          In (mkEntry (GenerateIntroContent podcastContent) (Ok introContent)) l0)).
Proof.
  intros env contentKey w' tr.
  assert (H1 : ∀ content, isOk (artifact.Marshal content) = true)
    by (intros content; reflexivity).
  assert (H2 : existsb isSynthesizeSpeech (calls tr) = true)
    by (vm_compute; reflexivity).
  split; [exact H1 |]. split; [exact H2 |].
  exact (final_write_carries_texts artifact.Marshal artifact.Unmarshal
           examples.server env artifact.date 10 false false examples.world H1 H2).
Defined.

(** ** Concurrent runs *)

(** C9, counterexample to the claim as stated: two process requests for
    the same date are both acknowledged, and under the interleaving in
    which each goroutine checks for the content before the other has
    written any, both go on to ask for the stories, that is, both are in
    the generation stage at the same time. *)
Lemma two_runs_same_date_both_generate :
  let key := contentKeyOf examples.server artifact.date in
  let m := schedule (partial.envOf partial.twoOfFiveFail) twice.interleaving
                    twice.afterTwoRequests in
  fst (processHandler artifact.Marshal artifact.Unmarshal examples.server
         "2025-04-24" (Ok twice.request) twice.idle)
  = Started artifact.date "处理已开始" ∧
  fst (processHandler artifact.Marshal artifact.Unmarshal examples.server
         "2025-04-24" (Ok twice.request)
         (snd (processHandler artifact.Marshal artifact.Unmarshal examples.server
                 "2025-04-24" (Ok twice.request) twice.idle)))
  = Started artifact.date "处理已开始" ∧
  calls (trace (world m))
  = [ObjectExists key; ObjectExists key;
     GetTopStories artifact.date 10; GetTopStories artifact.date 10] ∧
  map running (goroutines m) = [true; true].
Proof. repeat split; vm_compute; reflexivity. Qed.

Lemma handle_ignores_flag (env : Env) (c : Call) (w1 w2 : World) :
  store w1 = store w2 → trace w1 = trace w2 →
  fst (handle env c w1) = fst (handle env c w2) ∧
  store (snd (handle env c w1)) = store (snd (handle env c w2)) ∧
  trace (snd (handle env c w1)) = trace (snd (handle env c w2)).
Proof.
  intros Hs Ht.
  destruct c; cbn [handle ask answer fst snd record setStore setIsProcessing
                   setLastProcessed store trace];
    unfold getObject, putObject; rewrite ?Hs, ?Ht; repeat split; reflexivity.
Qed.

Lemma run_ignores_flag (env : Env) {A} (p : prog A) (w1 w2 : World) :
  store w1 = store w2 → trace w1 = trace w2 →
  fst (run (handle env) p w1) = fst (run (handle env) p w2) ∧
  store (snd (run (handle env) p w1)) = store (snd (run (handle env) p w2)) ∧
  trace (snd (run (handle env) p w1)) = trace (snd (run (handle env) p w2)).
Proof.
  revert w1 w2. induction p as [a | c k IH]; intros w1 w2 Hs Ht.
  - cbn. auto.
  - cbn [run].
    destruct (handle_ignores_flag env c w1 w2 Hs Ht) as (Hr & Hs' & Ht').
    destruct (handle env c w1) as [r1 w1'], (handle env c w2) as [r2 w2'].
    cbn [fst snd] in *. subst r2. now apply IH.
Qed.

(** C9 (amended).  Runs are not serialized.  [processHandler] starts a
    run for every well-formed request, whatever the in-progress flag says
    and whatever goroutines are running: it answers that processing has
    started, adds a goroutine and sets the flag, which is what the status
    query reports.  What a run stores and which calls it makes do not
    depend on the flag it finds. *)
Theorem runs_are_not_serialized :
  (∀ (json_Marshal : Content → result string)
     (json_Unmarshal : string → result Content)
     (s : Server) (today : string) (req : ProcessRequest) (m : Machine),
     let r := processHandler json_Marshal json_Unmarshal s today (Ok req) m in
     fst r = Started (Date (defaults s today req)) "处理已开始" ∧
     goroutines (snd r)
     = goroutines m ++ [background json_Marshal json_Unmarshal s (defaults s today req)] ∧
     getStatusHandler (snd r) = true ∧
     store (world (snd r)) = store (world m) ∧
     trace (world (snd r)) = trace (world m))
  ∧
  (∀ (json_Marshal : Content → result string)
     (json_Unmarshal : string → result Content)
     (s : Server) (env : Env) (date : string) (maxItems : Z)
     (force forceAudio : bool) (w : World) (b : bool),
     let p := processHackerNews json_Marshal json_Unmarshal s date maxItems
                                force forceAudio in
     store (after env p (setIsProcessing b w)) = store (after env p w) ∧
     trace (after env p (setIsProcessing b w)) = trace (after env p w)).
Proof.
  split.
  - intros. repeat split.
  - intros json_Marshal json_Unmarshal s env date maxItems force forceAudio w b p.
    unfold after.
    destruct (run_ignores_flag env p (setIsProcessing b w) w eq_refl eq_refl)
      as (_ & Hs & Ht).
    split; assumption.
Qed.

(** * Further properties of the pipeline *)

(** ** What a run can issue *)

Lemma issues_impl {C R A} (P Q : C → Prop) (p : Prog C R A) :
  (∀ c, P c → Q c) → issues P p → issues Q p.
Proof.
  intros HPQ. induction p as [a | c k IH]; cbn; [trivial |].
  intros [Hc Hk]. split; [auto |]. intros r. apply IH, Hk.
Qed.

Lemma issues_bind {C R A B} (P : C → Prop) (p : Prog C R A) (f : A → Prog C R B) :
  issues P p → (∀ a, issues P (f a)) → issues P (bind p f).
Proof.
  intros Hp Hf. induction p as [a | c k IH]; cbn in *; [apply Hf |].
  destruct Hp as [Hc Hk]. split; [exact Hc |]. intros r. apply IH, Hk.
Qed.

Lemma issues_mbind {C R A B} (P : C → Prop) (p : Prog C R A) (f : A → Prog C R B) :
  issues P p → (∀ a, issues P (f a)) → issues P (p ≫= f).
Proof. apply issues_bind. Qed.

Lemma issues_call {C R} (P : C → Prop) (c : C) : P c → issues P (call (R := R) c).
Proof. intros Hc. cbn. auto. Qed.

(** The traced calls of a run are among those the program can issue. *)
Lemma issues_run (env : Env) (P : Call → Prop) {A} (p : prog A) (w : World) :
  issues P p → Forall P (calls (added w (after env p w))).
Proof.
  unfold after. revert w. induction p as [a | c k IH]; intros w Hp.
  - cbn. unfold added. rewrite drop_all. constructor.
  - destruct Hp as [Hc Hk]. cbn [run].
    destruct (handle_frame env c w) as (l1 & E1 & Hl1).
    destruct (handle env c w) as [r w1]. cbn [fst snd] in *.
    specialize (IH r w1 (Hk r)).
    destruct (run_frame env (k r) w1) as (l2 & E2). unfold after in E2.
    rewrite (added_app w1 _ l2 E2) in IH.
    rewrite (added_app w _ (l1 ++ l2)).
    2: { rewrite E2, E1. symmetry. apply app_assoc. }
    unfold calls in *. rewrite map_app. apply Forall_app. split; [| exact IH].
    destruct Hl1 as [-> | ->]; cbn; [constructor |].
    constructor; [exact Hc | constructor].
Qed.

(** A program that never writes object [k] leaves it as it is. *)
Lemma issues_spares (env : Env) (k : string) {A} (p : prog A) (w : World) :
  issues (keys.spares k) p → store (after env p w) !! k = store w !! k.
Proof.
  unfold after. revert w. induction p as [a | c kont IH]; intros w Hp; [reflexivity |].
  destruct Hp as [Hc Hk]. cbn [run].
  assert (Hstep : store (snd (handle env c w)) !! k = store w !! k).
  { destruct c; try reflexivity. cbn in Hc |- *.
    unfold putObject. destruct (fault env (length (trace w))); cbn [snd]; try reflexivity.
    apply lookup_insert_ne. exact Hc. }
  destruct (handle env c w) as [r w1]. cbn [snd] in Hstep.
  rewrite (IH r w1 (Hk r)). exact Hstep.
Qed.

Ltac issues_step :=
  cbn [issues bind mbind mret Prog_bind Prog_ret call].

Ltac issues_auto :=
  repeat (issues_step;
          match goal with
          | |- True => exact I
          | |- keys.allowed _ _ _ => split; cbn; auto
          | |- _ = _ => reflexivity
          | |- _ ∧ _ => split
          | |- ∀ _, _ => intro
          | |- issues _ (match ?x with _ => _ end) => destruct x
          | |- issues _ (if ?x then _ else _) => destruct x
          end).

Lemma speakerOf_cases (conversation : string) :
  speakerOf conversation = "男" ∨ speakerOf conversation = "女".
Proof. unfold speakerOf. destruct (_ || _); auto. Qed.

Lemma writeSegments_issues (contentKey date tempDir fl : string)
      (segs : list string) (i : nat) :
  issues (keys.allowed contentKey date) (writeSegments tempDir fl i segs).
Proof.
  revert i. induction segs as [| seg rest IH]; intros i; [exact I |].
  cbn [writeSegments]. issues_auto. apply IH.
Qed.

Lemma mergeAudioBytes_issues (contentKey date : string) (segs : list string) :
  issues (keys.allowed contentKey date) (mergeAudioBytes segs).
Proof.
  unfold mergeAudioBytes. issues_auto.
  apply issues_mbind; [apply writeSegments_issues |].
  intros r. issues_auto.
Qed.

Lemma synthesizeTurns_issues (contentKey date : string) (lines acc : list string) :
  issues (keys.allowed contentKey date) (synthesizeTurns lines acc).
Proof.
  revert acc. induction lines as [| conversation rest IH]; intros acc; [exact I |].
  cbn [synthesizeTurns]. destruct (String.eqb _ ""); [apply IH |].
  issues_step. split; [split; [exact I | apply speakerOf_cases] |].
  intros [audio | err]; apply IH.
Qed.

Section Issues.

Variable json_Marshal : Content → result string.
Variable json_Unmarshal : string → result Content.
Variable s : Server.

Lemma summarize_issues (contentKey date : string) (stories : list models.Story)
      (acc : list string) :
  issues (keys.allowed contentKey date) (summarize s stories acc).
Proof.
  revert acc. induction stories as [| story rest IH]; intros acc; [exact I |].
  cbn [summarize]. issues_auto; apply IH.
Qed.

Lemma synthesize_issues (date : string) (content : Content)
      (podcastContent introContent : string) :
  issues (keys.allowed (contentKeyOf s date) date)
         (synthesize json_Marshal date (contentKeyOf s date)
                     content podcastContent introContent).
Proof.
  unfold synthesize.
  apply issues_mbind; [apply synthesizeTurns_issues |]. intros segs.
  apply issues_mbind.
  { unfold mergeAndUpload. destruct (0 <? length segs)%nat; [| exact I].
    apply issues_mbind; [apply mergeAudioBytes_issues |].
    intros m. unfold keys.merged. issues_auto. }
  intros content'. unfold writeBack. issues_auto.
Qed.

(** Every call of a run for [date] is allowed: its writes go to the two
    objects of the date, its synthesis requests name a speaker. *)
Lemma processHackerNews_issues (date : string) (maxItems : Z) (force forceAudio : bool) :
  issues (keys.allowed (contentKeyOf s date) date)
         (processHackerNews json_Marshal json_Unmarshal s date maxItems force forceAudio).
Proof.
  assert (Hgen : issues (keys.allowed (contentKeyOf s date) date)
                        (generate json_Marshal s date maxItems (contentKeyOf s date))).
  { unfold generate. issues_step. split; [split; exact I |].
    intros [stories | err]; [| exact I].
    apply issues_mbind; [apply summarize_issues |]. intros ts.
    destruct (length ts =? 0)%nat; [exact I |]. issues_auto. }
  assert (Hload : issues (keys.allowed (contentKeyOf s date) date)
                         (load json_Unmarshal forceAudio (contentKeyOf s date))).
  { unfold load. issues_auto. }
  unfold processHackerNews. issues_step. split; [split; exact I |]. intros _.
  apply issues_mbind.
  { unfold processBody. issues_step. split; [split; exact I |].
    intros [contentExists err].
    apply issues_mbind.
    { unfold contentFor. destruct (negb contentExists || force); assumption. }
    intros [[[content podcastContent] introContent] |];
      [apply synthesize_issues | exact I]. }
  intros _. issues_auto.
Qed.

End Issues.

(** ** The temporary directory of the merge *)

Lemma string_app_cons (c : ascii) (s t : string) :
  String c s +:+ t = String c (s +:+ t).
Proof. reflexivity. Qed.

Lemma string_app_nil_l (t : string) : "" +:+ t = t.
Proof. reflexivity. Qed.

Lemma string_app_assoc (a b c : string) : (a +:+ b) +:+ c = a +:+ (b +:+ c).
Proof.
  induction a as [| x a IH]; [reflexivity |].
  rewrite !string_app_cons. now rewrite IH.
Qed.

Lemma prefix_app (p x : string) : String.prefix p (p +:+ x) = true.
Proof.
  induction p as [| c p IH]; [now destruct x |].
  rewrite string_app_cons. cbn [String.prefix].
  destruct (ascii_dec c c); [exact IH | congruence].
Qed.

Lemma HasPrefix_Join (dir name : string) :
  strings.HasPrefix (Join dir name) (dir +:+ "/") = true.
Proof.
  unfold strings.HasPrefix, Join. rewrite <- string_app_assoc. apply prefix_app.
Qed.

Lemma writeSegments_inside (tempDir : string) (segs : list string) (i : nat) :
  issues (scoped.inside tempDir)
         (writeSegments tempDir (Join tempDir "filelist.txt") i segs).
Proof.
  revert i. induction segs as [| seg rest IH]; intros i; [exact I |].
  cbn [writeSegments]. issues_step. split; [apply HasPrefix_Join |].
  intros [err |]; [exact I |].
  issues_step. split; [apply HasPrefix_Join |]. intros _. apply IH.
Qed.

(** X8.  The merge works in the temporary directory it creates and removes that
    directory before it returns, on every path; once the manifest is
    created it is closed just before. *)
Theorem mergeAudioBytes_scoped (env : Env) (segs : list string) (w : World) :
  let l := calls (added w (after env (mergeAudioBytes segs) w)) in
  match oracle env (length (trace w)) (MkdirTemp "" "audio-merge") with
  | Err _ => l = [MkdirTemp "" "audio-merge"]
  | Ok tempDir =>
    let fl := Join tempDir "filelist.txt" in
    ∃ l0, l = MkdirTemp "" "audio-merge" :: Create fl :: l0 ++ [RemoveAll tempDir] ∧
          Forall (scoped.inside tempDir) l0 ∧
          match oracle env (S (length (trace w))) (Create fl) with
          | Some _ => l0 = []
          | None => ∃ l1, l0 = l1 ++ [Close fl]
          end
  end.
Proof.
  unfold after, mergeAudioBytes. run_step.
  destruct (oracle env (length (trace w)) (MkdirTemp "" "audio-merge"))
    as [tempDir | err] eqn:E1; run_step.
  2: { unfold added. cbn [trace record]. rewrite drop_app_length. reflexivity. }
  cbn [trace record]. rewrite length_app, Nat.add_1_r. cbn [length].
  destruct (oracle env (S (length (trace w))) (Create _)) as [err |] eqn:E2; run_step.
  { exists []. split; [| split; [constructor | reflexivity]].
    unfold added. cbn [trace record]. rewrite <- !app_assoc, drop_app_length.
    reflexivity. }
  rewrite run_mbind.
  match goal with
  | |- context [run (handle env) (writeSegments ?d ?f ?i ?s) ?w0] =>
    pose proof (issues_run env _ _ w0 (writeSegments_inside d s i)) as Hin;
    destruct (run_frame env (writeSegments d f i s) w0) as (l1 & Htr);
    unfold after in Hin, Htr;
    rewrite (added_app w0 _ l1 Htr) in Hin;
    destruct (run (handle env) (writeSegments d f i s) w0) as [r w3]
  end.
  cbn [fst snd trace record] in *.
  assert (Hclose : strings.HasPrefix (Join tempDir "filelist.txt") (tempDir +:+ "/") = true)
    by apply HasPrefix_Join.
  assert (Hout : strings.HasPrefix (Join tempDir "merged.mp3") (tempDir +:+ "/") = true)
    by apply HasPrefix_Join.
  destruct r as [err |]; run_step.
  { exists (calls l1 ++ [Close (Join tempDir "filelist.txt")]). split; [| split].
    - unfold added. cbn [trace record]. rewrite Htr, <- ?app_assoc, drop_app_length.
      unfold calls. rewrite ?map_app. cbn [map callOf app].
      rewrite <- ?app_assoc. reflexivity.
    - apply Forall_app. split; [exact Hin |]. repeat constructor. exact Hclose.
    - eexists. reflexivity. }
  destruct (oracle env _ (RunCommand _ _)) as [err |] eqn:E3; run_step.
  - eexists (calls l1 ++ [_; _; Close (Join tempDir "filelist.txt")]). split; [| split].
    + unfold added. cbn [trace record]. rewrite Htr, <- ?app_assoc, drop_app_length.
      unfold calls. rewrite ?map_app. cbn [map callOf app].
      rewrite <- ?app_assoc. reflexivity.
    + apply Forall_app. split; [exact Hin |]. repeat constructor; assumption.
    + exists (calls l1 ++ [Sync (Join tempDir "filelist.txt");
                           RunCommand "ffmpeg" (ffmpegArgs (Join tempDir "filelist.txt")
                                                           (Join tempDir "merged.mp3"))]).
      rewrite <- app_assoc. reflexivity.
  - eexists (calls l1 ++ [_; _; _; Close (Join tempDir "filelist.txt")]). split; [| split].
    + unfold added. cbn [trace record]. rewrite Htr, <- ?app_assoc, drop_app_length.
      unfold calls. rewrite ?map_app. cbn [map callOf app].
      rewrite <- ?app_assoc. reflexivity.
    + apply Forall_app. split; [exact Hin |]. repeat constructor; assumption.
    + exists (calls l1 ++ [Sync (Join tempDir "filelist.txt");
                           RunCommand "ffmpeg" (ffmpegArgs (Join tempDir "filelist.txt")
                                                           (Join tempDir "merged.mp3"));
                           ReadFile (Join tempDir "merged.mp3")]).
      rewrite <- app_assoc. reflexivity.
Qed.

(** ** The objects a run writes *)

(** X2.  A run for [date] writes at most two objects: the content record of
    the date and its merged audio.  Every other object of the store is
    after the run what it was before. *)
Theorem run_writes_two_objects
        (json_Marshal : Content → result string)
        (json_Unmarshal : string → result Content)
        (s : Server) (env : Env) (date : string) (maxItems : Z)
        (force forceAudio : bool) (w : World) (k : string) :
  k ≠ contentKeyOf s date →
  k ≠ "audio/" +:+ date +:+ "-complete.mp3" →
  store (after env (processHackerNews json_Marshal json_Unmarshal s date maxItems
                                      force forceAudio) w) !! k
  = store w !! k.
Proof.
  intros Hk1 Hk2. apply issues_spares.
  eapply issues_impl; [| apply processHackerNews_issues].
  intros c [Hw _]. destruct c; try exact I. cbn in Hw |- *.
  intros ->. destruct Hw as [Hw | Hw]; [exact (Hk1 Hw) | exact (Hk2 Hw)].
Qed.

Lemma run_writes_two_objects_witness :
  "audio/2025-04-19-complete.mp3" ≠ contentKeyOf examples.server "2025-04-20" ∧
  "audio/2025-04-19-complete.mp3" ≠ "audio/" +:+ "2025-04-20" +:+ "-complete.mp3" ∧
  store (after examples.env
               (processHackerNews artifact.Marshal artifact.Unmarshal examples.server
                                  "2025-04-20" 10 true false) artifact.world)
        !! "audio/2025-04-19-complete.mp3"
  = store artifact.world !! "audio/2025-04-19-complete.mp3".
Proof.
  assert (H1 : "audio/2025-04-19-complete.mp3"
               ≠ contentKeyOf examples.server "2025-04-20") by discriminate.
  assert (H2 : "audio/2025-04-19-complete.mp3"
               ≠ "audio/" +:+ "2025-04-20" +:+ "-complete.mp3") by discriminate.
  repeat (split; [assumption |]).
  exact (run_writes_two_objects artifact.Marshal artifact.Unmarshal examples.server
           examples.env "2025-04-20" 10 true false artifact.world _ H1 H2).
Defined.

Lemma contentKey_not_merged (s : Server) (date date' : string) :
  contentKeyOf s date ≠ keys.merged date'.
Proof. discriminate. Qed.

Lemma contentKeyOf_inj (s : Server) (date date' : string) :
  contentKeyOf s date = contentKeyOf s date' → date = date'.
Proof.
  unfold contentKeyOf. intros H.
  apply (inj (String.app "content:")) in H.
  apply (inj (String.app (config_Server_Env s))) in H.
  now apply (inj (String.app ":hacker-news:")) in H.
Qed.

Lemma merged_inj (date date' : string) : keys.merged date = keys.merged date' → date = date'.
Proof.
  unfold keys.merged. intros H.
  apply (inj (String.app "audio/")) in H.
  now apply string_app_inv_tail in H.
Qed.

(** X3.  A run for one date leaves the content record and the merged audio of
    every other date as they are. *)
Theorem run_leaves_other_dates
        (json_Marshal : Content → result string)
        (json_Unmarshal : string → result Content)
        (s : Server) (env : Env) (date date' : string) (maxItems : Z)
        (force forceAudio : bool) (w : World) :
  date' ≠ date →
  let w' := after env (processHackerNews json_Marshal json_Unmarshal s date maxItems
                                         force forceAudio) w in
  store w' !! contentKeyOf s date' = store w !! contentKeyOf s date' ∧
  store w' !! ("audio/" +:+ date' +:+ "-complete.mp3")
  = store w !! ("audio/" +:+ date' +:+ "-complete.mp3").
Proof.
  intros Hd w'. subst w'. split; apply issues_spares;
    (eapply issues_impl; [| apply processHackerNews_issues]);
    intros c [Hw _]; destruct c; try exact I; cbn in Hw |- *; intros ->.
  - destruct Hw as [Hw | Hw]; [apply contentKeyOf_inj in Hw; auto |].
    exact (contentKey_not_merged _ _ _ Hw).
  - destruct Hw as [Hw | Hw]; [symmetry in Hw; exact (contentKey_not_merged _ _ _ Hw) |].
    apply merged_inj in Hw. auto.
Qed.

Lemma run_leaves_other_dates_witness :
  "2025-04-19" ≠ "2025-04-20" ∧
  let w' := after examples.env
                  (processHackerNews artifact.Marshal artifact.Unmarshal examples.server
                                     "2025-04-20" 10 true false) artifact.world in
  store w' !! contentKeyOf examples.server "2025-04-19"
  = store artifact.world !! contentKeyOf examples.server "2025-04-19" ∧
  store w' !! ("audio/" +:+ "2025-04-19" +:+ "-complete.mp3")
  = store artifact.world !! ("audio/" +:+ "2025-04-19" +:+ "-complete.mp3").
Proof.
  assert (H : "2025-04-19" ≠ "2025-04-20") by discriminate.
  split; [exact H |].
  exact (run_leaves_other_dates artifact.Marshal artifact.Unmarshal examples.server
           examples.env "2025-04-20" "2025-04-19" 10 true false artifact.world H).
Defined.

(** ** Reuse of the stored texts *)

Lemma added_trans (w w1 w2 : World) (l1 l2 : list (Entry Call Resp)) :
  trace w1 = trace w ++ l1 → trace w2 = trace w1 ++ l2 → added w w2 = l1 ++ l2.
Proof.
  intros H1 H2. apply added_app. rewrite H2, H1. symmetry. apply app_assoc.
Qed.

Lemma issues_run_from (env : Env) (P : Call → Prop) {A} (p : prog A) (w : World) :
  issues P p →
  ∃ l, trace (after env p w) = trace w ++ l ∧ Forall P (calls l).
Proof.
  intros Hp. destruct (run_frame env p w) as (l & Htr). exists l.
  split; [exact Htr |].
  rewrite <- (added_app w _ l Htr). now apply issues_run.
Qed.

Section Reuse.

Variable json_Marshal : Content → result string.
Variable json_Unmarshal : string → result Content.
Variable s : Server.


Lemma load_quiet (forceAudio : bool) (contentKey : string) :
  issues (fun c => stages.isFetchOrGenerate c = false)
         (load json_Unmarshal forceAudio contentKey).
Proof. unfold load. issues_auto. Qed.

Lemma synthesize_quiet (date contentKey : string) (content : Content)
      (podcastContent introContent : string) :
  issues (fun c => stages.isFetchOrGenerate c = false)
         (synthesize json_Marshal date contentKey content podcastContent introContent).
Proof.
  assert (Hseg : ∀ tempDir fl segs i,
             issues (fun c => stages.isFetchOrGenerate c = false)
                    (writeSegments tempDir fl i segs)).
  { intros tempDir fl segs. induction segs as [| seg rest IH]; intros i; [exact I |].
    cbn [writeSegments]. issues_auto. apply IH. }
  assert (Hturns : ∀ lines acc,
             issues (fun c => stages.isFetchOrGenerate c = false)
                    (synthesizeTurns lines acc)).
  { intros lines. induction lines as [| conversation rest IH]; intros acc; [exact I |].
    cbn [synthesizeTurns]. destruct (String.eqb _ ""); [apply IH |].
    issues_step. split; [reflexivity |]. intros [audio | err]; apply IH. }
  unfold synthesize.
  apply issues_mbind; [apply Hturns |]. intros segs.
  apply issues_mbind.
  { unfold mergeAndUpload. destruct (0 <? length segs)%nat; [| exact I].
    apply issues_mbind.
    { unfold mergeAudioBytes. issues_auto.
      apply issues_mbind; [apply Hseg |]. intros r. issues_auto. }
    intros m. issues_auto. }
  intros content'. unfold writeBack. issues_auto.
Qed.

End Reuse.

(** X4.  When the content record of the date is in the store and [force] is
    not set, a run makes no call to the source fetcher or to the text
    generator, with or without [forceAudio]: the texts are taken from the
    record. *)
Theorem stored_texts_are_reused
        (json_Marshal : Content → result string)
        (json_Unmarshal : string → result Content)
        (s : Server) (env : Env) (date : string) (maxItems : Z)
        (forceAudio : bool) (w : World) (data : string) :
  store w !! contentKeyOf s date = Some data →
  data ≠ "" →
  fault env (length (trace w)) = NoFault →
  let w' := after env (processHackerNews json_Marshal json_Unmarshal s date maxItems
                                         false forceAudio) w in
  Forall (fun c => stages.isFetchOrGenerate c = false) (calls (added w w')).
Proof.
  intros Hdata Hne Hfault w'. subst w'. rewrite processHackerNews_run.
  unfold added. cbn [trace setLastProcessed setIsProcessing].
  rewrite processBody_run. cbn zeta.
  set (key := contentKeyOf s date) in *.
  assert (Hre : storage.ObjectExists (getObject env (setIsProcessing true w) key)
                = (true, None)).
  { unfold getObject. cbn [trace store setIsProcessing]. rewrite Hfault, Hdata.
    cbn [storage.ObjectExists]. now rewrite (len_pos data Hne). }
  rewrite Hre. cbn [fst]. unfold contentFor. fold key. cbn [negb orb].
  set (w1 := record _ (setIsProcessing true w)).
  assert (Htr1 : trace w1 = trace w ++ [mkEntry (ObjectExists key) (true, None)])
    by reflexivity.
  clearbody w1.
  destruct (issues_run_from env _ (load json_Unmarshal forceAudio key) w1
              (load_quiet json_Unmarshal forceAudio key)) as (l1 & Htr2 & Hq1).
  unfold after in Htr2.
  destruct (run (handle env) (load json_Unmarshal forceAudio key) w1)
    as [[[[content podcastContent] introContent] |] w2]; cbn [fst snd] in *.
  - destruct (issues_run_from env _ _ w2
                (synthesize_quiet json_Marshal date key content
                                  podcastContent introContent)) as (l2 & Htr3 & Hq2).
    rewrite Htr3, Htr2, Htr1, <- !app_assoc, drop_app_length.
    unfold calls in *. rewrite !map_app, !Forall_app.
    split; [repeat constructor | split; assumption].
  - rewrite Htr2, Htr1, <- !app_assoc, drop_app_length.
    unfold calls in *. rewrite !map_app, !Forall_app.
    split; [repeat constructor | assumption].
Qed.

Lemma stored_texts_are_reused_witness :
  store artifact.world !! contentKeyOf examples.server artifact.date
  = Some artifact.stored ∧
  artifact.stored ≠ "" ∧
  fault examples.env (length (trace artifact.world)) = NoFault ∧
  let w' := after examples.env
                  (processHackerNews artifact.Marshal artifact.Unmarshal
                                     examples.server artifact.date 10 false true)
                  artifact.world in
  Forall (fun c => stages.isFetchOrGenerate c = false)
         (calls (added artifact.world w')).
Proof.
  assert (H1 : store artifact.world !! contentKeyOf examples.server artifact.date
               = Some artifact.stored) by (apply lookup_singleton_eq).
  assert (H2 : artifact.stored ≠ "") by discriminate.
  assert (H3 : fault examples.env (length (trace artifact.world)) = NoFault)
    by reflexivity.
  repeat (split; [assumption |]).
  exact (stored_texts_are_reused artifact.Marshal artifact.Unmarshal
           examples.server examples.env artifact.date 10 true artifact.world
           artifact.stored H1 H2 H3).
Defined.

(** ** Escaping and the synthesis request *)

Lemma mapBytes_app (f : ascii → string) (x y : string) :
  tts.mapBytes f (x +:+ y) = tts.mapBytes f x +:+ tts.mapBytes f y.
Proof.
  induction x as [| c x IH]; [reflexivity |].
  rewrite string_app_cons. cbn [tts.mapBytes]. now rewrite IH, string_app_assoc.
Qed.

Lemma mapBytes_compose (f g : ascii → string) (s : string) :
  tts.mapBytes f (tts.mapBytes g s) = tts.mapBytes (fun c => tts.mapBytes f (g c)) s.
Proof.
  induction s as [| c s IH]; [reflexivity |].
  cbn [tts.mapBytes]. now rewrite mapBytes_app, IH.
Qed.

Lemma mapBytes_ext (f g : ascii → string) (s : string) :
  (∀ c, f c = g c) → tts.mapBytes f s = tts.mapBytes g s.
Proof.
  intros H. induction s as [| c s IH]; [reflexivity |].
  cbn [tts.mapBytes]. now rewrite H, IH.
Qed.

(** Replacing a single byte is a byte-wise map. *)
Lemma ReplaceAll_byte (s : string) (a : ascii) (new : string) :
  new ≠ String a "" →
  strings.ReplaceAll s (String a "") new
  = tts.mapBytes (fun c => if Ascii.eqb c a then new else String c "") s.
Proof.
  intros Hne. unfold strings.ReplaceAll.
  destruct (String.eqb_spec (String a "") new) as [E | _]; [congruence |].
  cbn [String.eqb].
  induction s as [| c s IH]; [reflexivity |].
  cbn [strings.replaceFrom tts.mapBytes String.prefix String.length Nat.sub].
  rewrite Ascii.eqb_sym.
  destruct (ascii_dec a c) as [-> | Hac].
  - rewrite Ascii.eqb_refl. destruct s; now rewrite IH.
  - destruct (Ascii.eqb_spec a c) as [E | _]; [contradiction |].
    now rewrite IH.
Qed.

(** [escapeXML] replaces every byte by its entity. *)
Lemma escapeXML_bytes (text : string) :
  tts.escapeXML text = tts.mapBytes tts.entity text.
Proof.
  unfold tts.escapeXML, tts.quote. cbn zeta.
  rewrite !ReplaceAll_byte by discriminate.
  rewrite !mapBytes_compose. apply mapBytes_ext. intros c.
  destruct c as [[] [] [] [] [] [] [] []]; reflexivity.
Qed.

Lemma escapeXML_cmd_bytes (text : string) :
  tts.escapeXML_cmd text = tts.mapBytes tts.entity text.
Proof.
  unfold tts.escapeXML_cmd, tts.quote. cbn zeta.
  rewrite !ReplaceAll_byte by discriminate.
  rewrite !mapBytes_compose. apply mapBytes_ext. intros c.
  destruct c as [[] [] [] [] [] [] [] []]; reflexivity.
Qed.

Lemma list_ascii_of_string_app (x y : string) :
  list_ascii_of_string (x +:+ y) = list_ascii_of_string x ++ list_ascii_of_string y.
Proof.
  induction x as [| c x IH]; [reflexivity |].
  rewrite string_app_cons. cbn [list_ascii_of_string app]. now rewrite IH.
Qed.

Lemma entity_no_markup (c : ascii) :
  forallb (fun b => negb (tts.isMarkup b)) (list_ascii_of_string (tts.entity c)) = true.
Proof. destruct c as [[] [] [] [] [] [] [] []]; reflexivity. Qed.

(** X17.  The escaped text contains none of the bytes [<], [>], the double
    quote and the apostrophe, whatever the text. *)
Theorem escapeXML_no_markup (text : string) :
  Forall (fun b : ascii => b ≠ "<"%char ∧ b ≠ ">"%char ∧ b ≠ "034"%char ∧ b ≠ "'"%char)
         (list_ascii_of_string (tts.escapeXML text)).
Proof.
  rewrite escapeXML_bytes. induction text as [| c text IH]; [constructor |].
  cbn [tts.mapBytes]. rewrite list_ascii_of_string_app. apply Forall_app.
  split; [| exact IH].
  pose proof (entity_no_markup c) as H. rewrite forallb_forall in H.
  apply List.Forall_forall. intros b Hb. specialize (H b Hb).
  unfold tts.isMarkup in H.
  repeat split; intros ->; discriminate H.
Qed.

(** X19.  The copy of [escapeXML] in the test program, which replaces the
    apostrophe before the double quote, computes the same text. *)
Theorem escapeXML_cmd_agrees (text : string) :
  tts.escapeXML_cmd text = tts.escapeXML text.
Proof. now rewrite escapeXML_cmd_bytes, escapeXML_bytes. Qed.

Lemma entity_cases (c : ascii) :
  (tts.isSpecial c = false ∧ tts.entity c = String c "")
  ∨ (c = "&"%char ∧ tts.entity c = "&amp;")
  ∨ (c = "<"%char ∧ tts.entity c = "&lt;")
  ∨ (c = ">"%char ∧ tts.entity c = "&gt;")
  ∨ (c = "034"%char ∧ tts.entity c = "&quot;")
  ∨ (c = "'"%char ∧ tts.entity c = "&apos;").
Proof.
  unfold tts.entity, tts.isSpecial.
  destruct (Ascii.eqb_spec c "&"); [right; left; auto |].
  destruct (Ascii.eqb_spec c "<"); [right; right; left; auto |].
  destruct (Ascii.eqb_spec c ">"); [right; right; right; left; auto |].
  destruct (Ascii.eqb_spec c "034"); [right; right; right; right; left; auto |].
  destruct (Ascii.eqb_spec c "'"); [right; right; right; right; right; auto |].
  left. auto.
Qed.

Lemma mapBytes_entity_inj (s t : string) :
  tts.mapBytes tts.entity s = tts.mapBytes tts.entity t → s = t.
Proof.
  revert t. induction s as [| c s IH]; intros [| d t] H.
  - reflexivity.
  - exfalso. cbn [tts.mapBytes] in H.
    destruct (entity_cases d) as [[_ E] | [[_ E] | [[_ E] | [[_ E] | [[_ E] | [_ E]]]]]];
      rewrite E in H; discriminate H.
  - exfalso. cbn [tts.mapBytes] in H.
    destruct (entity_cases c) as [[_ E] | [[_ E] | [[_ E] | [[_ E] | [[_ E] | [_ E]]]]]];
      rewrite E in H; discriminate H.
  - cbn [tts.mapBytes] in H.
    destruct (entity_cases c) as [[Sc Ec] | [[-> Ec] | [[-> Ec] | [[-> Ec] | [[-> Ec] | [-> Ec]]]]]];
    destruct (entity_cases d) as [[Sd Ed] | [[-> Ed] | [[-> Ed] | [[-> Ed] | [[-> Ed] | [-> Ed]]]]]];
      rewrite ?Ec, ?Ed in H;
      rewrite ?string_app_cons, ?string_app_nil_l in H;
      try discriminate H;
      try (injection H as H; f_equal; now apply IH);
      try (injection H as -> H; f_equal; now apply IH);
      try (injection H as -> _; discriminate Sc);
      try (injection H as <- _; discriminate Sd).
Qed.

(** X18.  Two texts with the same escaped form are the same text. *)
Theorem escapeXML_injective (s t : string) :
  tts.escapeXML s = tts.escapeXML t → s = t.
Proof. rewrite !escapeXML_bytes. apply mapBytes_entity_inj. Qed.

Lemma escapeXML_injective_witness :
  tts.escapeXML "a<b" = tts.escapeXML ("a" +:+ "<b") ∧ "a<b" = "a" +:+ "<b".
Proof.
  assert (H : tts.escapeXML "a<b" = tts.escapeXML ("a" +:+ "<b")) by reflexivity.
  split; [exact H |].
  exact (escapeXML_injective "a<b" ("a" +:+ "<b") H).
Defined.

Lemma countByte_app (b : ascii) (x y : string) :
  tts.countByte b (x +:+ y) = (tts.countByte b x + tts.countByte b y)%nat.
Proof.
  induction x as [| c x IH]; [reflexivity |].
  rewrite string_app_cons. cbn [tts.countByte]. rewrite IH. lia.
Qed.

Lemma countByte_escapeXML (b : ascii) (text : string) :
  tts.isMarkup b = true → tts.countByte b (tts.escapeXML text) = 0%nat.
Proof.
  intros Hb. rewrite escapeXML_bytes.
  induction text as [| c text IH]; [reflexivity |].
  cbn [tts.mapBytes]. rewrite countByte_app, IH, Nat.add_0_r.
  unfold tts.isMarkup in Hb.
  destruct (Ascii.eqb_spec b "<") as [-> |];
    [destruct c as [[] [] [] [] [] [] [] []]; reflexivity |].
  destruct (Ascii.eqb_spec b ">") as [-> |];
    [destruct c as [[] [] [] [] [] [] [] []]; reflexivity |].
  destruct (Ascii.eqb_spec b "034") as [-> |];
    [destruct c as [[] [] [] [] [] [] [] []]; reflexivity |].
  destruct (Ascii.eqb_spec b "'") as [-> |];
    [destruct c as [[] [] [] [] [] [] [] []]; reflexivity |].
  discriminate Hb.
Qed.

(** X20.  The request of the Edge synthesizer.  For a speaker without a voice
    it returns the error of [GetSpeakerVoice] and sends nothing.
    Otherwise it sends one POST whose body has the markup of the template
    and no more: six opening and six closing angle brackets and twelve
    double quotes, whatever the text. *)
Theorem EdgeTTS_request (o : Oracle tts.Call tts.Resp) (e : tts.EdgeTTS)
        (text speaker : string) :
  let r := fst (exec o (tts.SynthesizeSpeech e text speaker)) in
  let tr := snd (exec o (tts.SynthesizeSpeech e text speaker)) in
  match tts.GetSpeakerVoice "edge" speaker with
  | Err err => r = Err err ∧ tr = []
  | Ok voiceID =>
    calls tr = [tts.HttpPost tts.baseURL (tts.ssml voiceID text) (tts.header e)] ∧
    tts.countByte "<" (tts.ssml voiceID text) = 6%nat ∧
    tts.countByte ">" (tts.ssml voiceID text) = 6%nat ∧
    tts.countByte "034" (tts.ssml voiceID text) = 12%nat ∧
    tts.countByte "'" (tts.ssml voiceID text) = 0%nat
  end.
Proof.
  unfold exec, tts.SynthesizeSpeech.
  destruct (tts.GetSpeakerVoice "edge" speaker) as [voiceID | err] eqn:Ev;
    [| split; reflexivity].
  assert (Hv : voiceID = "zh-CN-YunxiNeural" ∨ voiceID = "zh-CN-XiaoxiaoNeural").
  { unfold tts.GetSpeakerVoice in Ev.
    destruct (negb _ && negb _); [discriminate |]. cbn in Ev.
    destruct (String.eqb speaker "男"); injection Ev as <-; auto. }
  split.
  { unfold tts.directEdgeTTS.
    cbn [run bind mbind mret Prog_bind Prog_ret call oracleHandler fst snd length].
    destruct (o 0%nat _) as [err | err | StatusCode [audio | err]]; cbn;
      try destruct (negb _); reflexivity. }
  unfold tts.ssml.
  repeat split; rewrite !countByte_app, countByte_escapeXML by reflexivity;
    destruct Hv as [-> | ->]; reflexivity.
Qed.

Lemma requested_speak (cs : list Call) :
  Forall keys.speaks cs →
  Forall (fun '(_, speaker) => speaker = "男" ∨ speaker = "女") (turns.requested cs).
Proof.
  induction 1 as [| c cs Hc _ IH]; [constructor |].
  unfold turns.requested in *. cbn [flat_map].
  destruct c; cbn [app]; try exact IH.
  constructor; [exact Hc | exact IH].
Qed.

(** X7.  Every synthesis request of a run, for a turn of the script or for the
    intro, names a speaker for which [GetSpeakerVoice] has a voice,
    whatever the provider. *)
Theorem run_speakers_have_voices
        (json_Marshal : Content → result string)
        (json_Unmarshal : string → result Content)
        (s : Server) (env : Env) (date : string) (maxItems : Z)
        (force forceAudio : bool) (w : World) (provider : string) :
  let w' := after env (processHackerNews json_Marshal json_Unmarshal s date maxItems
                                         force forceAudio) w in
  Forall (fun '(_, speaker) => isOk (tts.GetSpeakerVoice provider speaker) = true)
         (turns.requested (calls (added w w'))).
Proof.
  intros w'. subst w'.
  pose proof (issues_run env _ _ w
                (processHackerNews_issues json_Marshal json_Unmarshal s date maxItems
                                          force forceAudio)) as H.
  eapply Forall_impl in H; [| intros c Hc; exact (proj2 Hc)].
  apply requested_speak in H.
  eapply Forall_impl; [exact H |].
  intros [text speaker] [-> | ->]; unfold tts.GetSpeakerVoice; cbn;
    destruct (String.eqb provider "edge"), (String.eqb provider "aliyun"); reflexivity.
Qed.

(** [GetSpeakerVoice] has a voice exactly for the speakers 男 and 女; every
    provider other than aliyun gets the voices of edge. *)
Theorem GetSpeakerVoice_voices (provider speaker : string) :
  isOk (tts.GetSpeakerVoice provider speaker)
  = String.eqb speaker "男" || String.eqb speaker "女" ∧
  tts.GetSpeakerVoice provider "男"
  = Ok (if String.eqb provider "aliyun" then "aixia" else "zh-CN-YunxiNeural") ∧
  tts.GetSpeakerVoice provider "女"
  = Ok (if String.eqb provider "aliyun" then "xiaoyun" else "zh-CN-XiaoxiaoNeural").
Proof.
  unfold tts.GetSpeakerVoice. repeat split.
  - destruct (String.eqb speaker "男"), (String.eqb speaker "女"); cbn;
      destruct (String.eqb provider "edge"), (String.eqb provider "aliyun"); reflexivity.
  - cbn. destruct (String.eqb_spec provider "edge") as [-> |]; [reflexivity |].
    destruct (String.eqb provider "aliyun"); reflexivity.
  - cbn. destruct (String.eqb_spec provider "edge") as [-> |]; [reflexivity |].
    destruct (String.eqb provider "aliyun"); reflexivity.
Qed.

(** ** The text generator and the source fetcher *)

Lemma Join_cons_app (a c sep : string) (rest : list string) :
  strings.Join ((a +:+ sep +:+ c) :: rest) sep = a +:+ sep +:+ strings.Join (c :: rest) sep.
Proof.
  destruct rest as [| d rest]; [reflexivity |].
  cbn [strings.Join]. now rewrite !string_app_assoc.
Qed.

Lemma JoinContents_from_Join (acc : string) (rest : list string) :
  ai.JoinContents_from acc rest = strings.Join (acc :: rest) separator.
Proof.
  revert acc. induction rest as [| c rest IH]; intros acc; [reflexivity |].
  cbn [ai.JoinContents_from]. rewrite IH, Join_cons_app. reflexivity.
Qed.

(** X12.  [JoinContents] is [strings.Join] with the delimiter of the package:
    the loop that appends delimiter and text to the first text gives the
    texts with the delimiter between them, and the empty string for no
    text. *)
Theorem JoinContents_is_Join (contents : list string) :
  ai.JoinContents contents = strings.Join contents separator.
Proof.
  destruct contents as [| c0 rest]; [reflexivity |].
  apply JoinContents_from_Join.
Qed.

(** X11.  The story content that [GenerateStoryText] sends is the content cut
    to [maxLength] bytes, where [maxLength] is [maxTokens * 4] as an [int]:
    a prefix of the content, as long as the shorter of the two; the model
    name, the prompt and the token limit of the request are those of the
    client.  When [maxLength] is negative the cut panics and no request is
    sent.  For a token budget from 0 to a quarter of the largest [int],
    [maxLength] is [4 * maxTokens]. *)
Theorem GenerateStoryText_cuts_content (c : ai.Client) (storyContent : string) :
  let maxLength := wrapInt (ai.maxTokens c * 4) in
  match ai.storyRequest c storyContent with
  | None => maxLength < 0 ∧ ai.GenerateStoryText c storyContent = mret None
  | Some req =>
    0 ≤ maxLength ∧
    ai.GenerateStoryText c storyContent = (r ← ai.generateText req; mret (Some r)) ∧
    ∃ sent : string,
      req = {| ai.Model := ai.config_Model c;
               ai.Messages := ai.systemUser (ai.SummarizeStoryPrompt c) sent;
               ai.MaxTokens := ai.maxTokens c |} ∧
      strings.HasPrefix storyContent sent = true ∧
      len sent = Z.min (len storyContent) maxLength
  end ∧
  (0 ≤ ai.maxTokens c → ai.maxTokens c * 4 ≤ maxInt →
   maxLength = ai.maxTokens c * 4).
Proof.
  cbn zeta. split.
  2: { intros H0 Hmax. apply wrapInt_small. unfold minInt. lia. }
  unfold ai.GenerateStoryText, ai.storyRequest. cbn zeta.
  pose proof (cut_cases storyContent (wrapInt (ai.maxTokens c * 4))) as H.
  destruct (if wrapInt (ai.maxTokens c * 4) <? len storyContent then _ else _)
    as [sent |]; cbn [mbind option_bind].
  - assert (Hlen : 0 ≤ len storyContent) by (unfold len; lia).
    split; [lia |]. split; [reflexivity |].
    exists sent. split; [reflexivity |].
    destruct H as [(H0 & Hpre & Hl) | (Hle & ->)].
    + split; [exact Hpre | exact Hl].
    + split; [apply prefix_refl | lia].
  - split; [exact H | reflexivity].
Qed.

(** A budget of one token cuts the content to four bytes; a budget of
    [2^62] tokens makes [maxLength] wrap around to 0, so that nothing of
    the content is sent; a negative budget makes the cut panic. *)
Lemma GenerateStoryText_cuts_content_witness :
  let client maxTokens :=
    {| ai.config_Model := "deepseek-chat"; ai.maxTokens := maxTokens;
       ai.SummarizeStoryPrompt := "summarize"; ai.SummarizePodcastPrompt := "";
       ai.SummarizeBlogPrompt := ""; ai.IntroPrompt := "" |} in
  (∃ req sent,
     ai.storyRequest (client 1) "<title>" = Some req ∧
     ai.Messages req = ai.systemUser "summarize" sent ∧
     strings.HasPrefix "<title>" sent = true ∧
     len sent = 4) ∧
  ai.Messages <$> ai.storyRequest (client 4611686018427387904) "<title>"
  = Some (ai.systemUser "summarize" "") ∧
  ai.storyRequest (client (-1)) "<title>" = None.
Proof.
  intros client. split; [| split; reflexivity].
  pose proof (GenerateStoryText_cuts_content (client 1) "<title>") as [H _].
  cbn zeta in H.
  destruct (ai.storyRequest (client 1) "<title>") as [req |] eqn:E;
    [| discriminate E].
  destruct H as (_ & _ & sent & -> & Hpre & Hlen).
  eexists _, sent. split; [reflexivity |]. split; [reflexivity |].
  split; [exact Hpre | rewrite Hlen; reflexivity].
Defined.

Lemma storyOf_wellformed (a : crawler.Athing) :
  Forall (fun story =>
            models.ID story ≠ "" ∧ models.URL story ≠ "" ∧
            models.HackerNewsURL story
            = "https://news.ycombinator.com/item?id=" +:+ models.ID story ∧
            models.Content story = "" ∧ models.Comments story = "")
         (crawler.storyOf a).
Proof.
  unfold crawler.storyOf.
  destruct (String.eqb_spec (crawler.id a) ""); [constructor |].
  destruct (String.eqb_spec (crawler.url a) ""); [constructor |].
  cbn. constructor; [| constructor]. cbn. auto.
Qed.

(** X13.  The stories that [GetTopStories] returns for a page, for a
    non-negative [maxItems]: the first [maxItems] of the elements that have
    an id and a link, in the order of the page; each with a non-empty
    [ID] and [URL] and with the discussion URL of its id.  For a negative
    [maxItems] the slice expression panics, whatever the page holds. *)
Theorem GetTopStories_stories (maxItems : Z) (athings : list crawler.Athing) :
  match crawler.GetTopStories maxItems (crawler.Page athings) with
  | Some (Ok stories) =>
    0 ≤ maxItems ∧
    stories = take (Z.to_nat maxItems) (flat_map crawler.storyOf athings) ∧
    Z.of_nat (length stories) ≤ maxItems ∧
    Forall (fun story =>
              models.ID story ≠ "" ∧ models.URL story ≠ "" ∧
              models.HackerNewsURL story
              = "https://news.ycombinator.com/item?id=" +:+ models.ID story ∧
              models.Content story = "" ∧ models.Comments story = "")
           stories
  | Some (Err _) => False
  | None => maxItems < 0
  end.
Proof.
  assert (Hall : Forall (fun story =>
              models.ID story ≠ "" ∧ models.URL story ≠ "" ∧
              models.HackerNewsURL story
              = "https://news.ycombinator.com/item?id=" +:+ models.ID story ∧
              models.Content story = "" ∧ models.Comments story = "")
           (flat_map crawler.storyOf athings)).
  { induction athings as [| a athings IH]; [constructor |].
    cbn [flat_map]. apply Forall_app. split; [apply storyOf_wellformed | exact IH]. }
  unfold crawler.GetTopStories. cbn zeta.
  set (stories := flat_map crawler.storyOf athings) in *.
  destruct (maxItems <? Z.of_nat (length stories)) eqn:E.
  - apply Z.ltb_lt in E. destruct (maxItems <? 0) eqn:E0.
    + apply Z.ltb_lt in E0. exact E0.
    + apply Z.ltb_ge in E0. split; [exact E0 |]. split; [reflexivity |].
      split; [rewrite length_take; lia |]. now apply Forall_take.
  - apply Z.ltb_ge in E. split; [lia |].
    split; [symmetry; apply take_ge; lia |]. split; [exact E | exact Hall].
Qed.

Lemma capped_length (text cut : string) (maxTokens : Z) :
  0 ≤ maxTokens → crawler.capped text maxTokens = Some cut →
  len cut ≤ maxTokens * 4.
Proof.
  intros Hpos Hcut. unfold crawler.capped in Hcut.
  pose proof (cut_cases text (wrapInt (maxTokens * 4))) as H.
  pose proof (wrapInt_le (maxTokens * 4)) as Hle.
  rewrite Hcut in H. destruct H as [(H0 & _ & Hl) | (Hl & ->)]; lia.
Qed.

(** X14.  The text that [GetStoryContent] returns is bounded by the token
    budget: at most the title, [4 * maxTokens] bytes of the article,
    [4 * maxTokens] bytes of the comments and 75 bytes of tags and
    delimiters. *)
Theorem GetStoryContent_size (o : Oracle crawler.Call crawler.Resp)
        (story : models.Story) (maxTokens : Z) (text : string) :
  0 ≤ maxTokens →
  fst (exec o (crawler.GetStoryContent story maxTokens)) = Some (Ok text) →
  len text ≤ len (models.Title story) + 8 * maxTokens + 75.
Proof.
  intros Hpos.
  assert (Hsize : ∀ article comments,
             crawler.storyText story article comments maxTokens = Some text →
             len text ≤ len (models.Title story) + 8 * maxTokens + 75).
  { intros article comments. unfold crawler.storyText. cbn zeta.
    pose proof (λ cut, capped_length article cut maxTokens Hpos) as Ha.
    pose proof (λ cut, capped_length comments cut maxTokens Hpos) as Hc.
    destruct (crawler.capped article maxTokens) as [a |];
      [specialize (Ha a eq_refl) | clear Ha];
      (destruct (crawler.capped comments maxTokens) as [c |];
       [specialize (Hc c eq_refl) | clear Hc]);
      unfold len in *;
      destruct (String.eqb (models.Title story) ""), (String.eqb article ""),
        (String.eqb comments "");
      cbn [negb app strings.Join mbind option_bind]; try discriminate;
      intros [= <-]; unfold separator, LF;
      rewrite ?string_length_app; cbn [String.length]; lia. }
  destruct (GetStoryContent_result o story maxTokens)
    as [(err & ->) | (article & comments & ->)]; [discriminate |].
  destruct (crawler.storyText story article comments maxTokens) as [t |] eqn:E;
    [| discriminate].
  cbn [fmap option_fmap option_map]. intros [= <-]. now apply (Hsize article comments).
Qed.

Lemma GetStoryContent_size_witness :
  0 ≤ 4096 ∧
  fst (exec fetches.unreachable (crawler.GetStoryContent fetches.story 4096))
  = Some (Ok ("<title>" +:+ LF +:+ "t" +:+ LF +:+ "</title>" +:+ separator
              +:+ "<comments>" +:+ LF +:+ "<tr></tr>" +:+ LF +:+ "</comments>")) ∧
  len ("<title>" +:+ LF +:+ "t" +:+ LF +:+ "</title>" +:+ separator
       +:+ "<comments>" +:+ LF +:+ "<tr></tr>" +:+ LF +:+ "</comments>")
  ≤ len (models.Title fetches.story) + 8 * 4096 + 75.
Proof.
  assert (H1 : 0 ≤ 4096) by lia.
  assert (H2 : fst (exec fetches.unreachable (crawler.GetStoryContent fetches.story 4096))
               = Some (Ok ("<title>" +:+ LF +:+ "t" +:+ LF +:+ "</title>" +:+ separator
                           +:+ "<comments>" +:+ LF +:+ "<tr></tr>" +:+ LF
                           +:+ "</comments>"))) by reflexivity.
  repeat (split; [assumption |]).
  exact (GetStoryContent_size fetches.unreachable fetches.story 4096 _ H1 H2).
Defined.

(** X15.  [GetStoryContent] sends exactly two requests, whatever comes back:
    one for the article and one for the comment page of the story.  A
    failure of one of them does not keep the other from being sent, and
    none is repeated. *)
Theorem GetStoryContent_requests (o : Oracle crawler.Call crawler.Resp)
        (story : models.Story) (maxTokens : Z) :
  let tr := snd (exec o (crawler.GetStoryContent story maxTokens)) in
  List.filter crawler.isHttpGet (calls tr)
  ≡ₚ [crawler.HttpGet (models.URL story);
      crawler.HttpGet ("https://news.ycombinator.com/item?id=" +:+ models.ID story)].
Proof.
  intros tr. subst tr. unfold exec, crawler.GetStoryContent.
  unfold crawler.fetchArticle, crawler.fetchComments.
  cbn [run bind mbind mret Prog_bind Prog_ret call oracleHandler fst snd length app].
  destruct (o 0%nat _) as [ea | ea | codea [ba | ea]];
    [ | | destruct (negb (codea =? crawler.StatusOK)) .. ];
    cbn [run bind mbind mret Prog_bind Prog_ret call oracleHandler fst snd length app];
    (destruct (o 1%nat _) as [ec | ec | codec [bc | ec]];
     [ | | destruct (negb (codec =? crawler.StatusOK)) .. ];
     cbn [run bind mbind mret Prog_bind Prog_ret call oracleHandler fst snd length app];
     try destruct (o 2%nat (crawler.CommentTree _));
     cbn [run bind mbind mret Prog_bind Prog_ret call oracleHandler fst snd length app];
     repeat match goal with
            | |- context [crawler.sent ?p ?r] => destruct (crawler.sent p r)
            | |- context [if ?b then _ else _] => destruct b
            | |- context [match ?l with [] => _ | _ :: _ => _ end] => destruct l
            end;
     reflexivity).
Qed.

(** ** The object store *)

(** X16.  Upload, then read back.  When the store raises no fault, [UploadFile]
    succeeds even if the URL cannot be signed (it then returns the path
    [/bucket/object]); a following [DownloadFile] returns the uploaded
    data; and a following [ObjectExists] reports the object exactly when
    the data is not empty. *)
Theorem upload_then_read (env : Env) (w : World)
        (objectName data contentType : string) :
  let n := length (trace w) in
  fault env n = NoFault →
  fault env (S n) = NoFault →
  fault env (S (S n)) = NoFault →
  let up := handle env (UploadFile objectName data contentType) w in
  let down := handle env (DownloadFile objectName) (snd up) in
  let ex := handle env (ObjectExists objectName) (snd down) in
  fst up = Ok (match presigned env n with
               | Ok presignedURL => presignedURL
               | Err _ => "/" +:+ bucketName env +:+ "/" +:+ objectName
               end) ∧
  fst down = Ok data ∧
  fst ex = (0 <? len data, None).
Proof.
  intros n H0 H1 H2. subst n.
  cbn [handle answer fst snd].
  unfold getObject, putObject. cbn [trace record setStore store].
  rewrite !length_app, !Nat.add_1_r. cbn [length].
  rewrite H0, H1, H2. cbn [fst snd]. rewrite lookup_insert_eq.
  cbn [storage.UploadFile storage.DownloadFile storage.ObjectExists].
  destruct (presigned env (length (trace w))), (0 <? len data); repeat split.
Qed.

Lemma upload_then_read_witness :
  fault examples.env (length (trace examples.world)) = NoFault ∧
  fault examples.env (S (length (trace examples.world))) = NoFault ∧
  fault examples.env (S (S (length (trace examples.world)))) = NoFault ∧
  let up := handle examples.env (UploadFile "audio/x.mp3" "" "audio/mpeg")
                   examples.world in
  let down := handle examples.env (DownloadFile "audio/x.mp3") (snd up) in
  let ex := handle examples.env (ObjectExists "audio/x.mp3") (snd down) in
  fst up = Ok (match presigned examples.env (length (trace examples.world)) with
               | Ok presignedURL => presignedURL
               | Err _ => "/" +:+ bucketName examples.env +:+ "/" +:+ "audio/x.mp3"
               end) ∧
  fst down = Ok "" ∧
  fst ex = (0 <? len "", None).
Proof.
  assert (H0 : fault examples.env (length (trace examples.world)) = NoFault)
    by reflexivity.
  assert (H1 : fault examples.env (S (length (trace examples.world))) = NoFault)
    by reflexivity.
  assert (H2 : fault examples.env (S (S (length (trace examples.world)))) = NoFault)
    by reflexivity.
  repeat (split; [assumption |]).
  exact (upload_then_read examples.env examples.world "audio/x.mp3" "" "audio/mpeg"
           H0 H1 H2).
Defined.

(** ** The configuration *)

Lemma getEnvOrDefault_nonempty (environ : config.Environ) (key defaultValue : string) :
  defaultValue ≠ "" → config.getEnvOrDefault environ key defaultValue ≠ "".
Proof.
  intros Hd. unfold config.getEnvOrDefault. cbn zeta.
  destruct (String.eqb_spec (config.Getenv environ key) ""); assumption.
Qed.

(** X21.  Whatever the environment holds, the settings that have a non-empty
    default are never empty after [LoadConfig]: a variable set to the
    empty string counts as not set. *)
Theorem LoadConfig_defaults_fill (environ : config.Environ) :
  let cfg := config.LoadConfig environ in
  config.Port (config.Server cfg) ≠ "" ∧
  config.Env (config.Server cfg) ≠ "" ∧
  config.BaseURL (config.OpenAI cfg) ≠ "" ∧
  config.Model (config.OpenAI cfg) ≠ "" ∧
  config.Endpoint (config.MinIO cfg) ≠ "" ∧
  config.BucketName (config.MinIO cfg) ≠ "" ∧
  config.AccessKeyID (config.MinIO cfg) ≠ "" ∧
  config.SecretAccessKey (config.MinIO cfg) ≠ "" ∧
  config.Provider (config.TTS cfg) ≠ "" ∧
  config.OutputFormat (config.EdgeTTS (config.TTS cfg)) ≠ "" ∧
  config.Region (config.AliyunTTS (config.TTS cfg)) ≠ "" ∧
  config.VoiceID (config.AliyunTTS (config.TTS cfg)) ≠ "".
Proof.
  cbn. repeat split; apply getEnvOrDefault_nonempty; discriminate.
Qed.

Lemma digitOf_pretty (d : N) :
  (d < 10)%N → strconv.digitOf (pretty_N_char d) = Some (Z.of_N d).
Proof.
  intros Hd.
  assert (d = 0 ∨ d = 1 ∨ d = 2 ∨ d = 3 ∨ d = 4 ∨ d = 5 ∨ d = 6 ∨ d = 7 ∨ d = 8 ∨ d = 9)%N
    as H by lia.
  repeat destruct H as [-> | H]; try subst d; reflexivity.
Qed.

Lemma fastDigits_pretty (x : N) (s : string) :
  strconv.fastDigits (pretty_N_go x s) 0 = strconv.fastDigits s (Z.of_N x).
Proof.
  revert s. induction (N.lt_wf_0 x) as [x _ IH]. intros s.
  destruct (decide (x = 0%N)) as [-> | Hx]; [reflexivity |].
  rewrite pretty_N_go_step by lia.
  rewrite IH by (apply N.div_lt; lia).
  cbn [strconv.fastDigits]. rewrite digitOf_pretty by (apply N.mod_lt; lia).
  f_equal. pose proof (N.div_mod x 10 ltac:(lia)) as Hdm.
  set (q := (x `div` 10)%N) in *. set (r := (x `mod` 10)%N) in *. lia.
Qed.

Lemma uintDigits_pretty (x : N) (s : string) :
  Z.of_N x ≤ strconv.maxUint64 →
  strconv.uintDigits (pretty_N_go x s) 0 = strconv.uintDigits s (Z.of_N x).
Proof.
  revert s. induction (N.lt_wf_0 x) as [x _ IH]. intros s Hmax.
  destruct (decide (x = 0%N)) as [-> | Hx]; [reflexivity |].
  pose proof (N.div_mod x 10 ltac:(lia)) as Hdm.
  pose proof (N.mod_lt x 10 ltac:(lia)) as Hm.
  unfold strconv.maxUint64 in *.
  change (2 ^ 64 - 1) with 18446744073709551615 in *.
  rewrite pretty_N_go_step by lia.
  assert (Hq : (x `div` 10 < x)%N) by (apply N.div_lt; lia).
  set (q := (x `div` 10)%N) in *. set (r := (x `mod` 10)%N) in *.
  rewrite IH; [| exact Hq | lia].
  cbn [strconv.uintDigits]. rewrite digitOf_pretty by exact Hm. cbn zeta.
  unfold strconv.maxUint64.
  change (2 ^ 64 - 1) with 18446744073709551615.
  replace (Z.of_N q * 10 + Z.of_N r) with (Z.of_N x) by lia.
  assert (E1 : (18446744073709551615 / 10 + 1 <=? Z.of_N q) = false).
  { apply Z.leb_gt. change (18446744073709551615 / 10 + 1) with 1844674407370955162. lia. }
  assert (E2 : (18446744073709551615 <? Z.of_N x) = false) by (apply Z.ltb_ge; lia).
  now rewrite E1, E2.
Qed.

(** The first byte of a positive number written in decimal is a digit. *)
Lemma pretty_N_go_head (x : N) (s : string) :
  (0 < x)%N →
  ∃ d t, (d < 10)%N ∧ pretty_N_go x s = String (pretty_N_char d) t.
Proof.
  revert s. induction (N.lt_wf_0 x) as [x _ IH]. intros s Hx.
  rewrite pretty_N_go_step by exact Hx.
  destruct (decide (x `div` 10 = 0)%N) as [E | E].
  - rewrite E, pretty_N_go_0. eexists _, _. split; [| reflexivity].
    apply N.mod_lt. lia.
  - apply IH; [apply N.div_lt; lia | now apply N.neq_0_lt_0].
Qed.

Lemma digit_not_sign (d : N) :
  (d < 10)%N →
  Ascii.eqb (pretty_N_char d) "-" = false ∧ Ascii.eqb (pretty_N_char d) "+" = false.
Proof.
  intros Hd.
  assert (d = 0 ∨ d = 1 ∨ d = 2 ∨ d = 3 ∨ d = 4 ∨ d = 5 ∨ d = 6 ∨ d = 7 ∨ d = 8 ∨ d = 9)%N
    as H by lia.
  repeat destruct H as [-> | H]; try subst d; split; reflexivity.
Qed.

Lemma Atoi_of_digits (c : ascii) (t : string) (v : Z) (neg : bool) :
  Ascii.eqb c "-" = false → Ascii.eqb c "+" = false →
  strconv.fastDigits (String c t) 0 = Some v →
  strconv.uintDigits (String c t) 0 = strconv.Num v →
  v ≤ (if neg then 9223372036854775808 else 9223372036854775807) →
  strconv.Atoi ((if neg then "-" else "") +:+ String c t)
  = strconv.Num (if neg then - v else v).
Proof.
  intros Hminus Hplus Hfast Hslow Hrange.
  unfold strconv.Atoi. cbn zeta. destruct neg.
  - rewrite string_app_cons, string_app_nil_l.
    destruct (_ && _).
    + change (Ascii.eqb "-" "-") with true. cbn [orb String.length Nat.ltb Nat.leb].
      now rewrite Hfast.
    + unfold strconv.ParseInt. change (Ascii.eqb "-" "-") with true.
      change (Ascii.eqb "-" "+") with false. cbn [orb negb andb].
      unfold strconv.ParseUint. cbn [String.eqb]. rewrite Hslow.
      change (2 ^ 63) with 9223372036854775808.
      destruct (9223372036854775808 <? v) eqn:E; [apply Z.ltb_lt in E; lia | reflexivity].
  - rewrite string_app_nil_l.
    destruct (_ && _).
    + rewrite Hminus, Hplus. cbn [orb String.length Nat.ltb Nat.leb].
      now rewrite Hfast.
    + unfold strconv.ParseInt. rewrite Hminus, Hplus. cbn [orb negb andb].
      unfold strconv.ParseUint. cbn [String.eqb]. rewrite Hslow.
      change (2 ^ 63) with 9223372036854775808.
      destruct (9223372036854775808 <=? v) eqn:E; [apply Z.leb_le in E; lia | reflexivity].
Qed.

Lemma Atoi_digits (p : positive) (neg : bool) :
  Z.pos p ≤ (if neg then 9223372036854775808 else 9223372036854775807) →
  strconv.Atoi ((if neg then "-" else "") +:+ pretty_N_go (N.pos p) "")
  = strconv.Num (if neg then Z.neg p else Z.pos p).
Proof.
  intros Hrange.
  destruct (pretty_N_go_head (N.pos p) "" ltac:(lia)) as (d & t & Hd & Ehead).
  destruct (digit_not_sign d Hd) as [Hminus Hplus].
  pose proof (fastDigits_pretty (N.pos p) "") as Hfast.
  assert (Hmax : Z.of_N (N.pos p) ≤ strconv.maxUint64).
  { unfold strconv.maxUint64. change (2 ^ 64 - 1) with 18446744073709551615.
    destruct neg; lia. }
  pose proof (uintDigits_pretty (N.pos p) "" Hmax) as Hslow.
  cbn [strconv.fastDigits strconv.uintDigits] in Hfast, Hslow.
  change (Z.of_N (N.pos p)) with (Z.pos p) in *.
  rewrite Ehead in *.
  exact (Atoi_of_digits _ t (Z.pos p) neg Hminus Hplus Hfast Hslow Hrange).
Qed.

Lemma Atoi_pretty (n : Z) :
  - 2 ^ 63 ≤ n < 2 ^ 63 → strconv.Atoi (pretty n) = strconv.Num n.
Proof.
  intros Hn. change (2 ^ 63) with 9223372036854775808 in Hn.
  destruct n as [| p | p].
  - reflexivity.
  - apply (Atoi_digits p false). lia.
  - apply (Atoi_digits p true). lia.
Qed.

Lemma pretty_Z_nonempty (n : Z) : pretty n ≠ "".
Proof.
  destruct n as [| p | p]; [discriminate | | discriminate].
  unfold pretty, pretty_Z, pretty, pretty_positive, pretty, pretty_N.
  destruct (decide (N.pos p = 0%N)); [discriminate |].
  destruct (pretty_N_go_head (N.pos p) "" ltac:(lia)) as (d & t & _ & ->).
  discriminate.
Qed.

(** X22.  An integer setting written in decimal is read back as the number it
    denotes, for every number of the range of [int]. *)
Theorem getEnvIntOrDefault_reads_decimal (environ : config.Environ)
        (key : string) (defaultValue n : Z) :
  - 2 ^ 63 ≤ n < 2 ^ 63 →
  environ !! key = Some (pretty n) →
  config.getEnvIntOrDefault environ key defaultValue = n.
Proof.
  intros Hn Hkey. unfold config.getEnvIntOrDefault, config.Getenv.
  rewrite Hkey. cbn [from_option id]. cbn zeta.
  destruct (String.eqb_spec (pretty n) "") as [E | _];
    [now apply pretty_Z_nonempty in E |].
  now rewrite Atoi_pretty.
Qed.

Lemma getEnvIntOrDefault_reads_decimal_witness :
  - 2 ^ 63 ≤ 25 < 2 ^ 63 ∧
  ({[ "MAX_ITEMS" := "25" ]} : config.Environ) !! "MAX_ITEMS" = Some (pretty 25) ∧
  config.getEnvIntOrDefault {[ "MAX_ITEMS" := "25" ]} "MAX_ITEMS" 10 = 25.
Proof.
  assert (H1 : - 2 ^ 63 ≤ 25 < 2 ^ 63) by lia.
  assert (H2 : ({[ "MAX_ITEMS" := "25" ]} : config.Environ) !! "MAX_ITEMS"
               = Some (pretty 25)) by reflexivity.
  repeat (split; [assumption |]).
  exact (getEnvIntOrDefault_reads_decimal _ "MAX_ITEMS" 10 25 H1 H2).
Defined.

(** ** The handlers that read and delete what is stored *)

Lemma mapBytes_length (f : ascii → string) (s : string) :
  (∀ c, String.length (f c) = 1%nat) →
  String.length (tts.mapBytes f s) = String.length s.
Proof.
  intros Hf. induction s as [| c s IH]; [reflexivity |].
  cbn [tts.mapBytes String.length]. rewrite string_length_app, Hf, IH. reflexivity.
Qed.

Lemma datePath_length (date : string) :
  String.length (strings.ReplaceAll date "-" "/") = String.length date.
Proof.
  rewrite ReplaceAll_byte by discriminate. apply mapBytes_length.
  intros c. now destruct (Ascii.eqb c "-").
Qed.

(** The three object names of [deleteContentHandler] differ from the name
    under which a run stores the merged audio of the date. *)
Lemma merged_not_new_format (date : string) :
  "audio/hacker-news-" +:+ date +:+ ".mp3" ≠ "audio/" +:+ date +:+ "-complete.mp3".
Proof.
  intros H. apply (f_equal String.length) in H.
  rewrite !string_length_app in H. cbn [String.length] in H. lia.
Qed.

Lemma merged_not_old_format (env date : string) :
  strings.ReplaceAll date "-" "/" +:+ "/" +:+ env +:+ "/hacker-news-" +:+ date +:+ ".mp3"
  ≠ "audio/" +:+ date +:+ "-complete.mp3".
Proof.
  intros H. pose proof (f_equal String.length H) as Hlen.
  rewrite !string_length_app, datePath_length in Hlen. cbn [String.length] in Hlen.
  destruct date as [| c [| c2 date]].
  - rewrite ReplaceAll_byte in H by discriminate. cbn [tts.mapBytes] in H.
    rewrite ?string_app_cons, ?string_app_nil_l in H. discriminate H.
  - destruct env as [| e env]; [| cbn [String.length] in Hlen; lia].
    rewrite ReplaceAll_byte in H by discriminate. cbn [tts.mapBytes] in H.
    destruct (Ascii.eqb c "-");
      rewrite ?string_app_cons, ?string_app_nil_l in H; discriminate H.
  - cbn [String.length] in Hlen. lia.
Qed.

Lemma content_not_merged (env date : string) :
  "content:" +:+ env +:+ ":hacker-news:" +:+ date ≠ "audio/" +:+ date +:+ "-complete.mp3".
Proof.
  intros H. rewrite ?string_app_cons, ?string_app_nil_l in H. discriminate H.
Qed.

(** X23.  [deleteContentHandler] rejects an empty date without touching the
    store.  For any other date it asks the store to delete three objects,
    the content record and the audio under its two older names, and
    answers 200 whatever the store says; the merged audio that a run
    uploads for the date has another name and stays in the store. *)
Theorem deleteContentHandler_deletes (s : api.Server) (env : handlers.Env)
        (w : handlers.World) (date : string) :
  let reply := fst (run (handlers.handle env) (handlers.deleteContentHandler s date) w) in
  let w' := snd (run (handlers.handle env) (handlers.deleteContentHandler s date) w) in
  if String.eqb date "" then
    reply = handlers.JSON 400 [("error", "日期不能为空")] ∧ w' = w
  else
    reply = handlers.JSON 200 [("message", "内容删除成功"); ("date", date)] ∧
    calls (drop (length (handlers.trace w)) (handlers.trace w'))
    = [handlers.DeleteFile (api.contentKeyOf s date);
       handlers.DeleteFile ("audio/hacker-news-" +:+ date +:+ ".mp3");
       handlers.DeleteFile (strings.ReplaceAll date "-" "/" +:+ "/"
                            +:+ api.config_Server_Env s +:+ "/hacker-news-"
                            +:+ date +:+ ".mp3")] ∧
    handlers.store w' !! ("audio/" +:+ date +:+ "-complete.mp3")
    = handlers.store w !! ("audio/" +:+ date +:+ "-complete.mp3").
Proof.
  unfold handlers.deleteContentHandler.
  destruct (String.eqb date ""); [split; reflexivity |].
  cbn [run bind mbind mret Prog_bind Prog_ret call handlers.handle handlers.answer
       fst snd handlers.trace handlers.store].
  split; [reflexivity |]. split.
  { rewrite <- !app_assoc, drop_app_length. reflexivity. }
  assert (Hrm : ∀ w0 k, k ≠ "audio/" +:+ date +:+ "-complete.mp3" →
                        (handlers.removeObject env w0 k).2
                          !! ("audio/" +:+ date +:+ "-complete.mp3")
                        = handlers.store w0 !! ("audio/" +:+ date +:+ "-complete.mp3")).
  { intros w0 k Hk. unfold handlers.removeObject.
    destruct (handlers.fault env _); cbn [snd]; try reflexivity.
    now apply lookup_delete_ne. }
  rewrite Hrm by apply merged_not_old_format. cbn [handlers.store].
  rewrite Hrm by apply merged_not_new_format. cbn [handlers.store].
  rewrite Hrm by apply content_not_merged. reflexivity.
Qed.

(** X24.  The content record that a run stores for a date is what the blog and
    the podcast handler serve for that date (today's, when the query
    names none): both read the object under the key of the run.  The
    podcast handler signs the audio URL first and fails when that fails;
    the URL it returns is the signed one, not the one of the record. *)
Theorem stored_record_is_served
        (json_Unmarshal : string → result handlers.Content) (s : api.Server)
        (env : handlers.Env) (w : handlers.World)
        (today query_date data : string) (content : handlers.Content) :
  let date := if String.eqb query_date "" then today else query_date in
  let n := length (handlers.trace w) in
  handlers.store w !! api.contentKeyOf s date = Some data →
  json_Unmarshal data = Ok content →
  handlers.fault env n = api.NoFault →
  handlers.fault env (S n) = api.NoFault →
  fst (run (handlers.handle env)
           (handlers.getBlogHandler json_Unmarshal s today query_date) w)
  = handlers.JSON 200 [("date", date);
                       ("title", "Hacker News 每日博客 " +:+ date);
                       ("content", handlers.Blog content)] ∧
  fst (run (handlers.handle env)
           (handlers.getPodcastHandler json_Unmarshal s today query_date) w)
  = match handlers.presigned env n with
    | Err _ => handlers.JSON 500 [("error", "获取播客失败")]
    | Ok presignedURL =>
      handlers.JSON 200 [("date", date);
                         ("title", "Hacker News 每日播客 " +:+ date);
                         ("intro", handlers.Intro content);
                         ("content", handlers.Podcast content);
                         ("audioUrl", presignedURL)]
    end.
Proof.
  intros date n Hdata Hparse H0 H1. subst n.
  unfold handlers.getBlogHandler, handlers.getPodcastHandler. fold date.
  unfold api.contentKeyOf in Hdata. split.
  - cbn [run bind mbind mret Prog_bind Prog_ret call handlers.handle handlers.answer
         fst snd handlers.trace handlers.store].
    unfold handlers.getObject. rewrite H0, Hdata.
    cbn [storage.DownloadFile run fst]. rewrite Hparse. reflexivity.
  - cbn [run bind mbind mret Prog_bind Prog_ret call handlers.handle handlers.answer
         fst snd handlers.trace handlers.store].
    destruct (handlers.presigned env (length (handlers.trace w))) as [url | err];
      cbn [storage.GetPresignedURL run bind mbind mret Prog_bind Prog_ret call
           handlers.handle handlers.answer fst snd handlers.trace handlers.store];
      [| reflexivity].
    unfold handlers.getObject. cbn [handlers.trace handlers.store].
    rewrite length_app, Nat.add_1_r. cbn [length]. rewrite H1, Hdata.
    cbn [storage.DownloadFile run fst]. rewrite Hparse. reflexivity.
Qed.

Lemma stored_record_is_served_witness :
  let w := {| handlers.store := {[ "content:production:hacker-news:2025-04-23" := "{}" ]};
              handlers.trace := [] |} in
  let content := {| handlers.Intro := "intro"; handlers.Podcast := "podcast";
                    handlers.Blog := "blog"; handlers.AudioURL := "" |} in
  let date := if String.eqb "2025-04-23" "" then "2025-10-31" else "2025-04-23" in
  let n := length (handlers.trace w) in
  handlers.store w !! api.contentKeyOf examples.server date = Some "{}" ∧
  (fun _ : string => Ok content) "{}" = Ok content ∧
  handlers.fault handlers.calm n = api.NoFault ∧
  handlers.fault handlers.calm (S n) = api.NoFault ∧
  fst (run (handlers.handle handlers.calm)
           (handlers.getBlogHandler (fun _ => Ok content) examples.server
                                    "2025-10-31" "2025-04-23") w)
  = handlers.JSON 200 [("date", date);
                       ("title", "Hacker News 每日博客 " +:+ date);
                       ("content", handlers.Blog content)] ∧
  fst (run (handlers.handle handlers.calm)
           (handlers.getPodcastHandler (fun _ => Ok content) examples.server
                                       "2025-10-31" "2025-04-23") w)
  = match handlers.presigned handlers.calm n with
    | Err _ => handlers.JSON 500 [("error", "获取播客失败")]
    | Ok presignedURL =>
      handlers.JSON 200 [("date", date);
                         ("title", "Hacker News 每日播客 " +:+ date);
                         ("intro", handlers.Intro content);
                         ("content", handlers.Podcast content);
                         ("audioUrl", presignedURL)]
    end.
Proof.
  intros w content date n.
  assert (H1 : handlers.store w !! api.contentKeyOf examples.server date = Some "{}")
    by (apply lookup_singleton_eq).
  assert (H2 : (fun _ : string => Ok content) "{}" = Ok content) by reflexivity.
  assert (H3 : handlers.fault handlers.calm n = api.NoFault) by reflexivity.
  assert (H4 : handlers.fault handlers.calm (S n) = api.NoFault) by reflexivity.
  repeat (split; [assumption |]).
  exact (stored_record_is_served (fun _ => Ok content) examples.server handlers.calm w
           "2025-10-31" "2025-04-23" "{}" content H1 H2 H3 H4).
Defined.

(** X25.  The merged audio that a run stores for a date is what
    [serveAudioHandler] serves under the file name
    [<date>-complete.mp3]. *)
Theorem merged_audio_is_served (env : handlers.Env) (w : handlers.World)
        (date audio : string) :
  handlers.store w !! ("audio/" +:+ date +:+ "-complete.mp3") = Some audio →
  handlers.fault env (length (handlers.trace w)) = api.NoFault →
  fst (run (handlers.handle env)
           (handlers.serveAudioHandler (date +:+ "-complete.mp3")) w)
  = handlers.Data [("Content-Type", "audio/mpeg"); ("Content-Disposition", "inline")]
                  audio.
Proof.
  intros Hdata H0. unfold handlers.serveAudioHandler.
  assert (E : String.eqb (date +:+ "-complete.mp3") "" = false)
    by (destruct date; reflexivity).
  rewrite E.
  cbn [run bind mbind mret Prog_bind Prog_ret call handlers.handle handlers.answer
       fst snd handlers.trace handlers.store].
  unfold handlers.getObject. rewrite H0, Hdata. reflexivity.
Qed.

Lemma merged_audio_is_served_witness :
  let w := {| handlers.store := {[ "audio/2025-04-23-complete.mp3" := "ID3" ]};
              handlers.trace := [] |} in
  handlers.store w !! ("audio/" +:+ "2025-04-23" +:+ "-complete.mp3") = Some "ID3" ∧
  handlers.fault handlers.calm (length (handlers.trace w)) = api.NoFault ∧
  fst (run (handlers.handle handlers.calm)
           (handlers.serveAudioHandler ("2025-04-23" +:+ "-complete.mp3")) w)
  = handlers.Data [("Content-Type", "audio/mpeg"); ("Content-Disposition", "inline")]
                  "ID3".
Proof.
  intros w.
  assert (H1 : handlers.store w !! ("audio/" +:+ "2025-04-23" +:+ "-complete.mp3")
               = Some "ID3") by (apply lookup_singleton_eq).
  assert (H2 : handlers.fault handlers.calm (length (handlers.trace w)) = api.NoFault)
    by reflexivity.
  repeat (split; [assumption |]).
  exact (merged_audio_is_served handlers.calm w "2025-04-23" "ID3" H1 H2).
Defined.

(** X26.  [ttsHandler] changes the store only when it answers 200: the store
    then holds the synthesized audio under the name [tts-<stamp>.mp3],
    and the URL of the reply is the one that the upload returned.  A
    request that cannot be bound is answered 400 without any call; a
    failed synthesis is answered 500 without an upload, a failed upload
    500 with the store as it was. *)
Theorem ttsHandler_stores_on_success (env : handlers.Env) (w : handlers.World)
        (stamp : string) (binding : result (string * string)) :
  let reply := fst (run (handlers.handle env) (handlers.ttsHandler stamp binding) w) in
  let w' := snd (run (handlers.handle env) (handlers.ttsHandler stamp binding) w) in
  let l := drop (length (handlers.trace w)) (handlers.trace w') in
  match binding with
  | Err _ => reply = handlers.JSON 400 [("error", "无效的请求参数")] ∧ w' = w
  | Ok (text, speaker) =>
    match handlers.synthesized env (length (handlers.trace w)) text speaker with
    | Err err =>
      reply = handlers.JSON 500 [("error", "文本转语音失败")] ∧
      l = [mkEntry (handlers.SynthesizeSpeech text speaker) (Err err)] ∧
      handlers.store w' = handlers.store w
    | Ok audio =>
      let filename := "tts-" +:+ stamp +:+ ".mp3" in
      ∃ uploaded : result string,
        l = [mkEntry (handlers.SynthesizeSpeech text speaker) (Ok audio);
             mkEntry (handlers.UploadFile filename audio "audio/mpeg") uploaded] ∧
        match uploaded with
        | Ok audioURL =>
          reply = handlers.JSON 200 [("audioUrl", audioURL)] ∧
          handlers.store w' = <[ filename := audio ]> (handlers.store w)
        | Err _ =>
          reply = handlers.JSON 500 [("error", "上传音频失败")] ∧
          handlers.store w' = handlers.store w
        end
    end
  end.
Proof.
  unfold handlers.ttsHandler.
  destruct binding as [[text speaker] | err]; [| split; reflexivity].
  cbn [run bind mbind mret Prog_bind Prog_ret call handlers.handle handlers.answer
       fst snd handlers.trace handlers.store].
  destruct (handlers.synthesized env (length (handlers.trace w)) text speaker)
    as [audio | err];
    cbn [run bind mbind mret Prog_bind Prog_ret call handlers.handle handlers.answer
         fst snd handlers.trace handlers.store].
  2: { split; [reflexivity |]. split; [| reflexivity].
       rewrite drop_app_length. reflexivity. }
  unfold handlers.putObject. cbn [handlers.trace handlers.store].
  rewrite length_app, Nat.add_1_r. cbn [length].
  destruct (handlers.fault env (S (length (handlers.trace w))));
    cbn [fst snd storage.UploadFile];
    [destruct (handlers.presigned env (S (length (handlers.trace w)))) | ..];
    cbn [run bind mbind mret Prog_bind Prog_ret fst snd handlers.trace handlers.store];
    (eexists; split;
     [rewrite <- !app_assoc, drop_app_length; cbn [app]; reflexivity
     | cbn beta iota; split; reflexivity]).
Qed.

(** ** Turns, waiting times and the footprint of a run *)

(** X5.  The loop over the script requests, whatever the synthesizer
    answers, exactly the turns of the kept lines, each once and in the
    order of the script, and makes no other call; the segments it
    collects are the audio of the requests that succeeded, in that order,
    so there are at most as many segments as kept lines; the store is not
    touched. *)
Theorem synthesizeTurns_keeps_successes (env : Env) (lines : list string) (w : World) :
  let audioSegments := fst (run (handle env) (synthesizeTurns lines []) w) in
  let w' := snd (run (handle env) (synthesizeTurns lines []) w) in
  calls (added w w')
  = map (fun conversation =>
           SynthesizeSpeech (textOf conversation) (speakerOf conversation))
        (List.filter turns.kept lines) ∧
  audioSegments = turns.synthesized (added w w') ∧
  (length audioSegments ≤ length (List.filter turns.kept lines))%nat ∧
  store w' = store w.
Proof.
  destruct (synthesizeTurns_run env lines [] w) as (Hst & l & Htr & Hcalls & Haudio & _).
  cbn zeta. rewrite (added_app _ _ _ Htr).
  assert (Hlen : length (calls l) = length (List.filter turns.kept lines)).
  { rewrite Hcalls. unfold turns.ofLines. now rewrite !length_map. }
  split.
  { rewrite Hcalls. unfold turns.ofLines. rewrite map_map. reflexivity. }
  split; [exact Haudio |]. split; [| exact Hst].
  rewrite Haudio, <- Hlen. cbn [app]. unfold calls. rewrite length_map.
  clear. induction l as [| [c r] l IH]; [reflexivity |].
  unfold turns.synthesized in *. cbn [flat_map length].
  rewrite length_app.
  assert (length (turns.audioOf (mkEntry c r)) ≤ 1)%nat.
  { destruct c; cbn; try lia. destruct r; cbn; lia. }
  lia.
Qed.

(** X6.  A line that begins with a speaker label and an ASCII colon: the
    speaker is the one of the label and the text handed to the
    synthesizer is the rest of the line, trimmed. *)
Theorem ascii_label_is_stripped (rest : string) :
  speakerOf ("男:" +:+ rest) = "男" ∧
  textOf ("男:" +:+ rest) = strings.TrimSpace rest ∧
  speakerOf ("女:" +:+ rest) = "女" ∧
  textOf ("女:" +:+ rest) = strings.TrimSpace rest.
Proof.
  assert (Hs : ∀ a b c d : ascii,
             sliceFrom (String a (String b (String c (String d rest)))) 4 = rest).
  { intros. rewrite !sliceFrom_S. apply sliceFrom_0. }
  split.
  { unfold speakerOf, strings.HasPrefix. now rewrite prefix_app. }
  split.
  { unfold textOf.
    assert (E : strings.IndexAny ("男:" +:+ rest) ":：" = 3) by reflexivity.
    rewrite E. cbn [Z.eqb negb]. change (Z.to_nat (3 + 1)) with 4%nat.
    rewrite !string_app_cons, string_app_nil_l. now rewrite Hs. }
  split; [reflexivity |].
  unfold textOf.
  assert (E : strings.IndexAny ("女:" +:+ rest) ":：" = 3) by reflexivity.
  rewrite E. cbn [Z.eqb negb]. change (Z.to_nat (3 + 1)) with 4%nat.
  rewrite !string_app_cons, string_app_nil_l. now rewrite Hs.
Qed.

(** X10.  The time a generation can take.  Its attempts are allowed two minutes
    each and it sleeps two seconds after a first failed attempt and four
    after a second: nothing when the first attempt succeeds, and never
    more than six seconds of sleep and six minutes of attempts. *)
Theorem generateText_waits (o : Oracle ai.Call ai.Resp)
        (req : ai.ChatCompletionRequest) :
  let cs := calls (snd (exec o (ai.generateText req))) in
  let attempts := length (List.filter ai.isAttempt cs) in
  waits.allowed cs = Z.of_nat attempts * (2 * Minute) ∧
  waits.slept cs = match attempts with
                   | 1%nat => 0
                   | 2%nat => 2 * Second
                   | _ => 6 * Second
                   end ∧
  (ai.failed (o 0%nat (ai.attempt req)) = false → waits.slept cs = 0).
Proof.
  unfold exec, ai.generateText, ai.attempt.
  lazy -[ai.failed].
  destruct (o 0%nat (ai.CreateChatCompletion _ req)) as [[[| t0 ch0] tok0] | e0].
  2: { repeat split. }
  all: destruct (o 2%nat (ai.CreateChatCompletion _ req)) as [[[| t1 ch1] tok1] | e1].
  2, 5: repeat split; intros H; discriminate H.
  all: destruct (o 4%nat (ai.CreateChatCompletion _ req)) as [[[| t2 ch2] tok2] | e2];
    repeat split; intros H; discriminate H.
Qed.

Ltac footprint_auto :=
  repeat (issues_step;
          match goal with
          | |- True => exact I
          | |- runs.footprint _ _ _ _ => cbn; auto
          | |- _ ∧ _ => split
          | |- ∀ _, _ => intro
          | |- issues _ (match ?x with _ => _ end) => destruct x
          | |- issues _ (if ?x then _ else _) => destruct x
          end).

Section Footprint.

Variable json_Marshal : Content → result string.
Variable json_Unmarshal : string → result Content.
Variable s : Server.
Variable date : string.
Variable maxItems : Z.

Lemma writeSegments_footprint (tempDir fl : string) (segs : list string) (i : nat) :
  issues (runs.footprint s date maxItems) (writeSegments tempDir fl i segs).
Proof.
  revert i. induction segs as [| seg rest IH]; intros i; [exact I |].
  cbn [writeSegments]. footprint_auto. apply IH.
Qed.

Lemma summarize_footprint (stories : list models.Story) (acc : list string) :
  issues (runs.footprint s date maxItems) (summarize s stories acc).
Proof.
  revert acc. induction stories as [| story rest IH]; intros acc; [exact I |].
  cbn [summarize]. footprint_auto; apply IH.
Qed.

Lemma synthesizeTurns_footprint (lines acc : list string) :
  issues (runs.footprint s date maxItems) (synthesizeTurns lines acc).
Proof.
  revert acc. induction lines as [| conversation rest IH]; intros acc; [exact I |].
  cbn [synthesizeTurns]. destruct (String.eqb _ ""); [apply IH |].
  issues_step. split; [apply speakerOf_cases |].
  intros [audio | err]; apply IH.
Qed.

(** Every call of a run lies in its footprint. *)
Lemma processHackerNews_footprint (force forceAudio : bool) :
  issues (runs.footprint s date maxItems)
         (processHackerNews json_Marshal json_Unmarshal s date maxItems force forceAudio).
Proof.
  assert (Hsyn : ∀ content podcastContent introContent,
             issues (runs.footprint s date maxItems)
                    (synthesize json_Marshal date (contentKeyOf s date)
                                content podcastContent introContent)).
  { intros. unfold synthesize.
    apply issues_mbind; [apply synthesizeTurns_footprint |]. intros segs.
    apply issues_mbind.
    { unfold mergeAndUpload. destruct (0 <? length segs)%nat; [| exact I].
      apply issues_mbind.
      { unfold mergeAudioBytes. footprint_auto.
        apply issues_mbind; [apply writeSegments_footprint |].
        intros r. footprint_auto. }
      intros m. unfold keys.merged. footprint_auto. }
    intros content'. unfold writeBack. footprint_auto. }
  assert (Hgen : issues (runs.footprint s date maxItems)
                        (generate json_Marshal s date maxItems (contentKeyOf s date))).
  { unfold generate. issues_step. split; [split; reflexivity |].
    intros [stories | err]; [| exact I].
    apply issues_mbind; [apply summarize_footprint |]. intros ts.
    destruct (length ts =? 0)%nat; [exact I |]. footprint_auto. }
  assert (Hload : issues (runs.footprint s date maxItems)
                         (load json_Unmarshal forceAudio (contentKeyOf s date))).
  { unfold load. footprint_auto. }
  unfold processHackerNews. issues_step. split; [exact I |]. intros _.
  apply issues_mbind.
  { unfold processBody. issues_step. split; [reflexivity |].
    intros [contentExists err].
    apply issues_mbind.
    { unfold contentFor. destruct (negb contentExists || force); assumption. }
    intros [[[content podcastContent] introContent] |]; [apply Hsyn | exact I]. }
  intros _. footprint_auto.
Qed.

End Footprint.

(** X1.  The traced calls of a run for [date] with [maxItems] lie in its
    footprint: the run reads and writes the store only at the content key
    and the merged audio of the date, lists the stories of that date with
    that item count, fetches under the configured token budget, requests
    speech for the two speakers only, paces with sleeps of two seconds and
    merges with ffmpeg in a temporary directory of its own. *)
Theorem run_footprint
        (json_Marshal : Content → result string)
        (json_Unmarshal : string → result Content)
        (s : Server) (env : Env) (date : string) (maxItems : Z)
        (force forceAudio : bool) (w : World) :
  let w' := after env (processHackerNews json_Marshal json_Unmarshal s date maxItems
                                         force forceAudio) w in
  Forall (runs.footprint s date maxItems) (calls (added w w')).
Proof. apply issues_run, processHackerNews_footprint. Qed.

Lemma GetTopStories_returns (maxItems : Z) (o : crawler.PageOutcome) :
  0 ≤ maxItems → crawler.GetTopStories maxItems o ≠ None.
Proof.
  intros Hpos. unfold crawler.GetTopStories. destruct o; try discriminate.
  cbn zeta. destruct (maxItems <? Z.of_nat _); [| discriminate].
  destruct (maxItems <? 0) eqn:E; [apply Z.ltb_lt in E; lia | discriminate].
Qed.

Section Started.

Variable json_Marshal : Content → result string.
Variable json_Unmarshal : string → result Content.
Variable s : Server.

(** A run begins with the existence check at the content key of its
    date, and the goroutine that wraps it leaves the flag cleared. *)
Lemma background_run (env : Env) (req : ProcessRequest) (w : World) :
  let w' := after env (background json_Marshal json_Unmarshal s req) w in
  head (calls (added w w')) = Some (ObjectExists (contentKeyOf s (Date req))) ∧
  isProcessing w' = false.
Proof.
  cbn zeta. unfold background, after.
  rewrite run_mbind. run_step.
  fold (after env (processHackerNews json_Marshal json_Unmarshal s (Date req)
                     (MaxItems req) (Force req) (ForceAudio req)) w).
  rewrite processHackerNews_run. cbn zeta.
  split; [| reflexivity].
  unfold added. cbn [trace setIsProcessing setLastProcessed].
  rewrite processBody_run. cbn zeta.
  set (key := contentKeyOf s (Date req)).
  set (re := storage.ObjectExists _).
  set (w0 := record (mkEntry (ObjectExists key) re) (setIsProcessing true w)).
  assert (Htr0 : trace w0 = trace w ++ [mkEntry (ObjectExists key) re]) by reflexivity.
  clearbody w0.
  destruct (run_frame env (contentFor json_Marshal json_Unmarshal s (Date req)
                             (MaxItems req) (Force req) (ForceAudio req) (fst re)) w0)
    as (l1 & Htr1).
  unfold after in Htr1.
  destruct (run (handle env) (contentFor _ _ _ _ _ _ _ _) w0)
    as [[[[content podcastContent] introContent] |] w1]; cbn [fst snd] in *.
  - destruct (run_frame env (synthesize json_Marshal (Date req) key content
                               podcastContent introContent) w1) as (l2 & Htr2).
    rewrite Htr2, Htr1, Htr0, <- !app_assoc, drop_app_length.
    reflexivity.
  - rewrite Htr1, Htr0, <- !app_assoc, drop_app_length. reflexivity.
Qed.

End Started.

(** X9.  A request that does not bind is answered 400 and starts nothing.
    One that binds is answered at once with the effective date (the
    current date when the request names none), sets the flag and starts
    exactly one goroutine: the run for that date, with the effective
    item count (the configured one when the request gives none) and the
    flags of the request, followed by the clearing of the flag.  That
    goroutine stays in the footprint of a run for the date, begins with
    the existence check at the content key of the date and leaves the
    flag cleared; with a positive configured item count and a known
    current date, it lists the stories of a day that is named and with a
    positive item count, for which [GetTopStories] does not panic. *)
Theorem processHandler_starts_listing_run
        (json_Marshal : Content → result string)
        (json_Unmarshal : string → result Content)
        (s : Server) (today : string) (binding : result ProcessRequest) (m : Machine) :
  let reply := fst (processHandler json_Marshal json_Unmarshal s today binding m) in
  let m' := snd (processHandler json_Marshal json_Unmarshal s today binding m) in
  match binding with
  | Err _ => reply = BadRequest "无效的请求参数" ∧ m' = m
  | Ok req =>
    let date := if String.eqb (Date req) "" then today else Date req in
    let maxItems := if MaxItems req <=? 0 then config_HackerNews_MaxItems s
                    else MaxItems req in
    let p := processHackerNews json_Marshal json_Unmarshal s date maxItems
                               (Force req) (ForceAudio req);;
             call (SetIsProcessing false) in
    reply = Started date "处理已开始" ∧
    goroutines m' = goroutines m ++ [p] ∧
    world m' = setIsProcessing true (world m) ∧
    getStatusHandler m' = true ∧
    issues (runs.footprint s date maxItems) p ∧
    (∀ (env : Env) (w : World),
       head (calls (added w (after env p w))) = Some (ObjectExists (contentKeyOf s date)) ∧
       isProcessing (after env p w) = false) ∧
    (0 < config_HackerNews_MaxItems s → today ≠ "" →
     date ≠ "" ∧ 0 < maxItems ∧ issues listing.wellFormed p)
  end.
Proof.
  cbn zeta. unfold processHandler.
  destruct binding as [req | err]; [| split; reflexivity].
  cbn [fst snd goroutines world].
  split; [reflexivity |]. split; [reflexivity |]. split; [reflexivity |].
  split; [reflexivity |].
  assert (Hfoot : issues (runs.footprint s (Date (defaults s today req))
                                         (MaxItems (defaults s today req)))
                         (background json_Marshal json_Unmarshal s (defaults s today req))).
  { unfold background. apply issues_mbind; [apply processHackerNews_footprint |].
    intros _. footprint_auto. }
  split; [exact Hfoot |].
  split; [intros env w; exact (background_run json_Marshal json_Unmarshal s env
                                 (defaults s today req) w) |].
  intros Hcfg Htoday.
  assert (Hdate : (if String.eqb (Date req) "" then today else Date req) ≠ "").
  { destruct (String.eqb_spec (Date req) ""); [exact Htoday | assumption]. }
  assert (Hpos : 0 < (if MaxItems req <=? 0 then config_HackerNews_MaxItems s
                      else MaxItems req)).
  { destruct (MaxItems req <=? 0) eqn:E; [exact Hcfg | apply Z.leb_gt in E; exact E]. }
  split; [exact Hdate |]. split; [exact Hpos |].
  eapply issues_impl; [| exact Hfoot].
  intros c Hc. destruct c; try exact I. cbn in Hc |- *. destruct Hc as [-> ->].
  split; [exact Hdate |]. split; [exact Hpos |].
  intros o. apply GetTopStories_returns. lia.
Qed.

(** A request for the date of the example artifact that names ten items:
    the goroutine started is the run for that date with ten items. *)
Lemma processHandler_starts_listing_run_witness :
  let m' := snd (processHandler artifact.Marshal artifact.Unmarshal examples.server
                                "2025-10-31" (Ok twice.request) twice.idle) in
  let p := processHackerNews artifact.Marshal artifact.Unmarshal examples.server
                             artifact.date 10 false false;;
           call (SetIsProcessing false) in
  fst (processHandler artifact.Marshal artifact.Unmarshal examples.server
                      "2025-10-31" (Ok twice.request) twice.idle)
  = Started artifact.date "处理已开始" ∧
  goroutines m' = [p] ∧
  getStatusHandler m' = true ∧
  issues listing.wellFormed p.
Proof.
  pose proof (processHandler_starts_listing_run artifact.Marshal artifact.Unmarshal
                examples.server "2025-10-31" (Ok twice.request) twice.idle)
    as (Hreply & Hgo & _ & Hflag & _ & _ & Hlist).
  assert (H1 : 0 < config_HackerNews_MaxItems examples.server) by reflexivity.
  assert (H2 : "2025-10-31" ≠ "") by discriminate.
  destruct (Hlist H1 H2) as (_ & _ & Hwell).
  cbn zeta. split; [exact Hreply |]. split; [exact Hgo |].
  split; [exact Hflag | exact Hwell].
Defined.

(** ** The generation branch *)

Section Forced.

Variable json_Marshal : Content → result string.
Variable s : Server.

Lemma generate_never_downloads (date : string) (maxItems : Z) (contentKey : string) :
  issues (fun c => branches.isDownloadFile c = false)
         (generate json_Marshal s date maxItems contentKey).
Proof.
  assert (Hsum : ∀ stories acc,
             issues (fun c => branches.isDownloadFile c = false)
                    (summarize s stories acc)).
  { intros stories. induction stories as [| story rest IH]; intros acc; [exact I |].
    cbn [summarize]. issues_auto; apply IH. }
  unfold generate. issues_step. split; [reflexivity |].
  intros [stories | err]; [| exact I].
  apply issues_mbind; [apply Hsum |]. intros ts.
  destruct (length ts =? 0)%nat; [exact I |]. issues_auto.
Qed.

Lemma synthesize_never_downloads (date contentKey : string) (content : Content)
      (podcastContent introContent : string) :
  issues (fun c => branches.isDownloadFile c = false)
         (synthesize json_Marshal date contentKey content podcastContent introContent).
Proof.
  assert (Hseg : ∀ tempDir fl segs i,
             issues (fun c => branches.isDownloadFile c = false)
                    (writeSegments tempDir fl i segs)).
  { intros tempDir fl segs. induction segs as [| seg rest IH]; intros i; [exact I |].
    cbn [writeSegments]. issues_auto. apply IH. }
  assert (Hturns : ∀ lines acc,
             issues (fun c => branches.isDownloadFile c = false)
                    (synthesizeTurns lines acc)).
  { intros lines. induction lines as [| conversation rest IH]; intros acc; [exact I |].
    cbn [synthesizeTurns]. destruct (String.eqb _ ""); [apply IH |].
    issues_step. split; [reflexivity |]. intros [audio | err]; apply IH. }
  unfold synthesize.
  apply issues_mbind; [apply Hturns |]. intros segs.
  apply issues_mbind.
  { unfold mergeAndUpload. destruct (0 <? length segs)%nat; [| exact I].
    apply issues_mbind.
    { unfold mergeAudioBytes. issues_auto.
      apply issues_mbind; [apply Hseg |]. intros r. issues_auto. }
    intros m. issues_auto. }
  intros content'. unfold writeBack. issues_auto.
Qed.

End Forced.

(** X27.  When [force] is set, or when the existence check does not report
    the record (the store has no object under the content key, the object
    is empty, or the check itself fails), the run takes the generation
    branch: after the existence check it asks for the stories of the date
    and it never downloads the stored record. *)
Theorem generation_branch_is_taken
        (json_Marshal : Content → result string)
        (json_Unmarshal : string → result Content)
        (s : Server) (env : Env) (date : string) (maxItems : Z)
        (force forceAudio : bool) (w : World) :
  force = true
  ∨ fault env (length (trace w)) ≠ NoFault
  ∨ store w !! contentKeyOf s date = None
  ∨ store w !! contentKeyOf s date = Some "" →
  let w' := after env (processHackerNews json_Marshal json_Unmarshal s date maxItems
                                         force forceAudio) w in
  ∃ rest,
    calls (added w w')
    = ObjectExists (contentKeyOf s date) :: GetTopStories date maxItems :: rest ∧
    Forall (fun c => branches.isDownloadFile c = false) rest.
Proof.
  intros Hcase w'. subst w'. rewrite processHackerNews_run.
  unfold added. cbn [trace setLastProcessed setIsProcessing].
  rewrite processBody_run. cbn zeta.
  set (key := contentKeyOf s date) in *.
  set (re := storage.ObjectExists (getObject env (setIsProcessing true w) key)).
  assert (Hbranch : negb (fst re) || force = true).
  { destruct Hcase as [-> | Hcase]; [apply orb_true_r |].
    apply orb_true_iff. left. apply negb_true_iff. subst re.
    unfold getObject. cbn [trace store setIsProcessing].
    destruct Hcase as [Hf | [Hnone | Hempty]].
    - destruct (fault env (length (trace w))); [contradiction | reflexivity ..].
    - destruct (fault env (length (trace w))); [| reflexivity ..].
      now rewrite Hnone.
    - destruct (fault env (length (trace w))); [| reflexivity ..].
      now rewrite Hempty. }
  unfold contentFor. fold key. rewrite Hbranch.
  set (w1 := record _ (setIsProcessing true w)).
  assert (Htr1 : trace w1 = trace w ++ [mkEntry (ObjectExists key) re]) by reflexivity.
  clearbody w1 re.
  destruct (generate_run json_Marshal s env date maxItems key w1)
    as (rs & lsum & ltail & Htr2 & _).
  destruct (issues_run_from env _ (generate json_Marshal s date maxItems key) w1
              (generate_never_downloads json_Marshal s date maxItems key))
    as (l1 & Htr2' & Hq1).
  unfold after in Htr2'. rewrite Htr2 in Htr2'. apply app_inv_head in Htr2'.
  subst l1. cbn [app calls map callOf] in Hq1. apply Forall_cons in Hq1 as [_ Hq1].
  fold (calls (lsum ++ ltail)) in Hq1.
  destruct (run (handle env) (generate json_Marshal s date maxItems key) w1)
    as [[[[content podcastContent] introContent] |] w2]; cbn [fst snd] in *.
  - destruct (issues_run_from env _ _ w2
                (synthesize_never_downloads json_Marshal date key content
                                            podcastContent introContent))
      as (l2 & Htr3 & Hq2).
    exists (calls (lsum ++ ltail) ++ calls l2). split.
    + rewrite Htr3, Htr2, Htr1, <- !app_assoc, drop_app_length.
      unfold calls. rewrite !map_app. cbn [map app callOf].
      rewrite <- ?app_assoc. reflexivity.
    + apply Forall_app. split; assumption.
  - exists (calls (lsum ++ ltail)). split; [| exact Hq1].
    rewrite Htr2, Htr1, <- !app_assoc, drop_app_length.
    unfold calls. rewrite !map_app. cbn [map app callOf].
    rewrite <- ?app_assoc. reflexivity.
Qed.

Lemma generation_branch_is_taken_witness :
  (false = true
   ∨ fault examples.env (length (trace examples.world)) ≠ NoFault
   ∨ store examples.world !! contentKeyOf examples.server "2025-04-23" = None
   ∨ store examples.world !! contentKeyOf examples.server "2025-04-23" = Some "") ∧
  let w' := after examples.env
                  (processHackerNews artifact.Marshal artifact.Unmarshal examples.server
                                     "2025-04-23" 10 false false) examples.world in
  ∃ rest,
    calls (added examples.world w')
    = ObjectExists (contentKeyOf examples.server "2025-04-23")
        :: GetTopStories "2025-04-23" 10 :: rest ∧
    Forall (fun c => branches.isDownloadFile c = false) rest.
Proof.
  assert (H : false = true
              ∨ fault examples.env (length (trace examples.world)) ≠ NoFault
              ∨ store examples.world !! contentKeyOf examples.server "2025-04-23" = None
              ∨ store examples.world !! contentKeyOf examples.server "2025-04-23"
                = Some "")
    by (right; right; left; reflexivity).
  split; [exact H |].
  exact (generation_branch_is_taken artifact.Marshal artifact.Unmarshal examples.server
           examples.env "2025-04-23" 10 false false examples.world H).
Defined.
